(** * vk2tg: the wall manager [VKParser] of [vk.py]

    A shallow embedding of the methods of [VKParser] that enumerate the wall,
    delete its posts behind a confirmation prompt and export post texts,
    together with the properties the specification states about them.

    The script talks to three things outside itself: the HTTP session, the
    console and the clock.  They are kept explicit: the session is an
    interface ([Remote]) with a state of its own, the console is a queue of
    input lines and a trace of events, the clock's date formatting is an
    interface ([Clock]).  Python exceptions are an outcome of their own, so
    that a crash of the script is visible in the model. *)

From Stdlib Require Import ZArith List String Ascii Bool Lia.
From Stdlib Require Import Floats.SpecFloat.
Import ListNotations.

#[local] Set Warnings "-register-all".

Open Scope Z_scope.
Open Scope list_scope.

(** ** Python values *)

Module Py.

(** A Python [str] is a sequence of Unicode code points: [len], slicing and
    [strip] count code points, not bytes. *)
Definition codepoint := N.
Definition pystr := list codepoint.

(** Decoding of a literal of this file (UTF-8, as [vk.py] itself) into the
    code points of the Python literal. *)
Definition cont (a : ascii) : N := N.land (N_of_ascii a) 63.

Fixpoint utf8_decode (s : string) : pystr :=
  match s with
  | EmptyString => []
  | String a s1 =>
    let n := N_of_ascii a in
    if (n <? 128)%N then n :: utf8_decode s1
    else if (n <? 224)%N then
      match s1 with
      | String b s2 => (N.land n 31 * 64 + cont b)%N :: utf8_decode s2
      | _ => [n]
      end
    else if (n <? 240)%N then
      match s1 with
      | String b (String c s3) =>
        (N.land n 15 * 4096 + cont b * 64 + cont c)%N :: utf8_decode s3
      | _ => [n]
      end
    else
      match s1 with
      | String b (String c (String d s4)) =>
        (N.land n 7 * 262144 + cont b * 4096 + cont c * 64 + cont d)%N
          :: utf8_decode s4
      | _ => [n]
      end
  end.

Definition u : string -> pystr := utf8_decode.

Definition str_eqb (s t : pystr) : bool :=
  if list_eq_dec N.eq_dec s t then true else false.

Fixpoint startswith (s p : pystr) : bool :=
  match p, s with
  | [], _ => true
  | _ :: _, [] => false
  | c :: p', d :: s' => (c =? d)%N && startswith s' p'
  end.

(** [p in s] for two strings: [p] occurs in [s] as a substring. *)
Fixpoint str_contains (s p : pystr) : bool :=
  startswith s p ||
  match s with
  | [] => false
  | _ :: s' => str_contains s' p
  end.

(** [str.isspace] on one code point (the whitespace table of CPython). *)
Definition isspace (c : codepoint) : bool :=
  ((9 <=? c) && (c <=? 13) || (28 <=? c) && (c <=? 32)
   || (c =? 133) || (c =? 160) || (c =? 5760)
   || (8192 <=? c) && (c <=? 8202)
   || (c =? 8232) || (c =? 8233) || (c =? 8239) || (c =? 8287)
   || (c =? 12288))%N.

Fixpoint lstrip (s : pystr) : pystr :=
  match s with
  | [] => []
  | c :: s' => if isspace c then lstrip s' else s
  end.

Definition rstrip (s : pystr) : pystr := rev (lstrip (rev s)).

(** [s.strip()] *)
Definition strip (s : pystr) : pystr := rstrip (lstrip s).

(** What [json()] can return, and [None].  A [dict] keeps its keys in
    insertion order; the keys of a parsed JSON object are pairwise distinct
    and a lookup takes the first binding. *)
Inductive pyval : Type :=
| PNone
| PBool (b : bool)
| PInt (z : Z)
| PFloat (f : spec_float)
| PStr (s : pystr)
| PList (l : list pyval)
| PDict (d : list (pystr * pyval)).

Inductive exn : Type :=
| TypeError
| KeyError
| AttributeError
| EOFError.

Inductive result (A : Type) : Type :=
| Ok (a : A)
| Err (e : exn).
Arguments Ok {A} a.
Arguments Err {A} e.

Fixpoint dict_get (k : pystr) (d : list (pystr * pyval)) : option pyval :=
  match d with
  | [] => None
  | (k', v) :: d' => if str_eqb k' k then Some v else dict_get k d'
  end.

Definition float_is_zero (f : spec_float) : bool :=
  match f with
  | S754_zero _ => true
  | _ => false
  end.

(** The float 1.0, in the normal form of binary64. *)
Definition float_one : spec_float := S754_finite false 4503599627370496 (-52).

(** [bool(v)]: the truth value Python's [if], [not] and [and] test. *)
Definition truthy (v : pyval) : bool :=
  match v with
  | PNone => false
  | PBool b => b
  | PInt z => negb (z =? 0)
  | PFloat f => negb (float_is_zero f)
  | PStr s => match s with [] => false | _ => true end
  | PList l => match l with [] => false | _ => true end
  | PDict d => match d with [] => false | _ => true end
  end.

Definition is_str (k : pystr) (v : pyval) : bool :=
  match v with
  | PStr s => str_eqb s k
  | _ => false
  end.

(** [k in v] for a string [k]: key of a dict, element of a list, substring
    of a string; the other values are not containers. *)
Definition contains (k : pystr) (v : pyval) : result bool :=
  match v with
  | PDict d => Ok (match dict_get k d with Some _ => true | None => false end)
  | PList l => Ok (existsb (is_str k) l)
  | PStr s => Ok (str_contains s k)
  | _ => Err TypeError
  end.

(** [v[k]] for a string [k]. *)
Definition getitem (v : pyval) (k : pystr) : result pyval :=
  match v with
  | PDict d => match dict_get k d with Some x => Ok x | None => Err KeyError end
  | _ => Err TypeError
  end.

(** [v == z] for an int [z]: [True == 1] and [1.0 == 1] hold in Python. *)
Definition eq_int (v : pyval) (z : Z) : bool :=
  match v with
  | PInt n => n =? z
  | PBool b => (if b then 1 else 0) =? z
  | PFloat f => if z =? 1 then SFeqb f float_one else false
  | _ => false
  end.

(** [len(v)] *)
Definition len (v : pyval) : result Z :=
  match v with
  | PStr s => Ok (Z.of_nat (List.length s))
  | PList l => Ok (Z.of_nat (List.length l))
  | PDict d => Ok (Z.of_nat (List.length d))
  | _ => Err TypeError
  end.

(** The elements [list.extend(v)] appends: those of a list, the characters
    of a string, the keys of a dict. *)
Definition iter (v : pyval) : result (list pyval) :=
  match v with
  | PList l => Ok l
  | PStr s => Ok (map (fun c => PStr [c]) s)
  | PDict d => Ok (map (fun kv => PStr (fst kv)) d)
  | _ => Err TypeError
  end.

(** [v[:n]]; a dict takes no slice (TypeError before Python 3.12). *)
Definition slice_to (n : nat) (v : pyval) : result pyval :=
  match v with
  | PStr s => Ok (PStr (firstn n s))
  | PList l => Ok (PList (firstn n l))
  | _ => Err TypeError
  end.

(** [v + w] where [w] is a string. *)
Definition add_str (v : pyval) (w : pystr) : result pyval :=
  match v with
  | PStr s => Ok (PStr (s ++ w))
  | _ => Err TypeError
  end.

(** [v.strip()]: only a string has the method. *)
Definition strip_method (v : pyval) : result pyval :=
  match v with
  | PStr s => Ok (PStr (strip s))
  | _ => Err AttributeError
  end.

End Py.
Import Py.

(** ** The world outside the script *)

(** What [session.get(url, params, timeout=30).json()] does: it yields the
    parsed body, or raises (no connection, timeout, a body that is not JSON). *)
Inductive http_result : Type :=
| Json (v : pyval)
| Failed (msg : string).

Definition params := list (string * pyval).

(** The HTTP session and the service behind it, with a state [W] of its
    own that a request may change. *)
Class Remote (W : Type) : Type :=
  { session_get : W -> string -> params -> http_result * W }.

(** [time.strftime(fmt, time.localtime(t))] for a value [t]. *)
Class Clock : Type :=
  { strftime_localtime : string -> pyval -> result pystr }.

(** A printed line, as the pieces of its f-string: literal text as written
    in [vk.py], an int, a string, [str(v)] of a value. *)
Inductive frag : Type :=
| Lit (s : string)
| Num (z : Z)
| Str (s : pystr)
| Val (v : pyval).

Inductive event : Type :=
| Print (line : list frag)
| Input (prompt : list frag)
| Get (url : string) (p : params)
| Sleep (ms : Z).

(** The fields of [self] the methods read. *)
Record VKParser : Type := mkVKParser
  { access_token : option pystr;
    user_id : pyval }.

(** The machine state: the remote service, the lines still to be typed at
    the console, the events so far (newest first), and the two counters of
    the running deletion loop. *)
Record state (W : Type) : Type := mkState
  { remote : W;
    stdin : list pystr;
    trace : list event;
    deleted_count : Z;
    error_count : Z }.
Arguments mkState {W}.
Arguments remote {W}.
Arguments stdin {W}.
Arguments trace {W}.
Arguments deleted_count {W}.
Arguments error_count {W}.

(** ** The monad of the script: state, exceptions, and a loop bound *)

Inductive outcome (A : Type) : Type :=
| Returns (a : A)
| Raises (e : exn)
| Unfinished.
Arguments Returns {A} a.
Arguments Raises {A} e.
Arguments Unfinished {A}.

Definition M (W A : Type) : Type := state W -> outcome A * state W.

Definition ret {W A} (a : A) : M W A := fun st => (Returns a, st).

Definition bind {W A B} (m : M W A) (k : A -> M W B) : M W B :=
  fun st =>
    match m st with
    | (Returns a, st1) => k a st1
    | (Raises e, st1) => (Raises e, st1)
    | (Unfinished, st1) => (Unfinished, st1)
    end.

Declare Scope vk_scope.
Delimit Scope vk_scope with vk.
Notation "x <- m ;; k" := (bind m (fun x => k))
  (at level 61, m at next level, right associativity) : vk_scope.
Notation "m ;; k" := (bind m (fun _ => k))
  (at level 61, right associativity) : vk_scope.
Open Scope vk_scope.

Definition lift {W A} (r : result A) : M W A :=
  fun st =>
    match r with
    | Ok a => (Returns a, st)
    | Err e => (Raises e, st)
    end.

Definition unfinished {W A} : M W A := fun st => (Unfinished, st).

Definition emit {W} (e : event) : M W unit :=
  fun st =>
    (Returns tt,
     mkState (remote st) (stdin st) (e :: trace st)
             (deleted_count st) (error_count st)).

Definition print {W} (line : list frag) : M W unit := emit (Print line).

(** [time.sleep], in milliseconds. *)
Definition sleep {W} (ms : Z) : M W unit := emit (Sleep ms).

(** [input(prompt)]: shows the prompt, then reads a line; at the end of the
    input it raises [EOFError]. *)
Definition input {W} (prompt : list frag) : M W pystr :=
  fun st =>
    match stdin st with
    | [] =>
      (Raises EOFError,
       mkState (remote st) [] (Input prompt :: trace st)
               (deleted_count st) (error_count st))
    | l :: rest =>
      (Returns l,
       mkState (remote st) rest (Input prompt :: trace st)
               (deleted_count st) (error_count st))
    end.

Definition set_counts {W} (d e : Z) : M W unit :=
  fun st => (Returns tt, mkState (remote st) (stdin st) (trace st) d e).

Definition incr_deleted {W} : M W unit :=
  fun st =>
    (Returns tt,
     mkState (remote st) (stdin st) (trace st)
             (deleted_count st + 1) (error_count st)).

Definition incr_error {W} : M W unit :=
  fun st =>
    (Returns tt,
     mkState (remote st) (stdin st) (trace st)
             (deleted_count st) (error_count st + 1)).

Definition get_deleted {W} : M W Z := fun st => (Returns (deleted_count st), st).
Definition get_error {W} : M W Z := fun st => (Returns (error_count st), st).

Definition nl : string := String "010" EmptyString.

(** Sequencing of pure Python expressions that may raise. *)
Definition and_then {A B} (r : result A) (k : A -> result B) : result B :=
  match r with
  | Ok a => k a
  | Err e => Err e
  end.

Notation "'do' x <- r ; k" := (and_then r (fun x => k))
  (at level 10, x name, r at level 100, k at level 200) : vk_scope.

(** ** The methods of [VKParser] *)

Section VKParser.

Context {W : Type} {R : Remote W} {C : Clock}.

(** [not self.access_token]: no token yet, or an empty one. *)
Definition no_token (self : VKParser) : bool :=
  match access_token self with
  | None => true
  | Some [] => true
  | Some (_ :: _) => false
  end.

Definition token_value (self : VKParser) : pyval :=
  match access_token self with
  | None => PNone
  | Some s => PStr s
  end.

Definition api_url (method : string) : string :=
  ("https://api.vk.com/method/" ++ method)%string.

(** The parameters of a request once [_make_api_request] has added the
    token and the version. *)
Definition sent (self : VKParser) (p : params) : params :=
  p ++ [("access_token"%string, token_value self);
        ("v"%string, PStr (u "5.131"))].

(** [_make_api_request]: the token and the version are added to the
    parameters, and whatever the request raises is caught, reported and
    turned into [None]. *)
Definition _make_api_request (self : VKParser) (method : string) (p : params)
  : M W pyval :=
  fun st =>
    let p1 := sent self p in
    match session_get (remote st) (api_url method) p1 with
    | (Json v, w) =>
      (Returns v,
       mkState w (stdin st) (Get (api_url method) p1 :: trace st)
               (deleted_count st) (error_count st))
    | (Failed msg, w) =>
      (Returns PNone,
       mkState w (stdin st)
               (Print [Lit "Ошибка при запросе к API: "; Lit msg]
                  :: Get (api_url method) p1 :: trace st)
               (deleted_count st) (error_count st))
    end.

Definition count : Z := 100.

(** The [while True] loop of [get_all_posts], one round per unit of [fuel]. *)
Fixpoint get_all_posts_loop (fuel : nat) (self : VKParser)
         (all_posts : list pyval) (offset : Z) : M W (list pyval) :=
  match fuel with
  | O => unfinished
  | S fuel1 =>
    print [Lit "Загружаю посты, offset: "; Num offset];;
    response <- _make_api_request self "wall.get"
                  [("owner_id"%string, user_id self);
                   ("count"%string, PInt count);
                   ("offset"%string, PInt offset)];;
    failed <- (if negb (truthy response) then ret true
               else lift (do b <- contains (u "response") response;
                          Ok (negb b)));;
    if failed then
      print [Lit "Ошибка при получении постов"];;
      ret all_posts
    else
      posts <- lift (do r <- getitem response (u "response");
                     getitem r (u "items"));;
      if negb (truthy posts) then ret all_posts
      else
        items <- lift (iter posts);;
        let all_posts := all_posts ++ items in
        let offset := offset + count in
        sleep 500;;
        n <- lift (len posts);;
        if n <? count then ret all_posts
        else get_all_posts_loop fuel1 self all_posts offset
  end.

Definition get_all_posts (fuel : nat) (self : VKParser) : M W (list pyval) :=
  if no_token self then
    print [Lit "Сначала выполните авторизацию!"];;
    ret []
  else
    print [Lit "Начинаю сбор постов..."];;
    get_all_posts_loop fuel self [] 0.

(** The test both deletion loops make on the answer to [wall.delete]:
    [response and 'response' in response and response['response'] == 1]. *)
Definition is_deleted (response : pyval) : result bool :=
  if truthy response then
    do b <- contains (u "response") response;
    if b then
      do r <- getitem response (u "response");
      Ok (eq_int r 1)
    else Ok false
  else Ok false.

Definition delete_params (self : VKParser) (id : pyval) : params :=
  [("owner_id"%string, user_id self); ("post_id"%string, id)].

(** One round of the [for] loop of [delete_all_posts]. *)
Definition delete_all_posts_round (self : VKParser) (n i : Z) (post : pyval)
  : M W unit :=
  print [Lit "Удаляю пост "; Num i; Lit "/"; Num n; Lit "..."];;
  id <- lift (getitem post (u "id"));;
  response <- _make_api_request self "wall.delete" (delete_params self id);;
  ok <- lift (is_deleted response);;
  (if ok then
     incr_deleted;;
     id1 <- lift (getitem post (u "id"));;
     print [Lit "✓ Пост "; Val id1; Lit " удален"]
   else
     incr_error;;
     id1 <- lift (getitem post (u "id"));;
     print [Lit "✗ Ошибка удаления поста "; Val id1];;
     has_error <- lift (contains (u "error") response);;
     if has_error then
       code <- lift (do e <- getitem response (u "error");
                     getitem e (u "error_code"));;
       print [Lit "   Код ошибки: "; Val code];;
       msg <- lift (do e <- getitem response (u "error");
                    getitem e (u "error_msg"));;
       print [Lit "   Сообщение: "; Val msg]
     else ret tt);;
  sleep 1000.

Fixpoint delete_all_posts_loop (self : VKParser) (n i : Z)
         (posts : list pyval) : M W unit :=
  match posts with
  | [] => ret tt
  | post :: rest =>
    delete_all_posts_round self n i post;;
    delete_all_posts_loop self n (i + 1) rest
  end.

(** [delete_all_posts] from the point where posts were found. *)
Definition delete_all_posts_found (self : VKParser) (posts : list pyval)
  : M W bool :=
  let n := Z.of_nat (List.length posts) in
  print [Lit "Найдено постов для удаления: "; Num n];;
  set_counts 0 0;;
  delete_all_posts_loop self n 1 posts;;
  print [Lit nl; Lit "Результат удаления:"];;
  d <- get_deleted;;
  print [Lit "Успешно удалено: "; Num d];;
  e <- get_error;;
  print [Lit "Ошибок: "; Num e];;
  e1 <- get_error;;
  ret (e1 =? 0).

(** [delete_all_posts] from the point where the confirmation was given. *)
Definition delete_all_posts_confirmed (fuel : nat) (self : VKParser)
  : M W bool :=
  posts <- get_all_posts fuel self;;
  match posts with
  | [] =>
    print [Lit "Постов для удаления нет."];;
    ret true
  | _ :: _ => delete_all_posts_found self posts
  end.

Definition delete_all_posts (fuel : nat) (self : VKParser) : M W bool :=
  if no_token self then
    print [Lit "Сначала выполните авторизацию!"];;
    ret false
  else
    print [Lit "⚠️  ВНИМАНИЕ! ЭТА ОПЕРАЦИЯ НЕОБРАТИМА! ⚠️"];;
    print [Lit "Все посты будут удалены без возможности восстановления!"];;
    confirmation <- input
      [Lit "Вы уверены? (введите 'DELETE ALL' для подтверждения): "];;
    if negb (str_eqb confirmation (u "DELETE ALL")) then
      print [Lit "Операция отменена."];;
      ret false
    else delete_all_posts_confirmed fuel self.

(** One round of the [for] loop of [_delete_posts]. *)
Definition _delete_posts_round (self : VKParser) (n i : Z) (post : pyval)
  : M W unit :=
  id0 <- lift (getitem post (u "id"));;
  print [Lit "Удаляю пост "; Num i; Lit "/"; Num n; Lit " (ID: "; Val id0;
         Lit ")..."];;
  id <- lift (getitem post (u "id"));;
  response <- _make_api_request self "wall.delete" (delete_params self id);;
  ok <- lift (is_deleted response);;
  (if ok then incr_deleted
   else
     incr_error;;
     id1 <- lift (getitem post (u "id"));;
     print [Lit "   Ошибка при удалении поста "; Val id1]);;
  sleep 1000.

Fixpoint _delete_posts_loop (self : VKParser) (n i : Z) (posts : list pyval)
  : M W unit :=
  match posts with
  | [] => ret tt
  | post :: rest =>
    _delete_posts_round self n i post;;
    _delete_posts_loop self n (i + 1) rest
  end.

Definition _delete_posts (self : VKParser) (posts : list pyval) : M W bool :=
  set_counts 0 0;;
  _delete_posts_loop self (Z.of_nat (List.length posts)) 1 posts;;
  print [Lit nl; Lit "Удаление завершено:"];;
  d <- get_deleted;;
  print [Lit "Успешно: "; Num d];;
  e <- get_error;;
  print [Lit "Ошибок: "; Num e];;
  e1 <- get_error;;
  ret (e1 =? 0).

(** [post['text'][:100] + "..." if len(post['text']) > 100 else post['text']] *)
Definition text_preview (post : pyval) : result pyval :=
  do t <- getitem post (u "text");
  do n <- len t;
  if n >? 100 then
    do t1 <- getitem post (u "text");
    do head <- slice_to 100 t1;
    add_str head (u "...")
  else getitem post (u "text").

Definition preview_round (i : Z) (post : pyval) : M W unit :=
  post_date <- lift (do t <- getitem post (u "date");
                     strftime_localtime "%Y-%m-%d" t);;
  preview <- lift (text_preview post);;
  print [Num i; Lit ". ["; Str post_date; Lit "] "; Val preview].

Fixpoint preview_loop (i : Z) (posts : list pyval) : M W unit :=
  match posts with
  | [] => ret tt
  | post :: rest => preview_round i post;; preview_loop (i + 1) rest
  end.

(** The double confirmation of [delete_posts_with_confirmation] and the
    deletion behind it. *)
Definition confirm_twice_and_delete (self : VKParser) (posts : list pyval)
  : M W bool :=
  confirmation1 <- input
    [Lit nl; Lit "Введите 'DELETE MY POSTS' для подтверждения: "];;
  if negb (str_eqb confirmation1 (u "DELETE MY POSTS")) then
    print [Lit "Операция отменена."];;
    ret false
  else
    confirmation2 <- input
      [Lit "Введите 'YES I AM SURE' для окончательного подтверждения: "];;
    if negb (str_eqb confirmation2 (u "YES I AM SURE")) then
      print [Lit "Операция отменена."];;
      ret false
    else _delete_posts self posts.

Definition delete_posts_with_confirmation (fuel : nat) (self : VKParser)
  : M W bool :=
  if no_token self then
    print [Lit "Сначала выполните авторизацию!"];;
    ret false
  else
    posts <- get_all_posts fuel self;;
    match posts with
    | [] =>
      print [Lit "Постов для удаления нет."];;
      ret true
    | _ :: _ =>
      let n := Z.of_nat (List.length posts) in
      print [Lit nl; Lit "Найдено постов: "; Num n];;
      print [Lit "Первые 5 постов для примера:"];;
      preview_loop 1 (firstn 5 posts);;
      print [Lit nl; Lit "⚠️  ВНИМАНИЕ! БУДУТ УДАЛЕНЫ ВСЕ "; Num n;
             Lit " ПОСТОВ! ⚠️"];;
      print [Lit "Это действие нельзя отменить!"];;
      confirm_twice_and_delete self posts
    end.

(** The block [extract_text_from_posts] makes of a post, as the pieces of
    its f-string. *)
Definition block (post_date : pystr) (text : pyval) : list frag :=
  [Lit "Дата: "; Str post_date; Lit nl; Lit "Текст: "; Val text; Lit nl;
   Str (repeat 45%N 50)].

(** One round of the [for] loop of [extract_text_from_posts]. *)
Definition extract_round (texts : list (list frag)) (post : pyval)
  : result (list (list frag)) :=
  do has_text <- contains (u "text") post;
  do wanted <- (if has_text then
                  do t <- getitem post (u "text");
                  do s <- strip_method t;
                  Ok (truthy s)
                else Ok false);
  if wanted then
    do d <- getitem post (u "date");
    do post_date <- strftime_localtime "%Y-%m-%d %H:%M:%S" d;
    do t <- getitem post (u "text");
    Ok (texts ++ [block post_date t])
  else Ok texts.

Fixpoint extract_loop (texts : list (list frag)) (posts : list pyval)
  : result (list (list frag)) :=
  match posts with
  | [] => Ok texts
  | post :: rest =>
    do texts1 <- extract_round texts post;
    extract_loop texts1 rest
  end.

Definition extract_text_from_posts (posts : list pyval)
  : result (list (list frag)) :=
  extract_loop [] posts.

End VKParser.

(** ** What a run shows *)

Definition is_get (method : string) (e : event) : bool :=
  match e with
  | Get url _ => String.eqb url (api_url method)
  | _ => false
  end.

Definition is_input (e : event) : bool :=
  match e with
  | Input _ => true
  | _ => false
  end.

Definition count_events (f : event -> bool) (tr : list event) : nat :=
  List.length (filter f tr).

(** The [wall.delete] calls, the [wall.get] calls and the prompts of a trace. *)
Definition delete_calls (tr : list event) : nat :=
  count_events (is_get "wall.delete") tr.
Definition fetches (tr : list event) : nat :=
  count_events (is_get "wall.get") tr.
Definition prompts (tr : list event) : nat := count_events is_input tr.

(** What [_make_api_request] hands to its caller. *)
Definition answer (r : http_result) : pyval :=
  match r with
  | Json v => v
  | Failed _ => PNone
  end.

(** The answer carries the success sentinel: an object whose field
    [response] equals 1 (by Python's [==]: the int 1, and [True] and [1.0],
    which compare equal to it). *)
Definition has_sentinel (r : pyval) : bool :=
  match r with
  | PDict d =>
    match dict_get (u "response") d with
    | Some v => eq_int v 1
    | None => false
    end
  | _ => false
  end.

(** No answer at all, or a JSON object: what the API hands out. *)
Definition api_shaped (r : pyval) : Prop :=
  r = PNone \/ exists d, r = PDict d.

(** No answer, or an object without the field [response]. *)
Definition no_envelope (r : pyval) : Prop :=
  r = PNone \/ exists d, r = PDict d /\ dict_get (u "response") d = None.

Definition wall_get_params (self : VKParser) (offset : Z) : params :=
  sent self [("owner_id"%string, user_id self);
             ("count"%string, PInt count);
             ("offset"%string, PInt offset)].

(** The values a trace shows to the user: those its printed lines carry. *)
Definition values_of (line : list frag) : list pyval :=
  flat_map (fun f => match f with Val v => [v] | _ => [] end) line.

Definition printed_values (tr : list event) : list pyval :=
  flat_map (fun e => match e with Print line => values_of line | _ => [] end)
           tr.

(** Every answer of the service is no answer or a JSON object. *)
Definition shaped_service {W} (R : Remote W) : Prop :=
  forall w url p, api_shaped (answer (fst (session_get w url p))).

(** A post carries an id. *)
Definition has_id (post : pyval) : Prop :=
  exists id, getitem post (u "id") = Ok id.

(** ** Two remote services to run the script against *)

(** A scripted service: it answers the requests with the entries of a
    list, one after the other, and fails once the list is used up. *)
Definition scripted_get (w : list http_result) (url : string) (p : params)
  : http_result * list http_result :=
  match w with
  | [] => (Failed "connection lost", [])
  | a :: w1 => (a, w1)
  end.

Definition Scripted : Remote (list http_result) :=
  {| session_get := scripted_get |}.

(** The answer of [wall.get]: the number of posts on the wall and the
    items of one page, inside the envelope. *)
Definition page_of (total : Z) (items : list pyval) : pyval :=
  PDict [(u "response",
          PDict [(u "count", PInt total); (u "items", PList items)])].

Fixpoint param (k : string) (p : params) : option pyval :=
  match p with
  | [] => None
  | (k1, v) :: p1 => if String.eqb k1 k then Some v else param k p1
  end.

(** A wall that holds a fixed list of items and serves [wall.get] in pages:
    [count] items from [offset] on, inside the envelope of the API. *)
Definition wall_page (items : list pyval) (p : params) : http_result :=
  match param "offset" p, param "count" p with
  | Some (PInt o), Some (PInt c) =>
    Json (page_of (Z.of_nat (List.length items))
                  (firstn (Z.to_nat c) (skipn (Z.to_nat o) items)))
  | _, _ =>
    Json (PDict [(u "error",
                  PDict [(u "error_code", PInt 100);
                         (u "error_msg", PStr (u "invalid parameter"))])])
  end.

Definition paged_get (w : list pyval) (url : string) (p : params)
  : http_result * list pyval :=
  if String.eqb url (api_url "wall.get") then (wall_page w p, w)
  else (Failed "unknown method", w).

Definition Paged : Remote (list pyval) := {| session_get := paged_get |}.

(** A clock for running examples: it shows an int timestamp as the string
    of its low decimal digit, and rejects what is not an int. *)
Definition digit_clock : Clock :=
  {| strftime_localtime := fun _ t =>
       match t with
       | PInt z => Ok [N.of_nat (48 + Z.to_nat (z mod 10))]
       | _ => Err TypeError
       end |}.

(** The number of page fetches in the words of the specification:
    the pages needed, and one more when [N] is a positive multiple of the
    page size. *)
Definition spec_fetches (N : nat) : nat :=
  ((N + 99) / 100 + (if (0 <? N) && (N mod 100 =? 0) then 1 else 0))%nat.

Definition authorised : VKParser :=
  {| access_token := Some (u "token"); user_id := PInt 7 |}.

Definition fresh {W} (w : W) (lines : list pystr) : state W :=
  mkState w lines [] 0 0.

Definition post (id : Z) (text : string) (date : Z) : pyval :=
  PDict [(u "id", PInt id); (u "text", PStr (u text)); (u "date", PInt date)].

Definition page (items : list pyval) : http_result :=
  Json (page_of (Z.of_nat (List.length items)) items).

Definition deleted_ok : http_result := Json (PDict [(u "response", PInt 1)]).

Definition api_error (code : Z) (msg : string) : http_result :=
  Json (PDict [(u "error",
                PDict [(u "error_code", PInt code);
                       (u "error_msg", PStr (u msg))])]).

(** All the requests of a trace. *)
Definition is_request (e : event) : bool :=
  match e with
  | Get _ _ => true
  | _ => false
  end.

Definition requests (tr : list event) : nat := count_events is_request tr.

(** The state of [delete_all_posts] once it has shown its warning and read
    a line at its prompt, the lines [rest] being left on the console. *)
Definition after_fast_prompt {W} (st : state W) (rest : list pystr)
  : state W :=
  mkState (remote st) rest
          (Input [Lit "Вы уверены? (введите 'DELETE ALL' для подтверждения): "]
             :: Print [Lit "Все посты будут удалены без возможности восстановления!"]
             :: Print [Lit "⚠️  ВНИМАНИЕ! ЭТА ОПЕРАЦИЯ НЕОБРАТИМА! ⚠️"]
             :: trace st)
          (deleted_count st) (error_count st).



Definition cancelled : event := Print [Lit "Операция отменена."].

(** The state after [e] happened. *)
Definition with_event {W} (e : event) (st : state W) : state W :=
  mkState (remote st) (stdin st) (e :: trace st)
          (deleted_count st) (error_count st).

(** The state after a line was read at [prompt], [rest] being left. *)
Definition after_prompt {W} (prompt : list frag) (rest : list pystr)
           (st : state W) : state W :=
  mkState (remote st) rest (Input prompt :: trace st)
          (deleted_count st) (error_count st).

(** The state after [_make_api_request] got [hr] from the service, which
    is left in [w]: the request is on the trace, and so is the report of a
    failed one. *)
Definition after_request {W} (self : VKParser) (method : string) (p : params)
           (hr : http_result) (w : W) (st : state W) : state W :=
  mkState w (stdin st)
          (match hr with
           | Json _ => []
           | Failed msg => [Print [Lit "Ошибка при запросе к API: "; Lit msg]]
           end ++ Get (api_url method) (sent self p) :: trace st)
          (deleted_count st) (error_count st).

(** ** What the exporter is expected to make of a post *)

(** A text that [strip] empties: nothing but whitespace, or nothing. *)
Definition blank (t : pystr) : bool := forallb isspace t.

(** The post has a text that is not blank. *)
Definition has_text (post : pyval) : bool :=
  match post with
  | PDict d =>
    match dict_get (u "text") d with
    | Some (PStr t) => negb (blank t)
    | _ => false
    end
  | _ => false
  end.

Definition export_format : string := "%Y-%m-%d %H:%M:%S".

(** A post as the API hands it out, as far as the exporter looks: an
    object whose text, if it has one, is a string, and whose date can be
    formatted when the text is to be exported. *)
Definition exportable {C : Clock} (post : pyval) : Prop :=
  exists d,
    post = PDict d
    /\ match dict_get (u "text") d with
       | None => True
       | Some (PStr t) =>
         blank t = true
         \/ exists dv ds,
             dict_get (u "date") d = Some dv
             /\ strftime_localtime export_format dv = Ok ds
       | Some _ => False
       end.

(** [b] is the block of [post]: its formatted date and its whole text. *)
Definition block_of {C : Clock} (post : pyval) (b : list frag) : Prop :=
  exists d t dv ds,
    post = PDict d
    /\ dict_get (u "text") d = Some (PStr t)
    /\ dict_get (u "date") d = Some dv
    /\ strftime_localtime export_format dv = Ok ds
    /\ b = block ds (PStr t).

(** [quiet st st1]: from [st] to [st1] nothing was read from the console,
    nothing was deleted and the counters were left alone. *)
Definition quiet {W} (st st1 : state W) : Prop :=
  stdin st1 = stdin st /\
  prompts (trace st1) = prompts (trace st) /\
  delete_calls (trace st1) = delete_calls (trace st) /\
  deleted_count st1 = deleted_count st /\
  error_count st1 = error_count st.

(** [m] keeps the relation [P] between the state it starts from and the
    state it ends in, whatever its outcome. *)
Definition keeps {W A} (P : state W -> state W -> Prop) (m : M W A) : Prop :=
  forall st, P st (snd (m st)).

(** The answer is an object, and the error it may carry has a code and a
    message. *)
Definition reportable (r : pyval) : Prop :=
  exists d,
    r = PDict d
    /\ match dict_get (u "error") d with
       | None => True
       | Some e =>
         exists code msg,
           getitem e (u "error_code") = Ok code
           /\ getitem e (u "error_msg") = Ok msg
       end.

(** Every request gets an answer, and every answer is reportable. *)
Definition answering_service {W} (R : Remote W) : Prop :=
  forall w url p, reportable (answer (fst (session_get w url p))).

(** ** The requests of a run *)

(** The requests of a trace, oldest first. *)
Definition request_log (tr : list event) : list event :=
  rev (filter is_request tr).

(** The [k]-th page fetch of an enumeration: [count] items from offset
    [count * k], for the wall of [user_id]. *)
Definition fetch_at (self : VKParser) (k : nat) : event :=
  Get (api_url "wall.get") (wall_get_params self (count * Z.of_nat k)).

(** The [wall.delete] request for the post [id]. *)
Definition delete_of (self : VKParser) (id : pyval) : event :=
  Get (api_url "wall.delete") (sent self (delete_params self id)).

(** From [st] to [st1] no request was sent. *)
Definition silent {W} (st st1 : state W) : Prop :=
  request_log (trace st1) = request_log (trace st).

(** From [st] to [st1] the page fetches number [k], [k + 1], ... were sent,
    at most [bound] of them, and no other request. *)
Definition fetched {W} (self : VKParser) (k bound : nat) (st st1 : state W)
  : Prop :=
  exists n,
    (n <= bound)%nat
    /\ request_log (trace st1)
       = request_log (trace st) ++ map (fetch_at self) (seq k n).

(** The service answers every page fetch with a full page. *)
Definition always_full {W} (R : Remote W) : Prop :=
  forall w p,
  exists total pg w1,
    session_get w (api_url "wall.get") p = (Json (page_of total pg), w1)
    /\ List.length pg = 100%nat.

(** A service that answers every request with the same full page. *)
Definition endless_get (w : unit) (url : string) (p : params)
  : http_result * unit :=
  (Json (page_of 100 (repeat (post 1 "again" 0) 100)), tt).

Definition Endless : Remote unit := {| session_get := endless_get |}.

Definition is_sleep (e : event) : bool :=
  match e with
  | Sleep _ => true
  | _ => false
  end.

(** The requests and the pauses of a trace, oldest first. *)
Definition traffic (tr : list event) : list event :=
  rev (filter (fun e => is_request e || is_sleep e) tr).

(** [ids] are the ids of [posts], post by post. *)
Definition ids_of (posts ids : list pyval) : Prop :=
  Forall2 (fun post id => getitem post (u "id") = Ok id) posts ids.

(** One delete call per id, each followed by its pause of one second. *)
Definition deletions (self : VKParser) (ids : list pyval) : list event :=
  flat_map (fun id => [delete_of self id; Sleep 1000]) ids.

(** What the service has to say to a delete call. *)
Inductive reply : Type :=
| Lost
| Deleted
| Denied (code : Z).

Definition reply_answer (r : reply) : http_result :=
  match r with
  | Lost => Failed "timeout"
  | Deleted => deleted_ok
  | Denied code => api_error code "denied"
  end.

(** A service that goes through a list of replies, and loses every request
    once the list is used up. *)
Definition replying_get (w : list reply) (url : string) (p : params)
  : http_result * list reply :=
  match w with
  | [] => (Failed "connection lost", [])
  | r :: w1 => (reply_answer r, w1)
  end.

Definition Replying : Remote (list reply) := {| session_get := replying_get |}.

(** A service that always answers: with the sentinel for the code 0, with
    a structured error for any other code, and with an error once its list
    is used up. *)
Definition answering_get (w : list Z) (url : string) (p : params)
  : http_result * list Z :=
  match w with
  | [] => (api_error 1 "unknown", [])
  | c :: w1 => (if c =? 0 then deleted_ok else api_error c "denied", w1)
  end.

Definition Answering : Remote (list Z) := {| session_get := answering_get |}.

Definition is_print (e : event) : bool :=
  match e with
  | Print _ => true
  | _ => false
  end.

(** The printed lines of a trace. *)
Definition prints (tr : list event) : nat := count_events is_print tr.

Definition preview_format : string := "%Y-%m-%d".

(** A post the preview can show: an object with a date that can be
    formatted and a text that is a string. *)
Definition previewable {C : Clock} (post : pyval) : Prop :=
  exists d t dv ds,
    post = PDict d
    /\ dict_get (u "date") d = Some dv
    /\ strftime_localtime preview_format dv = Ok ds
    /\ dict_get (u "text") d = Some (PStr t).

(** From [st] to [st1] only lines were printed. *)
Definition only_printed {W} (st st1 : state W) : Prop :=
  remote st1 = remote st
  /\ stdin st1 = stdin st
  /\ requests (trace st1) = requests (trace st)
  /\ prompts (trace st1) = prompts (trace st).

(** ** The script as a whole: [login_vk], [save_posts_to_file] and [main] *)

(** What can end the script: an exception of the methods above, or one of
    the two further ones that [login_vk] and [save_posts_to_file] can
    raise. *)
Inductive failure : Type :=
| Py (e : exn)
| IndexError
| OSError.

Inductive ending (A : Type) : Type :=
| Done (a : A)
| Crashed (f : failure)
| Pending.
Arguments Done {A} a.
Arguments Crashed {A} f.
Arguments Pending {A}.

(** The working directory: [write_file d name text] is what
    [open(name, 'w', encoding='utf-8')] and the writes into it make of the
    disk [d], and whether they went through ([false]: [OSError]). *)
Class Disk (D : Type) : Type :=
  { write_file : D -> string -> list frag -> D * bool }.

(** The machine of the methods, and the disk. *)
Record host (W D : Type) : Type := mkHost
  { machine : state W;
    disk : D }.
Arguments mkHost {W D}.
Arguments machine {W D}.
Arguments disk {W D}.

Definition H (W D A : Type) : Type := host W D -> ending A * host W D.

Definition hret {W D A} (a : A) : H W D A := fun h => (Done a, h).

Definition hbind {W D A B} (m : H W D A) (k : A -> H W D B) : H W D B :=
  fun h =>
    match m h with
    | (Done a, h1) => k a h1
    | (Crashed f, h1) => (Crashed f, h1)
    | (Pending, h1) => (Pending, h1)
    end.

(** A method of the parser, run on the machine of the host. *)
Definition run {W D A} (m : M W A) : H W D A :=
  fun h =>
    match m (machine h) with
    | (Returns a, st) => (Done a, mkHost st (disk h))
    | (Raises e, st) => (Crashed (Py e), mkHost st (disk h))
    | (Unfinished, st) => (Pending, mkHost st (disk h))
    end.
Arguments run {W D A} m%_vk.

Definition crash {W D A} (f : failure) : H W D A := fun h => (Crashed f, h).

Definition pending {W D A} : H W D A := fun h => (Pending, h).

Declare Scope host_scope.
Delimit Scope host_scope with host.
Notation "x <- m ;; k" := (hbind m (fun x => k))
  (at level 61, m at next level, right associativity) : host_scope.
Notation "m ;; k" := (hbind m (fun _ => k))
  (at level 61, right associativity) : host_scope.

(** [v[0]] *)
Definition first_item {W D} (v : pyval) : H W D pyval :=
  match v with
  | PList (x :: _) => hret x
  | PList [] => crash IndexError
  | PStr (c :: _) => hret (PStr [c])
  | PStr [] => crash IndexError
  | PDict _ => crash (Py KeyError)
  | _ => crash (Py TypeError)
  end.

(** [VKParser(login, password)]: no token and no user id yet; the login, the
    password and the session the object keeps besides are read by no
    method. *)
Definition VKParser_init (login password : pystr) : VKParser :=
  {| access_token := None; user_id := PNone |}.

Definition auth_url : string := "https://oauth.vk.com/authorize".

Definition auth_params : list (string * string) :=
  [("client_id", "6121396");
   ("redirect_uri", "https://oauth.vk.com/blank.html");
   ("display", "page");
   ("scope", "wall,offline,groups");
   ("response_type", "token");
   ("v", "5.131")]%string.

(** ['&'.join([f'{k}={v}' for k, v in auth_params.items()])] *)
Definition auth_query : string :=
  String.concat "&"
    (map (fun kv => (fst kv ++ "=" ++ snd kv)%string) auth_params).

(** [self] with the token set. *)
Definition with_token (self : VKParser) (token : pystr) : VKParser :=
  {| access_token := Some token; user_id := user_id self |}.

(** [self] with the user id set. *)
Definition with_user_id (self : VKParser) (id : pyval) : VKParser :=
  {| access_token := access_token self; user_id := id |}.

(** What [save_posts_to_file] writes: the number of texts, a line of 60
    equals signs, an empty line, and every text followed by an empty line. *)
Definition file_text (texts : list (list frag)) : list frag :=
  [Lit "Всего постов: "; Num (Z.of_nat (List.length texts)); Lit nl]
    ++ [Str (repeat 61%N 60); Lit nl; Lit nl]
    ++ flat_map (fun text => text ++ [Lit nl; Lit nl]) texts.

Definition default_filename : string := "vk_posts.txt".

Section Script.

Context {W D : Type} {R : Remote W} {C : Clock} {F : Disk D}.

Local Open Scope host_scope.

(** [login_vk]: what it returns, and [self] as it leaves it. *)
Definition login_vk (self : VKParser) : H W D (bool * VKParser) :=
  run (print [Lit "Выполняю авторизацию..."]);;
  run (print [Lit "Для работы скрипта необходим access_token"]);;
  run (print [Lit "Получите его по ссылке:"]);;
  run (print [Lit auth_url; Lit "?"; Lit auth_query]);;
  run (print [Lit nl;
              Lit "После авторизации скопируйте access_token из адресной строки"]);;
  line <- run (input [Lit "Введите access_token: "]);;
  let self := with_token self (strip line) in
  if negb (no_token self) then
    user_info <- run (_make_api_request self "users.get" []);;
    ok <- run (if truthy user_info
               then lift (contains (u "response") user_info)
               else ret false);;
    if ok then
      users <- run (lift (getitem user_info (u "response")));;
      user <- first_item users;;
      id <- run (lift (getitem user (u "id")));;
      let self := with_user_id self id in
      run (print [Lit "Успешная авторизация! User ID: "; Val (user_id self)]);;
      hret (true, self)
    else
      run (print [Lit "Ошибка авторизации. Проверьте токен."]);;
      hret (false, self)
  else hret (false, self).

(** [save_posts_to_file] *)
Definition save_posts_to_file (texts : list (list frag)) (filename : string)
  : H W D unit :=
  fun h =>
    match write_file (disk h) filename (file_text texts) with
    | (d, true) =>
      (Done tt,
       mkHost (with_event (Print [Lit "Посты сохранены в файл: "; Lit filename])
                          (machine h)) d)
    | (d, false) => (Crashed OSError, mkHost (machine h) d)
    end.

Definition show_menu : M W unit :=
  (print [Lit nl; Lit "Выберите действие:"];;
   print [Lit "1 - Получить все посты и сохранить в файл"];;
   print [Lit "2 - Просмотреть количество постов"];;
   print [Lit "3 - Удалить все посты (БЫСТРОЕ ПОДТВЕРЖДЕНИЕ)"];;
   print [Lit "4 - Удалить все посты (ПОДРОБНОЕ ПОДТВЕРЖДЕНИЕ)"];;
   print [Lit "0 - Выход"])%vk.

(** What [main] prints after a deletion. *)
Definition report_deletion (ok : bool) : M W unit :=
  if ok then print [Lit "Удаление завершено успешно"]
  else print [Lit "Удаление завершено с ошибками"].

(** The [while True] loop of [main], one round per unit of [turns]; [fuel]
    bounds every enumeration. *)
Fixpoint menu (turns fuel : nat) (parser : VKParser) : H W D unit :=
  match turns with
  | O => pending
  | S turns1 =>
    run show_menu;;
    line <- run (input [Lit "Ваш выбор: "]);;
    let choice := strip line in
    if str_eqb choice (u "1") then
      posts <- run (get_all_posts fuel parser);;
      match posts with
      | _ :: _ =>
        post_texts <- run (lift (extract_text_from_posts posts));;
        save_posts_to_file post_texts default_filename;;
        run (print [Lit "Сохранено ";
                    Num (Z.of_nat (List.length post_texts)); Lit " постов"]);;
        menu turns1 fuel parser
      | [] =>
        run (print [Lit "Постов нет или ошибка получения"]);;
        menu turns1 fuel parser
      end
    else if str_eqb choice (u "2") then
      posts <- run (get_all_posts fuel parser);;
      run (print [Lit "Всего постов на стене: ";
                  Num (Z.of_nat (List.length posts))]);;
      menu turns1 fuel parser
    else if str_eqb choice (u "3") then
      ok <- run (delete_all_posts fuel parser);;
      run (report_deletion ok);;
      menu turns1 fuel parser
    else if str_eqb choice (u "4") then
      ok <- run (delete_posts_with_confirmation fuel parser);;
      run (report_deletion ok);;
      menu turns1 fuel parser
    else if str_eqb choice (u "0") then
      run (print [Lit "Выход..."])
    else
      run (print [Lit "Неверный выбор"]);;
      menu turns1 fuel parser
  end.

Definition main (turns fuel : nat) : H W D unit :=
  run (print [Lit "VK Parser - Управление постами"]);;
  run (print [Str (repeat 61%N 40)]);;
  login_line <- run (input [Lit "Введите логин VK: "]);;
  password_line <- run (input [Lit "Введите пароль VK: "]);;
  let parser := VKParser_init (strip login_line) (strip password_line) in
  logged <- login_vk parser;;
  if fst logged then menu turns fuel (snd logged) else hret tt.

End Script.

(** A disk that keeps what is written, file by file. *)
Definition files_write (d : list (string * list frag)) (name : string)
           (text : list frag) : list (string * list frag) * bool :=
  ((name, text) :: filter (fun f => negb (String.eqb (fst f) name)) d, true).

Definition Files : Disk (list (string * list frag)) :=
  {| write_file := files_write |}.

(** A disk that takes nothing. *)
Definition ReadOnly : Disk unit :=
  {| write_file := fun d _ _ => (d, false) |}.

Definition boot {W D} (w : W) (d : D) (lines : list pystr) : host W D :=
  mkHost (fresh w lines) d.

(** The state of [login_vk] once it has printed its instructions and read
    a line at its prompt, the lines [rest] being left on the console. *)
Definition after_login_prompt {W D} (h : host W D) (rest : list pystr)
  : host W D :=
  mkHost
    (after_prompt [Lit "Введите access_token: "] rest
       (with_event
          (Print [Lit nl;
                  Lit "После авторизации скопируйте access_token из адресной строки"])
          (with_event (Print [Lit auth_url; Lit "?"; Lit auth_query])
             (with_event (Print [Lit "Получите его по ссылке:"])
                (with_event
                   (Print [Lit "Для работы скрипта необходим access_token"])
                   (with_event (Print [Lit "Выполняю авторизацию..."])
                               (machine h)))))))
    (disk h).

(** ** What the console has in store *)

(** The line is one of the two that release a deletion: the phrase of the
    fast confirmation, or the second phrase of the double one. *)
Definition confirms (line : pystr) : bool :=
  str_eqb line (u "DELETE ALL") || str_eqb line (u "YES I AM SURE").

(** No line releases a deletion. *)
Definition unconfirmed (lines : list pystr) : bool :=
  forallb (fun line => negb (confirms line)) lines.

(** From [st] to [st1], as long as no line of the console releases a
    deletion, nothing was deleted. *)
Definition tame {W} (st st1 : state W) : Prop :=
  unconfirmed (stdin st) = true ->
  unconfirmed (stdin st1) = true
  /\ delete_calls (trace st1) = delete_calls (trace st).

(** From [st] to [st1] lines were read from the console, and none added. *)
Definition consumed {W} (st st1 : state W) : Prop :=
  exists lines, stdin st = lines ++ stdin st1.

(** The line chooses the export in the menu of [main]. *)
Definition chooses_export (line : pystr) : bool := str_eqb (strip line) (u "1").

Definition unexported (lines : list pystr) : bool :=
  forallb (fun line => negb (chooses_export line)) lines.

(** From [h] to [h1], as long as no line of the console chooses the export,
    the disk was left as it was. *)
Definition undisturbed {W D} (h h1 : host W D) : Prop :=
  unexported (stdin (machine h)) = true ->
  unexported (stdin (machine h1)) = true /\ disk h1 = disk h.

(** [m] keeps the relation [P] between the host it starts from and the host
    it ends in, whatever its ending. *)
Definition hkeeps {W D A} (P : host W D -> host W D -> Prop) (m : H W D A)
  : Prop :=
  forall h, P h (snd (m h)).

(** A relation on machines, as a relation on hosts. *)
Definition on_machine {W D} (P : state W -> state W -> Prop)
           (h h1 : host W D) : Prop :=
  P (machine h) (machine h1).

(** The disk stays as it is and the machine goes by [P]. *)
Definition same_disk {W D} (P : state W -> state W -> Prop)
           (h h1 : host W D) : Prop :=
  disk h1 = disk h /\ P (machine h) (machine h1).

Definition users_answer (id : Z) : http_result :=
  Json (PDict [(u "response", PList [PDict [(u "id", PInt id)]])]).

(** The state of [main] once it has printed its title and read the login
    and the password, the lines [rest] being left on the console. *)
Definition after_credentials {W D} (h : host W D) (rest : list pystr)
  : host W D :=
  mkHost
    (after_prompt [Lit "Введите пароль VK: "] rest
       (after_prompt [Lit "Введите логин VK: "] rest
          (with_event (Print [Str (repeat 61%N 40)])
             (with_event (Print [Lit "VK Parser - Управление постами"])
                         (machine h)))))
    (disk h).

(** The state of a turn of the menu once the menu was shown and a line
    read at its prompt, the lines [rest] being left on the console. *)
Definition after_choice {W D} (h : host W D) (rest : list pystr) : host W D :=
  mkHost
    (after_prompt [Lit "Ваш выбор: "] rest
       (with_event (Print [Lit "0 - Выход"])
          (with_event
             (Print [Lit "4 - Удалить все посты (ПОДРОБНОЕ ПОДТВЕРЖДЕНИЕ)"])
             (with_event
                (Print [Lit "3 - Удалить все посты (БЫСТРОЕ ПОДТВЕРЖДЕНИЕ)"])
                (with_event (Print [Lit "2 - Просмотреть количество постов"])
                   (with_event
                      (Print [Lit "1 - Получить все посты и сохранить в файл"])
                      (with_event (Print [Lit nl; Lit "Выберите действие:"])
                                  (machine h))))))))
    (disk h).

(** ** What a released deletion sends *)

(** From [st] to [st1] requests were added to the log, and none taken from
    it. *)
Definition appended {W} (st st1 : state W) : Prop :=
  exists later, request_log (trace st1) = request_log (trace st) ++ later.

(** The post carries the int [id] as its id. *)
Definition has_post_id (id : pyval) (post : pyval) : bool :=
  match getitem post (u "id"), id with
  | Ok (PInt a), PInt b => a =? b
  | _, _ => false
  end.

(** A wall that serves [wall.get] in pages, as [Paged] does, and takes
    [wall.delete]: the post of the given id is removed and the sentinel
    answered, or an error when no post has this id.  Every request gets an
    answer. *)
Definition wall_get (w : list pyval) (url : string) (p : params)
  : http_result * list pyval :=
  if String.eqb url (api_url "wall.get") then (wall_page w p, w)
  else if String.eqb url (api_url "wall.delete") then
    match param "post_id" p with
    | Some id =>
      if existsb (has_post_id id) w
      then (deleted_ok, filter (fun post => negb (has_post_id id post)) w)
      else (api_error 104 "not found", w)
    | None => (api_error 100 "invalid parameter", w)
    end
  else (api_error 3 "unknown method", w).

Definition Wall : Remote (list pyval) := {| session_get := wall_get |}.

(** * Properties *)

(** ** Python strings *)

Example decode_ascii :
  u "DELETE ALL" = [68; 69; 76; 69; 84; 69; 32; 65; 76; 76]%N.
Proof. reflexivity. Qed.

Example decode_cyrillic : u "Дата" = [1044; 1072; 1090; 1072]%N.
Proof. reflexivity. Qed.

Example strip_spaces : strip (u "  two words ") = u "two words".
Proof. reflexivity. Qed.

Example strip_blank : strip [32; 9; 160; 8195; 10]%N = [].
Proof. reflexivity. Qed.

Example true_equals_one :
  eq_int (PBool true) 1 = true /\ eq_int (PFloat float_one) 1 = true
  /\ eq_int (PInt 2) 1 = false /\ eq_int (PStr (u "1")) 1 = false.
Proof. repeat split. Qed.

(** ** Reasoning about runs *)

Lemma count_events_cons f e tr :
  count_events f (e :: tr) =
  ((if f e then 1 else 0) + count_events f tr)%nat.
Proof.
  unfold count_events; simpl; destruct (f e); reflexivity.
Qed.

Section Keeps.

Context {W : Type} (P : state W -> state W -> Prop).
Hypothesis P_refl : forall st, P st st.
Hypothesis P_trans : forall a b c, P a b -> P b c -> P a c.

Lemma keeps_ret {A} (a : A) : keeps P (ret a).
Proof. intros st; apply P_refl. Qed.

Lemma keeps_lift {A} (r : result A) : keeps P (lift r).
Proof. intros st; unfold lift; destruct r; apply P_refl. Qed.

Lemma keeps_unfinished {A} : keeps P (@unfinished W A).
Proof. intros st; apply P_refl. Qed.

Lemma keeps_bind {A B} (m : M W A) (k : A -> M W B) :
  keeps P m -> (forall a, keeps P (k a)) -> keeps P (bind m k).
Proof.
  intros Hm Hk st. unfold bind.
  specialize (Hm st).
  destruct (m st) as [[a | e |] st1]; simpl in *; try assumption.
  eapply P_trans; [exact Hm | apply Hk].
Qed.

Lemma keeps_if {A} (b : bool) (m1 m2 : M W A) :
  keeps P m1 -> keeps P m2 -> keeps P (if b then m1 else m2).
Proof. destruct b; auto. Qed.

End Keeps.

Lemma quiet_refl {W} (st : state W) : quiet st st.
Proof. repeat split. Qed.

Lemma quiet_trans {W} (a b c : state W) : quiet a b -> quiet b c -> quiet a c.
Proof.
  unfold quiet; intros (H1 & H2 & H3 & H4 & H5) (G1 & G2 & G3 & G4 & G5).
  repeat split; congruence.
Qed.

Lemma quiet_print {W} line : keeps (@quiet W) (print line).
Proof. intros st; repeat split. Qed.

Lemma quiet_sleep {W} ms : keeps (@quiet W) (sleep ms).
Proof. intros st; repeat split. Qed.

Lemma quiet_wall_get {W} {R : Remote W} self p :
  keeps quiet (_make_api_request self "wall.get" p).
Proof.
  intros st; unfold _make_api_request.
  destruct (session_get _ _ _) as [[v | msg] w]; repeat split.
Qed.

Ltac keeps_quiet :=
  repeat first
    [ apply quiet_print | apply quiet_sleep | apply quiet_wall_get
    | apply (keeps_ret quiet quiet_refl)
    | apply (keeps_lift quiet quiet_refl)
    | apply (keeps_unfinished quiet quiet_refl)
    | apply (keeps_bind quiet quiet_trans); [| intros ? ]
    | apply keeps_if ].

Section Runs.

Context {W : Type} {R : Remote W} {C : Clock}.

(** Enumeration reads nothing from the console and deletes nothing. *)
Lemma get_all_posts_loop_quiet fuel self :
  forall all_posts offset,
    keeps quiet (get_all_posts_loop fuel self all_posts offset).
Proof.
  induction fuel as [|fuel IH]; intros all_posts offset.
  - apply (keeps_unfinished quiet quiet_refl).
  - simpl. keeps_quiet. apply IH.
Qed.

Lemma get_all_posts_quiet fuel self : keeps quiet (get_all_posts fuel self).
Proof.
  unfold get_all_posts. keeps_quiet. apply get_all_posts_loop_quiet.
Qed.

End Runs.

(** ** Enumeration *)

Section Enumeration.

Context {W : Type} {R : Remote W}.

(** One round of the loop on a page that arrived: an empty page ends the
    loop, a short page is taken and ends it, a full page is taken and the
    loop goes on [count] items further. *)
Lemma get_all_posts_loop_page fuel self all_posts offset (st : state W)
      total pg w :
  session_get (remote st) (api_url "wall.get") (wall_get_params self offset)
  = (Json (page_of total pg), w) ->
  let tr := Get (api_url "wall.get") (wall_get_params self offset)
              :: Print [Lit "Загружаю посты, offset: "; Num offset]
              :: trace st in
  get_all_posts_loop (S fuel) self all_posts offset st =
  match pg with
  | [] =>
    (Returns all_posts,
     mkState w (stdin st) tr (deleted_count st) (error_count st))
  | _ :: _ =>
    let st1 := mkState w (stdin st) (Sleep 500 :: tr)
                       (deleted_count st) (error_count st) in
    if Z.of_nat (List.length pg) <? count
    then (Returns (all_posts ++ pg), st1)
    else get_all_posts_loop fuel self (all_posts ++ pg) (offset + count) st1
  end.
Proof.
  intros Hget tr.
  cbn [get_all_posts_loop].
  unfold bind at 1, print at 1, emit at 1.
  unfold bind at 1, _make_api_request.
  cbn [remote stdin trace deleted_count error_count].
  change (session_get (remote st) (api_url "wall.get") _)
    with (session_get (remote st) (api_url "wall.get")
                      (wall_get_params self offset)).
  rewrite Hget.
  destruct pg as [|x pg]; [reflexivity|].
  unfold bind at 1.
  change (truthy (page_of total (x :: pg))) with true.
  cbn [negb].
  unfold lift at 1.
  change (contains (u "response") (page_of total (x :: pg))) with (Ok true).
  cbn [and_then negb].
  unfold bind at 1, lift at 1.
  change (getitem (page_of total (x :: pg)) (u "response"))
    with (Ok (PDict [(u "count", PInt total); (u "items", PList (x :: pg))])).
  cbn [and_then].
  change (getitem (PDict [(u "count", PInt total);
                          (u "items", PList (x :: pg))]) (u "items"))
    with (Ok (PList (x :: pg))).
  cbn [truthy negb iter len].
  unfold bind at 1, lift at 1.
  unfold bind at 1, sleep, emit.
  unfold bind at 1, lift at 1.
  cbn [remote stdin trace deleted_count error_count].
  destruct (Z.of_nat (List.length (x :: pg)) <? count); reflexivity.
Qed.

End Enumeration.

(** ** Enumeration of a paged wall *)

Section PagedWall.

Variable self : VKParser.
Variable items : list pyval.

Lemma paged_answer (st : state (list pyval)) (o : nat) :
  remote st = items ->
  session_get (Remote := Paged) (remote st) (api_url "wall.get")
              (wall_get_params self (Z.of_nat o))
  = (Json (page_of (Z.of_nat (List.length items)) (firstn 100 (skipn o items))), items).
Proof.
  intros ->. cbn [session_get Paged]. unfold paged_get.
  change (String.eqb (api_url "wall.get") (api_url "wall.get")) with true.
  cbv iota. unfold wall_page.
  change (param "offset" (wall_get_params self (Z.of_nat o)))
    with (Some (PInt (Z.of_nat o))).
  change (param "count" (wall_get_params self (Z.of_nat o)))
    with (Some (PInt 100)).
  cbv iota. rewrite Nat2Z.id. reflexivity.
Qed.

(** From the [j]-th page on, with [m] full pages still ahead, the loop
    fetches [m + 1] times and returns what it had plus the rest of the wall. *)
Lemma get_all_posts_loop_paged (m : nat) :
  forall (j : nat) (all_posts : list pyval) (st : state (list pyval))
         (fuel : nat),
    remote st = items ->
    (j + m = List.length items / 100)%nat ->
    (m < fuel)%nat ->
    exists st1,
      get_all_posts_loop (R := Paged) fuel self all_posts
                         (Z.of_nat (100 * j)) st
      = (Returns (all_posts ++ skipn (100 * j) items), st1)
      /\ remote st1 = items
      /\ fetches (trace st1) = (fetches (trace st) + m + 1)%nat.
Proof.
  induction m as [|m IH]; intros j all_posts st fuel Hst Hj Hfuel;
    (destruct fuel as [|fuel]; [lia|]);
    rewrite (get_all_posts_loop_page (R := Paged) fuel self all_posts _ st
               _ _ _ (paged_answer st (100 * j) Hst));
    pose proof (length_skipn (100 * j) items) as Hlen;
    pose proof (Nat.div_mod_eq (List.length items) 100) as Hdiv;
    pose proof (Nat.mod_upper_bound (List.length items) 100 ltac:(lia))
      as Hmod;
    cbv zeta.
  - (* the last page: short, possibly empty *)
    assert (Hshort : (List.length (skipn (100 * j) items) < 100)%nat) by lia.
    rewrite firstn_all2 by lia.
    destruct (skipn (100 * j) items) as [|x rest] eqn:Hrest.
    + eexists; split; [rewrite app_nil_r; reflexivity|].
      split; [reflexivity|]. cbn [trace]. unfold fetches.
      rewrite !count_events_cons. cbn. lia.
    + replace (Z.of_nat (List.length (x :: rest)) <? count) with true
        by (symmetry; apply Z.ltb_lt; unfold count; lia).
      eexists; split; [reflexivity|]. split; [reflexivity|].
      cbn [trace]. unfold fetches. rewrite !count_events_cons. cbn. lia.
  - (* a full page, and more to come *)
    assert (Hfull : (100 <= List.length (skipn (100 * j) items))%nat) by lia.
    pose proof (firstn_skipn 100 (skipn (100 * j) items)) as Hsplit.
    pose proof (length_firstn 100 (skipn (100 * j) items)) as Hpg.
    rewrite Nat.min_l in Hpg by lia.
    destruct (firstn 100 (skipn (100 * j) items)) as [|x pg] eqn:Hpage;
      [discriminate|].
    replace (Z.of_nat (List.length (x :: pg)) <? count) with false
      by (symmetry; apply Z.ltb_ge; unfold count; lia).
    replace (Z.of_nat (100 * j) + count) with (Z.of_nat (100 * S j))
      by (unfold count; lia).
    match goal with
    | |- context [get_all_posts_loop fuel self ?acc _ ?s] =>
      destruct (IH (S j) acc s fuel) as (st1 & Hrun & Hrem & Hfetch);
        [reflexivity | lia | lia |]
    end.
    exists st1. split; [|split; [exact Hrem|]].
    + rewrite Hrun. f_equal. f_equal. rewrite <- app_assoc. f_equal.
      rewrite <- Hsplit. cbn [app]. do 2 f_equal.
      rewrite skipn_skipn. f_equal. lia.
    + rewrite Hfetch. cbn [trace]. unfold fetches.
      rewrite !count_events_cons. cbn. lia.
Qed.

End PagedWall.

Lemma spec_fetches_positive (N : nat) :
  (0 < N)%nat -> spec_fetches N = (N / 100 + 1)%nat.
Proof.
  intros HN. unfold spec_fetches.
  pose proof (Nat.div_mod_eq N 100) as Hdiv.
  pose proof (Nat.mod_upper_bound N 100 ltac:(lia)) as Hmod.
  pose proof (Nat.div_mod_eq (N + 99) 100) as Hdiv1.
  pose proof (Nat.mod_upper_bound (N + 99) 100 ltac:(lia)) as Hmod1.
  replace (0 <? N)%nat with true by (symmetry; apply Nat.ltb_lt; exact HN).
  cbn [andb].
  destruct (N mod 100 =? 0)%nat eqn:Hr.
  - apply Nat.eqb_eq in Hr. lia.
  - apply Nat.eqb_neq in Hr. lia.
Qed.

(** C3, as amended: on a wall of [N] items served in pages of 100,
    enumeration with a token returns the [N] items in order and fetches
    [N / 100 + 1] pages (for [N > 0] that is the pages needed, plus one more
    when [N] is a multiple of 100; an empty wall costs one fetch). *)
Theorem get_all_posts_paged (self : VKParser) (items : list pyval)
        (st : state (list pyval)) (fuel : nat) :
  no_token self = false ->
  remote st = items ->
  (List.length items / 100 < fuel)%nat ->
  exists st1,
    get_all_posts (R := Paged) fuel self st = (Returns items, st1)
    /\ fetches (trace st1)
       = (fetches (trace st) + (List.length items / 100 + 1))%nat
    /\ ((0 < List.length items)%nat ->
        (List.length items / 100 + 1)%nat = spec_fetches (List.length items)).
Proof.
  intros Htoken Hst Hfuel.
  unfold get_all_posts. rewrite Htoken.
  unfold bind at 1, print at 1, emit at 1.
  match goal with
  | |- context [get_all_posts_loop fuel self [] 0 ?s] =>
    destruct (get_all_posts_loop_paged self items (List.length items / 100)
                0%nat [] s fuel) as (st1 & Hrun & _ & Hfetch);
      [exact Hst | lia | exact Hfuel |]
  end.
  exists st1. split; [exact Hrun|]. split.
  - rewrite Hfetch. cbn [trace]. unfold fetches.
    rewrite count_events_cons. cbn. lia.
  - intros HN. symmetry. apply spec_fetches_positive, HN.
Qed.

Lemma get_all_posts_paged_witness :
  let items := repeat (post 1 "hello" 0) 250 in
  no_token authorised = false
  /\ remote (fresh items []) = items
  /\ (List.length items / 100 < 3)%nat
  /\ exists st1,
       get_all_posts (R := Paged) 3 authorised (fresh items [])
       = (Returns items, st1)
       /\ fetches (trace st1)
          = (fetches (trace (fresh items []))
             + (List.length items / 100 + 1))%nat
       /\ ((0 < List.length items)%nat ->
           (List.length items / 100 + 1)%nat
           = spec_fetches (List.length items)).
Proof.
  intros items.
  split; [reflexivity|]. split; [reflexivity|].
  split; [vm_compute; lia|].
  apply (get_all_posts_paged authorised items (fresh items []) 3);
    [reflexivity | reflexivity | vm_compute; lia].
Defined.

(** C3, as stated, fails on the empty wall: one page is fetched where the
    formula of the specification counts none. *)
Lemma get_all_posts_empty_wall_fetches :
  let r := get_all_posts (R := Paged) 1 authorised (fresh [] []) in
  fst r = Returns []
  /\ fetches (trace (snd r)) = 1%nat
  /\ fetches (trace (snd r)) <> spec_fetches 0.
Proof.
  vm_compute. repeat split; discriminate.
Qed.



(** ** Stepping through a run *)

Section Steps.

Context {W : Type} {R : Remote W}.

Lemma bind_ret {A B} (a : A) (k : A -> M W B) (st : state W) :
  bind (ret a) k st = k a st.
Proof. reflexivity. Qed.

Lemma bind_lift_ok {A B} (a : A) (k : A -> M W B) (st : state W) :
  bind (lift (Ok a)) k st = k a st.
Proof. reflexivity. Qed.

Lemma bind_lift_err {A B} (e : exn) (k : A -> M W B) (st : state W) :
  bind (lift (Err e)) k st = (Raises e, st).
Proof. reflexivity. Qed.

Lemma bind_print {B} line (k : unit -> M W B) (st : state W) :
  bind (print line) k st = k tt (with_event (Print line) st).
Proof. reflexivity. Qed.

Lemma bind_sleep {B} ms (k : unit -> M W B) (st : state W) :
  bind (sleep ms) k st = k tt (with_event (Sleep ms) st).
Proof. reflexivity. Qed.

Lemma bind_input {B} prompt (k : pystr -> M W B) (st : state W) c rest :
  stdin st = c :: rest ->
  bind (input prompt) k st = k c (after_prompt prompt rest st).
Proof. intros H. unfold bind, input. rewrite H. reflexivity. Qed.

Lemma bind_request {B} self method p (k : pyval -> M W B) (st : state W)
      hr w :
  session_get (remote st) (api_url method) (sent self p) = (hr, w) ->
  bind (_make_api_request self method p) k st
  = k (answer hr) (after_request self method p hr w st).
Proof.
  intros H. unfold bind, _make_api_request.
  change (session_get (remote st) (api_url method) _)
    with (session_get (remote st) (api_url method) (sent self p)).
  rewrite H. destruct hr; reflexivity.
Qed.

Lemma bind_assoc {A B D} (m : M W A) (k : A -> M W B) (h : B -> M W D)
      (st : state W) :
  bind (bind m k) h st = bind m (fun a => bind (k a) h) st.
Proof.
  unfold bind. destruct (m st) as [[a | e |] st1]; reflexivity.
Qed.

Lemma bind_incr_deleted {B} (k : unit -> M W B) (st : state W) :
  bind incr_deleted k st
  = k tt (mkState (remote st) (stdin st) (trace st)
                  (deleted_count st + 1) (error_count st)).
Proof. reflexivity. Qed.

Lemma bind_incr_error {B} (k : unit -> M W B) (st : state W) :
  bind incr_error k st
  = k tt (mkState (remote st) (stdin st) (trace st)
                  (deleted_count st) (error_count st + 1)).
Proof. reflexivity. Qed.

End Steps.

(** ** The confirmation gates *)

Lemma str_eqb_eq (s t : pystr) : str_eqb s t = true <-> s = t.
Proof.
  unfold str_eqb. destruct (list_eq_dec N.eq_dec s t); split; congruence.
Qed.

Lemma str_eqb_neq (s t : pystr) : str_eqb s t = false <-> s <> t.
Proof.
  unfold str_eqb. destruct (list_eq_dec N.eq_dec s t); split; congruence.
Qed.

(** [delete_all_posts] up to its prompt and the test of the line read. *)
Lemma delete_all_posts_prompted {W : Type} {R : Remote W} (fuel : nat)
      (self : VKParser) (st : state W) (c : pystr) (rest : list pystr) :
  no_token self = false ->
  stdin st = c :: rest ->
  delete_all_posts fuel self st
  = if str_eqb c (u "DELETE ALL")
    then delete_all_posts_confirmed fuel self (after_fast_prompt st rest)
    else (Returns false, with_event cancelled (after_fast_prompt st rest)).
Proof.
  intros Htoken Hin.
  unfold delete_all_posts. rewrite Htoken.
  rewrite !bind_print, (bind_input _ _ _ c rest) by exact Hin.
  destruct (str_eqb c (u "DELETE ALL")); reflexivity.
Qed.

(** ** Nothing to delete *)

(** C10: when the enumeration returns no post, both deletion operations
    return [True] and send no [wall.delete].  [delete_posts_with_confirmation]
    then stops right after the enumeration: no preview, no prompt, no line
    read from the console.  [delete_all_posts] had its confirmation before
    the enumeration. *)
Theorem nothing_to_delete {W : Type} {R : Remote W} {C : Clock}
        (fuel : nat) (self : VKParser) :
  no_token self = false ->
  (forall st st1 : state W,
      get_all_posts fuel self st = (Returns [], st1) ->
      delete_posts_with_confirmation fuel self st
      = (Returns true,
         with_event (Print [Lit "Постов для удаления нет."]) st1)
      /\ prompts (trace st1) = prompts (trace st)
      /\ stdin st1 = stdin st
      /\ delete_calls (trace st1) = delete_calls (trace st))
  /\ (forall (st st1 : state W) (rest : list pystr),
         stdin st = u "DELETE ALL" :: rest ->
         get_all_posts fuel self (after_fast_prompt st rest)
         = (Returns [], st1) ->
         delete_all_posts fuel self st
         = (Returns true,
            with_event (Print [Lit "Постов для удаления нет."]) st1)
         /\ delete_calls (trace st1) = delete_calls (trace st)).
Proof.
  intros Htoken. split.
  - intros st st1 Hrun.
    pose proof (get_all_posts_quiet fuel self st) as Hq.
    rewrite Hrun in Hq. destruct Hq as (Hin & Hpr & Hdel & _).
    cbn [snd] in *.
    unfold delete_posts_with_confirmation. rewrite Htoken.
    unfold bind at 1. rewrite Hrun. auto.
  - intros st st1 rest Hin Hrun.
    pose proof (get_all_posts_quiet fuel self (after_fast_prompt st rest))
      as Hq.
    rewrite Hrun in Hq. destruct Hq as (_ & _ & Hdel & _).
    cbn [snd] in *.
    rewrite (delete_all_posts_prompted fuel self st _ rest Htoken Hin).
    change (str_eqb (u "DELETE ALL") (u "DELETE ALL")) with true. cbv iota.
    unfold delete_all_posts_confirmed, bind at 1. rewrite Hrun.
    split; [reflexivity | exact Hdel].
Qed.

Lemma nothing_to_delete_witness :
  let st := fresh [page []] [u "DELETE ALL"] in
  let st1 := snd (get_all_posts (R := Scripted) 1 authorised st) in
  let st2 := snd (get_all_posts (R := Scripted) 1 authorised
                                (after_fast_prompt st [])) in
  no_token authorised = false
  /\ get_all_posts (R := Scripted) 1 authorised st = (Returns [], st1)
  /\ delete_posts_with_confirmation (R := Scripted) (C := digit_clock)
       1 authorised st
     = (Returns true, with_event (Print [Lit "Постов для удаления нет."]) st1)
  /\ stdin st = [u "DELETE ALL"]
  /\ get_all_posts (R := Scripted) 1 authorised (after_fast_prompt st [])
     = (Returns [], st2)
  /\ delete_all_posts (R := Scripted) 1 authorised st
     = (Returns true, with_event (Print [Lit "Постов для удаления нет."]) st2).
Proof.
  intros st st1 st2.
  destruct (nothing_to_delete (R := Scripted) (C := digit_clock) 1 authorised
              eq_refl) as [Hthorough Hfast].
  split; [reflexivity|]. split; [reflexivity|].
  split; [apply (Hthorough st st1); reflexivity|].
  split; [reflexivity|]. split; [reflexivity|].
  apply (Hfast st st2 []); reflexivity.
Defined.

(** ** The deletion loops *)

Lemma is_deleted_shaped (r : pyval) :
  api_shaped r -> is_deleted r = Ok (has_sentinel r).
Proof.
  intros [-> | (d & ->)]; [reflexivity|].
  destruct d as [|kv d]; [reflexivity|].
  unfold is_deleted, has_sentinel. cbn [truthy contains and_then getitem].
  destruct (dict_get (u "response") (kv :: d)); reflexivity.
Qed.

Section Deletion.

Context {W : Type} {R : Remote W}.



End Deletion.

Ltac round_done Hcalls :=
  cbn [snd sleep emit trace deleted_count error_count with_event];
  rewrite !count_events_cons; cbn [is_get];
  rewrite Hcalls;
  cbn [deleted_count error_count after_request with_event];
  repeat split; lia.

Section FastDeletion.

Context {W : Type} {R : Remote W}.

(** One round of [delete_all_posts]: whatever the answer and however the
    round ends, one [wall.delete] was sent and one of the two counters
    advanced. *)
Lemma delete_all_posts_round_counts self n i post id (st : state W) hr w :
  getitem post (u "id") = Ok id ->
  session_get (remote st) (api_url "wall.delete")
              (sent self (delete_params self id)) = (hr, w) ->
  api_shaped (answer hr) ->
  let st1 := snd (delete_all_posts_round self n i post st) in
  delete_calls (trace st1) = S (delete_calls (trace st))
  /\ deleted_count st1
     = deleted_count st + (if has_sentinel (answer hr) then 1 else 0)
  /\ error_count st1
     = error_count st + (if has_sentinel (answer hr) then 0 else 1).
Proof.
  intros Hid Hget Hshape.
  assert (Hcalls : delete_calls (trace (after_request self "wall.delete"
                     (delete_params self id) hr w
                     (with_event (Print [Lit "Удаляю пост "; Num i; Lit "/";
                                         Num n; Lit "..."]) st)))
                   = S (delete_calls (trace st))).
  { unfold delete_calls. cbn [trace after_request with_event].
    destruct hr; cbn [app]; rewrite !count_events_cons; reflexivity. }
  unfold delete_all_posts_round.
  rewrite bind_print, Hid, bind_lift_ok.
  rewrite (bind_request _ _ _ _ _ hr w) by exact Hget.
  rewrite (is_deleted_shaped _ Hshape), bind_lift_ok.
  destruct (has_sentinel (answer hr)); cbv iota.
  - rewrite bind_assoc, bind_incr_deleted, bind_assoc, bind_lift_ok, bind_print.
    unfold delete_calls in *. round_done Hcalls.
  - rewrite bind_assoc, bind_incr_error, bind_assoc, bind_lift_ok, bind_assoc,
      bind_print, bind_assoc.
    unfold delete_calls in *.
    destruct (contains (u "error") (answer hr)) as [[|] | e].
    + rewrite bind_lift_ok. cbv iota. rewrite !bind_assoc.
      destruct (do e <- getitem (answer hr) (u "error");
                getitem e (u "error_code")) as [code | e1].
      * rewrite bind_lift_ok, bind_assoc, bind_print, bind_assoc.
        destruct (do e <- getitem (answer hr) (u "error");
                  getitem e (u "error_msg")) as [msg | e2].
        -- rewrite bind_lift_ok, bind_print.
           round_done Hcalls.
        -- rewrite bind_lift_err.
           round_done Hcalls.
      * rewrite bind_lift_err.
        round_done Hcalls.
    + rewrite bind_lift_ok. cbv iota. rewrite bind_ret.
      round_done Hcalls.
    + rewrite bind_lift_err.
      round_done Hcalls.
Qed.

End FastDeletion.

Section FastDeletionAnswered.

Context {W : Type} {R : Remote W}.

(** One round of [delete_all_posts] on an answer that arrived: the round
    returns. *)
Lemma delete_all_posts_round_run self n i post id (st : state W) hr w :
  getitem post (u "id") = Ok id ->
  session_get (remote st) (api_url "wall.delete")
              (sent self (delete_params self id)) = (hr, w) ->
  reportable (answer hr) ->
  exists st1,
    delete_all_posts_round self n i post st = (Returns tt, st1)
    /\ stdin st1 = stdin st
    /\ delete_calls (trace st1) = S (delete_calls (trace st))
    /\ deleted_count st1
       = deleted_count st + (if has_sentinel (answer hr) then 1 else 0)
    /\ error_count st1
       = error_count st + (if has_sentinel (answer hr) then 0 else 1).
Proof.
  intros Hid Hget (d & Hd & Herr).
  assert (Hshape : api_shaped (answer hr)) by (right; exists d; exact Hd).
  destruct (delete_all_posts_round_counts self n i post id st hr w
              Hid Hget Hshape) as (Hcalls & Hdel & Herrs).
  assert (Hrun : exists st1,
             delete_all_posts_round self n i post st = (Returns tt, st1)
             /\ stdin st1 = stdin st).
  { unfold delete_all_posts_round.
    rewrite bind_print, Hid, bind_lift_ok.
    rewrite (bind_request _ _ _ _ _ hr w) by exact Hget.
    rewrite (is_deleted_shaped _ Hshape), bind_lift_ok.
    destruct (has_sentinel (answer hr)); cbv iota.
    - rewrite bind_assoc, bind_incr_deleted, bind_assoc, bind_lift_ok,
        bind_print.
      eexists; split; reflexivity.
    - rewrite bind_assoc, bind_incr_error, bind_assoc, bind_lift_ok,
        bind_assoc, bind_print, bind_assoc.
      rewrite Hd. cbn [contains getitem].
      destruct (dict_get (u "error") d) as [e|].
      + destruct Herr as (code & msg & Hcode & Hmsg).
        rewrite bind_lift_ok. cbv iota. cbn [and_then].
        rewrite Hcode, Hmsg.
        rewrite !bind_assoc, bind_lift_ok, bind_assoc, bind_print, bind_assoc,
          bind_lift_ok, bind_print.
        eexists; split; reflexivity.
      + rewrite bind_lift_ok. cbv iota. rewrite bind_ret.
        eexists; split; reflexivity. }
  destruct Hrun as (st1 & Hrun & Hin).
  exists st1. rewrite Hrun in Hcalls, Hdel, Herrs. cbn [snd] in *.
  auto.
Qed.

(** The loop of [delete_all_posts] against a service all of whose answers
    arrive: it runs to its end, sends one [wall.delete] per post and counts
    every post once. *)
Lemma delete_all_posts_loop_run self n :
  answering_service R ->
  forall posts i (st : state W),
    Forall has_id posts ->
    exists st1,
      delete_all_posts_loop self n i posts st = (Returns tt, st1)
      /\ stdin st1 = stdin st
      /\ delete_calls (trace st1)
         = (delete_calls (trace st) + List.length posts)%nat
      /\ deleted_count st1 + error_count st1
         = deleted_count st + error_count st + Z.of_nat (List.length posts).
Proof.
  intros Hservice posts.
  induction posts as [|post rest IH]; intros i st Hposts.
  - exists st. cbn. repeat split; lia.
  - inversion Hposts as [|? ? [id Hid] Hrest]; subst.
    destruct (session_get (remote st) (api_url "wall.delete")
                          (sent self (delete_params self id)))
      as [hr w] eqn:Hget.
    pose proof (Hservice (remote st) (api_url "wall.delete")
                         (sent self (delete_params self id))) as Hanswer.
    rewrite Hget in Hanswer. cbn [fst] in Hanswer.
    destruct (delete_all_posts_round_run self n i post id st hr w
                Hid Hget Hanswer)
      as (st1 & Hround & Hin1 & Hcalls1 & Hd1 & He1).
    destruct (IH (i + 1) st1 Hrest) as (st2 & Hloop & Hin2 & Hcalls2 & Hsum2).
    exists st2. cbn [delete_all_posts_loop]. unfold bind at 1.
    rewrite Hround. split; [exact Hloop|].
    cbn [List.length].
    destruct (has_sentinel (answer hr)); repeat split; try congruence; lia.
Qed.

End FastDeletionAnswered.

Section Summary.

Context {W : Type} {R : Remote W}.

Lemma bind_set_counts {B} d e (k : unit -> M W B) (st : state W) :
  bind (set_counts d e) k st
  = k tt (mkState (remote st) (stdin st) (trace st) d e).
Proof. reflexivity. Qed.




End Summary.



(** ** The lost answer in [delete_all_posts] *)

(** C1 at a failing input: two posts on the wall, the answer to the first
    [wall.delete] is lost in transport.  [delete_all_posts] ends in a
    [TypeError] after that one call, the second post is never asked for and
    no tally is returned; [_delete_posts] on the same posts and answers
    sends both calls and returns its tally. *)
Theorem delete_all_posts_stops_at_lost_answer :
  let posts := [post 1 "first" 0; post 2 "second" 0] in
  let fast := delete_all_posts (R := Scripted) 1 authorised
                (fresh [page posts; Failed "timeout"; deleted_ok]
                       [u "DELETE ALL"]) in
  let thorough := _delete_posts (R := Scripted) authorised posts
                    (fresh [Failed "timeout"; deleted_ok] []) in
  (fst fast = Raises TypeError
   /\ delete_calls (trace (snd fast)) = 1%nat
   /\ remote (snd fast) = [deleted_ok])
  /\ (fst thorough = Returns false
      /\ delete_calls (trace (snd thorough)) = 2%nat
      /\ deleted_count (snd thorough) = 1
      /\ error_count (snd thorough) = 1).
Proof.
  vm_compute. repeat split.
Qed.

(** C2 at the failing inputs: when the request of a round of
    [delete_all_posts] fails in transport, the round records the failure and
    then raises [TypeError] ([None] is asked whether it contains ['error']);
    the exception leaves the operation. *)
Theorem delete_all_posts_round_lost_answer {W : Type} {R : Remote W}
        (self : VKParser) (n i : Z) (post id : pyval) (st : state W)
        (msg : string) (w : W) :
  getitem post (u "id") = Ok id ->
  session_get (remote st) (api_url "wall.delete")
              (sent self (delete_params self id)) = (Failed msg, w) ->
  exists st1,
    delete_all_posts_round self n i post st = (Raises TypeError, st1)
    /\ error_count st1 = error_count st + 1
    /\ forall rest,
         delete_all_posts_loop self n i (post :: rest) st
         = (Raises TypeError, st1).
Proof.
  intros Hid Hget.
  assert (Hround : exists st1,
             delete_all_posts_round self n i post st = (Raises TypeError, st1)
             /\ error_count st1 = error_count st + 1).
  { unfold delete_all_posts_round.
    rewrite bind_print, Hid, bind_lift_ok.
    rewrite (bind_request _ _ _ _ _ (Failed msg) w) by exact Hget.
    cbn [answer].
    change (is_deleted PNone) with (Ok false).
    rewrite bind_lift_ok. cbv iota.
    rewrite bind_assoc, bind_incr_error, bind_assoc, bind_lift_ok, bind_assoc,
      bind_print, bind_assoc.
    change (contains (u "error") PNone) with (@Err bool TypeError).
    rewrite bind_lift_err.
    eexists; split; reflexivity. }
  destruct Hround as (st1 & Hround & Hcount).
  exists st1. split; [exact Hround|]. split; [exact Hcount|].
  intros rest. cbn [delete_all_posts_loop]. unfold bind at 1.
  rewrite Hround. reflexivity.
Qed.

Lemma delete_all_posts_round_lost_answer_witness :
  let st := fresh [Failed "timeout"] [] in
  let p := post 1 "hello" 0 in
  getitem p (u "id") = Ok (PInt 1)
  /\ session_get (Remote := Scripted) (remote st) (api_url "wall.delete")
                 (sent authorised (delete_params authorised (PInt 1)))
     = (Failed "timeout", [])
  /\ exists st1,
       delete_all_posts_round (R := Scripted) authorised 1 1 p st
       = (Raises TypeError, st1).
Proof.
  intros st p.
  split; [reflexivity|]. split; [reflexivity|].
  destruct (delete_all_posts_round_lost_answer (R := Scripted) authorised 1 1
              p (PInt 1) st "timeout" [] eq_refl eq_refl)
    as (st1 & Hround & _).
  exists st1. exact Hround.
Defined.

(** C8 at a failing input: one post, and [wall.delete] answers with the
    structured error 15, "Access denied".  [delete_all_posts] shows the code
    and the message; [delete_posts_with_confirmation] shows the id of the
    post in its failure line and neither the code nor the message. *)
Theorem error_payload_shown_on_fast_path_only :
  let answers := [page [post 1 "hello" 0]; api_error 15 "Access denied"] in
  let fast := delete_all_posts (R := Scripted) 1 authorised
                (fresh answers [u "DELETE ALL"]) in
  let thorough := delete_posts_with_confirmation
                    (R := Scripted) (C := digit_clock) 1 authorised
                    (fresh answers [u "DELETE MY POSTS"; u "YES I AM SURE"]) in
  (fst fast = Returns false
   /\ printed_values (rev (trace (snd fast)))
      = [PInt 1; PInt 15; PStr (u "Access denied")])
  /\ (fst thorough = Returns false
      /\ error_count (snd thorough) = 1
      /\ printed_values (rev (trace (snd thorough)))
         = [PStr (u "hello"); PInt 1; PInt 1]).
Proof.
  vm_compute. repeat split.
Qed.

(** ** The exporter and the preview *)

Lemma lstrip_blank (s : pystr) : blank s = true -> lstrip s = [].
Proof.
  unfold blank. induction s as [|c s IH]; [reflexivity|].
  cbn [forallb lstrip]. destruct (isspace c); [exact IH | discriminate].
Qed.

Lemma lstrip_not_blank (s : pystr) :
  blank s = false -> exists c s1, lstrip s = c :: s1 /\ isspace c = false.
Proof.
  unfold blank. induction s as [|c s IH]; [discriminate|].
  cbn [forallb lstrip]. destruct (isspace c) eqn:Hc.
  - exact IH.
  - intros _. exists c, s. split; [reflexivity | exact Hc].
Qed.

Lemma blank_rev (s : pystr) : blank (rev s) = blank s.
Proof.
  unfold blank. apply eq_true_iff_eq. rewrite !forallb_forall.
  split; intros H x Hx; apply H; [apply in_rev in Hx | apply in_rev];
    assumption.
Qed.

(** [strip] leaves nothing exactly of the blank texts. *)
Lemma strip_truthy (t : pystr) : truthy (PStr (strip t)) = negb (blank t).
Proof.
  unfold strip, rstrip. destruct (blank t) eqn:Hb.
  - rewrite (lstrip_blank t Hb). reflexivity.
  - destruct (lstrip_not_blank t Hb) as (c & s1 & -> & Hc).
    assert (Hrev : blank (rev (c :: s1)) = false).
    { rewrite blank_rev. unfold blank. cbn [forallb]. rewrite Hc.
      reflexivity. }
    destruct (lstrip_not_blank _ Hrev) as (c1 & s2 & -> & _).
    cbn [negb truthy]. destruct (rev (c1 :: s2)) eqn:Hnil; [|reflexivity].
    apply (f_equal (@List.length _)) in Hnil. rewrite length_rev in Hnil.
    discriminate.
Qed.

Section Exporter.

Context {C : Clock}.

(** One round of the exporter on a post of the API: the block of the post
    is added when the post has a text, nothing is added otherwise. *)
Lemma extract_round_exportable texts post :
  exportable post ->
  (has_text post = true
   /\ exists b, block_of post b /\ extract_round texts post = Ok (texts ++ [b]))
  \/ (has_text post = false /\ extract_round texts post = Ok texts).
Proof.
  intros (d & -> & Hd).
  unfold extract_round, has_text. cbn [contains and_then getitem].
  destruct (dict_get (u "text") d) as [[| | | | t | |] |] eqn:Ht;
    try contradiction; [|right; split; reflexivity].
  cbn [and_then strip_method]. rewrite strip_truthy.
  destruct (blank t) eqn:Hb; cbn [negb].
  - right; split; reflexivity.
  - destruct Hd as [Hd | (dv & ds & Hdate & Hfmt)]; [discriminate|].
    left; split; [reflexivity|].
    exists (block ds (PStr t)). split.
    + exists d, t, dv, ds. auto.
    + rewrite Hdate. cbn [and_then].
      change "%Y-%m-%d %H:%M:%S"%string with export_format.
      rewrite Hfmt. reflexivity.
Qed.



End Exporter.


(** ** The scenario of the specification *)

(** One post on the wall, the fast confirmation given, the delete call
    answered with the sentinel: one post deleted, no error, [True]. *)
Example fast_delete_of_one_post :
  let r := delete_all_posts (R := Scripted) 1 authorised
             (fresh [page [post 1 "hello" 1700000000]; deleted_ok]
                    [u "DELETE ALL"]) in
  fst r = Returns true
  /\ deleted_count (snd r) = 1
  /\ error_count (snd r) = 0
  /\ delete_calls (trace (snd r)) = 1%nat.
Proof.
  vm_compute. repeat split.
Qed.

(** * Further properties *)

(** ** The requests of an enumeration *)

Lemma request_log_cons e tr :
  request_log (e :: tr)
  = request_log tr ++ (if is_request e then [e] else []).
Proof.
  unfold request_log. cbn [filter]. destruct (is_request e).
  - reflexivity.
  - rewrite app_nil_r. reflexivity.
Qed.

(** Sequencing under relations: [m] keeps [Q], what follows keeps [P], and
    [Q] alone or [Q] then [P] give [S]. *)
Lemma keeps_seq {W A B} (Q P S : state W -> state W -> Prop)
      (m : M W A) (k : A -> M W B) :
  (forall a b, Q a b -> S a b) ->
  (forall a b c, Q a b -> P b c -> S a c) ->
  keeps Q m -> (forall x, keeps P (k x)) -> keeps S (bind m k).
Proof.
  intros HQS HQPS Hm Hk st. unfold bind.
  specialize (Hm st).
  destruct (m st) as [[a | e |] st1]; cbn [snd] in *; auto.
  eapply HQPS; [exact Hm | apply Hk].
Qed.

Lemma silent_refl {W} (st : state W) : silent st st.
Proof. reflexivity. Qed.

Lemma silent_trans {W} (a b c : state W) : silent a b -> silent b c -> silent a c.
Proof. unfold silent; congruence. Qed.

Lemma silent_print {W} line : keeps (@silent W) (print line).
Proof. intros st. reflexivity. Qed.

Lemma silent_sleep {W} ms : keeps (@silent W) (sleep ms).
Proof. intros st. reflexivity. Qed.

Lemma silent_fetched {W} self k bound (a b : state W) :
  silent a b -> fetched self k bound a b.
Proof.
  intros H. exists 0%nat. split; [lia|]. cbn [seq map].
  rewrite app_nil_r. exact H.
Qed.

Lemma silent_then_fetched {W} self k bound (a b c : state W) :
  silent a b -> fetched self k bound b c -> fetched self k bound a c.
Proof.
  intros H (n & Hn & Hlog). exists n. split; [exact Hn|].
  rewrite Hlog, H. reflexivity.
Qed.

Ltac keeps_silent_step self k bound :=
  first
    [ apply (keeps_seq silent (fetched self k bound) (fetched self k bound));
      [ apply silent_fetched | apply silent_then_fetched | | intros ? ]
    | apply keeps_if ].

Section EnumerationRequests.

Context {W : Type} {R : Remote W}.

Lemma fetched_leaf self k bound {A} (m : M W A) :
  keeps silent m -> keeps (fetched self k bound) m.
Proof. intros H st. apply silent_fetched, H. Qed.

Lemma get_all_posts_loop_fetched fuel self :
  forall all_posts k,
    keeps (fetched self k fuel)
          (get_all_posts_loop fuel self all_posts (count * Z.of_nat k)).
Proof.
  induction fuel as [|fuel IH]; intros all_posts k.
  - apply fetched_leaf, (keeps_unfinished silent silent_refl).
  - cbn [get_all_posts_loop].
    intros st. rewrite bind_print.
    destruct (session_get (remote (with_event
                (Print [Lit "Загружаю посты, offset: ";
                        Num (count * Z.of_nat k)]) st))
                (api_url "wall.get")
                (sent self [("owner_id"%string, user_id self);
                            ("count"%string, PInt count);
                            ("offset"%string, PInt (count * Z.of_nat k))]))
      as [hr w] eqn:Hget.
    rewrite (bind_request _ _ _ _ _ hr w) by exact Hget.
    match goal with
    | |- fetched _ _ _ _ (snd (?rest ?st1)) =>
      assert (Hrest : fetched self (S k) fuel st1 (snd (rest st1)))
    end.
    { revert hr w Hget. intros hr w _.
      generalize (after_request self "wall.get"
                    [("owner_id"%string, user_id self);
                     ("count"%string, PInt count);
                     ("offset"%string, PInt (count * Z.of_nat k))] hr w
                    (with_event
                       (Print [Lit "Загружаю посты, offset: ";
                               Num (count * Z.of_nat k)]) st)).
      change (keeps (fetched self (S k) fuel)
                (failed <- (if negb (truthy (answer hr)) then ret true
                            else lift (do b <- contains (u "response")
                                                        (answer hr);
                                       Ok (negb b)));;
                 if failed then
                   print [Lit "Ошибка при получении постов"];; ret all_posts
                 else
                   posts <- lift (do r <- getitem (answer hr) (u "response");
                                  getitem r (u "items"));;
                   if negb (truthy posts) then ret all_posts
                   else
                     items <- lift (iter posts);;
                     sleep 500;;
                     n <- lift (len posts);;
                     if n <? count then ret (all_posts ++ items)
                     else get_all_posts_loop fuel self (all_posts ++ items)
                            (count * Z.of_nat k + count))).
      repeat first
        [ keeps_silent_step self (S k) fuel
        | apply fetched_leaf, (keeps_ret silent silent_refl)
        | apply fetched_leaf, (keeps_lift silent silent_refl)
        | apply fetched_leaf, silent_print
        | apply fetched_leaf, silent_sleep
        | apply silent_print | apply silent_sleep
        | apply (keeps_ret silent silent_refl)
        | apply (keeps_lift silent silent_refl) ].
      replace (count * Z.of_nat k + count) with (count * Z.of_nat (S k))
        by (unfold count; lia).
      apply IH. }
    destruct Hrest as (n & Hn & Hlog).
    exists (S n). split; [lia|].
    rewrite Hlog. cbn [after_request trace with_event].
    cbn [seq map].
    destruct hr; cbn [app];
      rewrite !request_log_cons; cbn [is_request];
        rewrite ?app_nil_r, <- ?app_assoc; reflexivity.
Qed.

End EnumerationRequests.

(** X1: whatever the service answers and however the enumeration ends,
    the requests it sent are page fetches and nothing else: [wall.get] with
    [count] 100 for the wall of [user_id], at the offsets 0, 100, 200, ...
    in this order, one per round of the loop. *)
Theorem get_all_posts_requests {W : Type} {R : Remote W} (fuel : nat)
        (self : VKParser) (st : state W) :
  exists n,
    (n <= fuel)%nat
    /\ request_log (trace (snd (get_all_posts fuel self st)))
       = request_log (trace st) ++ map (fetch_at self) (seq 0 n).
Proof.
  unfold get_all_posts. destruct (no_token self).
  - exists 0%nat. split; [lia|]. cbn [seq map]. rewrite app_nil_r.
    reflexivity.
  - rewrite bind_print.
    destruct (get_all_posts_loop_fetched fuel self [] 0%nat
                (with_event (Print [Lit "Начинаю сбор постов..."]) st))
      as (n & Hn & Hlog).
    exists n. split; [exact Hn|]. exact Hlog.
Qed.

(** X2: a page that is not empty and holds fewer than 100 items ends the
    enumeration: its items are taken and no further page is asked for,
    whatever total the answer announces. *)
Theorem get_all_posts_loop_short_page {W : Type} {R : Remote W}
        (fuel : nat) (self : VKParser) (all_posts : list pyval) (offset : Z)
        (st : state W) (total : Z) (pg : list pyval) (w : W) :
  session_get (remote st) (api_url "wall.get") (wall_get_params self offset)
  = (Json (page_of total pg), w) ->
  pg <> [] ->
  (List.length pg < 100)%nat ->
  exists st1,
    get_all_posts_loop (S fuel) self all_posts offset st
    = (Returns (all_posts ++ pg), st1)
    /\ remote st1 = w
    /\ fetches (trace st1) = S (fetches (trace st)).
Proof.
  intros Hget Hpg Hlen.
  rewrite (get_all_posts_loop_page fuel self all_posts offset st total pg w
             Hget).
  destruct pg as [|x pg]; [contradiction|]. cbv zeta.
  replace (Z.of_nat (List.length (x :: pg)) <? count) with true
    by (symmetry; apply Z.ltb_lt; unfold count; lia).
  eexists; split; [reflexivity|]. split; [reflexivity|].
  cbn [trace]. unfold fetches. rewrite !count_events_cons. reflexivity.
Qed.

Lemma get_all_posts_loop_short_page_witness :
  let pg := [post 1 "first" 0; post 2 "second" 0] in
  let st := fresh [Json (page_of 500 pg); page [post 3 "third" 0]] [] in
  session_get (Remote := Scripted) (remote st) (api_url "wall.get")
              (wall_get_params authorised 0)
  = (Json (page_of 500 pg), [page [post 3 "third" 0]])
  /\ pg <> []
  /\ (List.length pg < 100)%nat
  /\ exists st1,
       get_all_posts_loop (R := Scripted) 1 authorised [] 0 st
       = (Returns ([] ++ pg), st1)
       /\ remote st1 = [page [post 3 "third" 0]]
       /\ fetches (trace st1) = S (fetches (trace st)).
Proof.
  intros pg st.
  split; [reflexivity|]. split; [discriminate|]. split; [cbn; lia|].
  apply (get_all_posts_loop_short_page (R := Scripted) 0 authorised [] 0 st
           500 pg [page [post 3 "third" 0]]);
    [reflexivity | discriminate | cbn; lia].
Defined.

Section Endless.

Context {W : Type} {R : Remote W}.

Lemma get_all_posts_loop_always_full self :
  always_full R ->
  forall fuel all_posts offset (st : state W),
    fst (get_all_posts_loop fuel self all_posts offset st) = Unfinished
    /\ fetches (trace (snd (get_all_posts_loop fuel self all_posts offset st)))
       = (fetches (trace st) + fuel)%nat.
Proof.
  intros Hfull fuel.
  induction fuel as [|fuel IH]; intros all_posts offset st.
  - cbn. split; [reflexivity | lia].
  - destruct (Hfull (remote st) (wall_get_params self offset))
      as (total & pg & w & Hget & Hlen).
    rewrite (get_all_posts_loop_page fuel self all_posts offset st total pg w
               Hget).
    destruct pg as [|x pg]; [discriminate|]. cbv zeta.
    replace (Z.of_nat (List.length (x :: pg)) <? count) with false
      by (symmetry; apply Z.ltb_ge; unfold count; lia).
    match goal with
    | |- context [get_all_posts_loop fuel self ?acc ?o ?s] =>
      destruct (IH acc o s) as [Hout Hfetch]
    end.
    split; [exact Hout|]. rewrite Hfetch.
    cbn [trace]. unfold fetches. rewrite !count_events_cons. cbn. lia.
Qed.

End Endless.

(** X3: the enumeration has no bound of its own.  Against a service that
    answers every page fetch with a full page, it has not returned after
    any number of rounds, and has sent one fetch per round. *)
Theorem get_all_posts_never_ends {W : Type} {R : Remote W}
        (self : VKParser) (fuel : nat) (st : state W) :
  always_full R ->
  no_token self = false ->
  fst (get_all_posts fuel self st) = Unfinished
  /\ fetches (trace (snd (get_all_posts fuel self st)))
     = (fetches (trace st) + fuel)%nat.
Proof.
  intros Hfull Htoken. unfold get_all_posts. rewrite Htoken, bind_print.
  destruct (get_all_posts_loop_always_full self Hfull fuel [] 0
              (with_event (Print [Lit "Начинаю сбор постов..."]) st))
    as [Hout Hfetch].
  split; [exact Hout|]. rewrite Hfetch. cbn [trace with_event].
  unfold fetches. rewrite count_events_cons. reflexivity.
Qed.

Lemma get_all_posts_never_ends_witness :
  always_full Endless
  /\ no_token authorised = false
  /\ fst (get_all_posts (R := Endless) 7 authorised (fresh tt []))
     = Unfinished
  /\ fetches (trace (snd (get_all_posts (R := Endless) 7 authorised
                                        (fresh tt []))))
     = (fetches (trace (fresh tt [])) + 7)%nat.
Proof.
  assert (Hfull : always_full Endless).
  { intros w p. exists 100, (repeat (post 1 "again" 0) 100), tt.
    split; reflexivity. }
  split; [exact Hfull|]. split; [reflexivity|].
  apply (get_all_posts_never_ends (R := Endless) authorised 7 (fresh tt [])
           Hfull eq_refl).
Defined.

(** X4: an answer with the envelope but without a usable [items] inside it
    makes the enumeration raise (KeyError when the key is missing, TypeError
    when [response] is not an object): the posts collected so far are not
    returned. *)
Theorem get_all_posts_loop_no_items {W : Type} {R : Remote W}
        (fuel : nat) (self : VKParser) (all_posts : list pyval) (offset : Z)
        (st : state W) (d : list (pystr * pyval)) (r : pyval) (e : exn)
        (w : W) :
  session_get (remote st) (api_url "wall.get") (wall_get_params self offset)
  = (Json (PDict d), w) ->
  dict_get (u "response") d = Some r ->
  getitem r (u "items") = Err e ->
  get_all_posts_loop (S fuel) self all_posts offset st
  = (Raises e,
     after_request self "wall.get"
       [("owner_id"%string, user_id self); ("count"%string, PInt count);
        ("offset"%string, PInt offset)] (Json (PDict d)) w
       (with_event (Print [Lit "Загружаю посты, offset: "; Num offset]) st)).
Proof.
  intros Hget Hd Hitems.
  cbn [get_all_posts_loop]. rewrite bind_print.
  rewrite (bind_request _ _ _ _ _ (Json (PDict d)) w) by exact Hget.
  cbn [answer].
  destruct d as [|kv d]; [discriminate|].
  cbn [truthy negb contains getitem]. rewrite Hd. cbn [and_then negb].
  rewrite bind_lift_ok. cbv iota. rewrite Hitems, bind_lift_err.
  reflexivity.
Qed.

Lemma get_all_posts_loop_no_items_witness :
  let d := [(u "response", PDict [(u "count", PInt 0)])] in
  let st := fresh [Json (PDict d)] [] in
  session_get (Remote := Scripted) (remote st) (api_url "wall.get")
              (wall_get_params authorised 100)
  = (Json (PDict d), [])
  /\ dict_get (u "response") d = Some (PDict [(u "count", PInt 0)])
  /\ getitem (PDict [(u "count", PInt 0)]) (u "items") = Err KeyError
  /\ fst (get_all_posts_loop (R := Scripted) 1 authorised
                             [post 1 "kept" 0] 100 st)
     = Raises KeyError.
Proof.
  intros d st.
  split; [reflexivity|]. split; [reflexivity|]. split; [reflexivity|].
  apply (f_equal fst
           (get_all_posts_loop_no_items (R := Scripted) 0 authorised
              [post 1 "kept" 0] 100 st d (PDict [(u "count", PInt 0)])
              KeyError [] eq_refl eq_refl eq_refl)).
Defined.

(** ** The traffic of a deletion *)

Lemma traffic_cons e tr :
  traffic (e :: tr)
  = traffic tr ++ (if is_request e || is_sleep e then [e] else []).
Proof.
  unfold traffic. cbn [filter]. destruct (is_request e || is_sleep e).
  - reflexivity.
  - rewrite app_nil_r. reflexivity.
Qed.

Lemma traffic_after_request {W} self method p hr w (st : state W) :
  traffic (trace (after_request self method p hr w st))
  = traffic (trace st) ++ [Get (api_url method) (sent self p)].
Proof.
  unfold after_request. cbn [trace].
  destruct hr; cbn [app]; rewrite !traffic_cons; cbn [is_request is_sleep orb];
    rewrite ?app_nil_r; reflexivity.
Qed.

Section DeletionTraffic.

Context {W : Type} {R : Remote W}.

Lemma _delete_posts_round_traffic self n i post id (st : state W) hr w :
  getitem post (u "id") = Ok id ->
  session_get (remote st) (api_url "wall.delete")
              (sent self (delete_params self id)) = (hr, w) ->
  api_shaped (answer hr) ->
  exists st1,
    _delete_posts_round self n i post st = (Returns tt, st1)
    /\ traffic (trace st1)
       = traffic (trace st) ++ [delete_of self id; Sleep 1000]
    /\ stdin st1 = stdin st
    /\ deleted_count st1 + error_count st1
       = deleted_count st + error_count st + 1
    /\ deleted_count st <= deleted_count st1
    /\ error_count st <= error_count st1.
Proof.
  intros Hid Hget Hshape.
  unfold _delete_posts_round.
  rewrite Hid, bind_lift_ok, bind_print, bind_lift_ok.
  rewrite (bind_request _ _ _ _ _ hr w) by exact Hget.
  rewrite (is_deleted_shaped _ Hshape), bind_lift_ok.
  destruct (has_sentinel (answer hr)); cbv iota.
  - eexists; split; [reflexivity|].
    cbn [remote stdin trace deleted_count error_count with_event].
    rewrite traffic_cons, traffic_after_request.
    cbn [trace with_event]. rewrite traffic_cons.
    cbn [is_request is_sleep orb after_request deleted_count error_count
         stdin with_event].
    rewrite app_nil_r, <- app_assoc.
    repeat split; try reflexivity; lia.
  - rewrite bind_assoc, bind_incr_error, bind_assoc, bind_lift_ok,
      bind_print.
    eexists; split; [reflexivity|].
    cbn [remote stdin trace deleted_count error_count with_event].
    rewrite !traffic_cons, traffic_after_request.
    cbn [trace with_event]. rewrite traffic_cons.
    cbn [is_request is_sleep orb after_request deleted_count error_count
         stdin with_event].
    rewrite !app_nil_r, <- app_assoc.
    repeat split; try reflexivity; lia.
Qed.

Lemma _delete_posts_loop_traffic self n :
  shaped_service R ->
  forall posts ids i (st : state W),
    ids_of posts ids ->
    exists st1,
      _delete_posts_loop self n i posts st = (Returns tt, st1)
      /\ traffic (trace st1) = traffic (trace st) ++ deletions self ids
      /\ stdin st1 = stdin st
      /\ deleted_count st1 + error_count st1
         = deleted_count st + error_count st + Z.of_nat (List.length posts)
      /\ deleted_count st <= deleted_count st1
      /\ error_count st <= error_count st1.
Proof.
  intros Hservice posts ids i st Hids. revert i st.
  induction Hids as [|post id posts ids Hid _ IH]; intros i st.
  - exists st. cbn. rewrite app_nil_r. repeat split; lia.
  - destruct (session_get (remote st) (api_url "wall.delete")
                          (sent self (delete_params self id)))
      as [hr w] eqn:Hget.
    pose proof (Hservice (remote st) (api_url "wall.delete")
                         (sent self (delete_params self id))) as Hshape.
    rewrite Hget in Hshape. cbn [fst] in Hshape.
    destruct (_delete_posts_round_traffic self n i post id st hr w
                Hid Hget Hshape)
      as (st1 & Hround & Htr1 & Hin1 & Hsum1 & Hd1 & He1).
    destruct (IH (i + 1) st1)
      as (st2 & Hloop & Htr2 & Hin2 & Hsum2 & Hd2 & He2).
    exists st2. cbn [_delete_posts_loop]. unfold bind at 1.
    rewrite Hround. split; [exact Hloop|].
    rewrite Htr2, Htr1. cbn [deletions flat_map List.length].
    rewrite <- app_assoc.
    repeat split; try reflexivity; try congruence; lia.
Qed.

End DeletionTraffic.

(** X5: [_delete_posts] works through the whole list, whatever the
    service answers (no answer, an error, a success): it sends one
    [wall.delete] per post, in the order of the list, for the owner
    [user_id] and the id of the post, pauses one second after each, counts
    every post once, reads nothing from the console and returns whether no
    error was counted. *)
Theorem _delete_posts_complete {W : Type} {R : Remote W} (self : VKParser)
        (posts ids : list pyval) (st : state W) :
  shaped_service R ->
  ids_of posts ids ->
  exists st1,
    _delete_posts self posts st = (Returns (error_count st1 =? 0), st1)
    /\ traffic (trace st1) = traffic (trace st) ++ deletions self ids
    /\ deleted_count st1 + error_count st1 = Z.of_nat (List.length posts)
    /\ 0 <= deleted_count st1
    /\ 0 <= error_count st1
    /\ stdin st1 = stdin st.
Proof.
  intros Hservice Hids.
  unfold _delete_posts. rewrite bind_set_counts.
  destruct (_delete_posts_loop_traffic self (Z.of_nat (List.length posts))
              Hservice posts ids 1
              (mkState (remote st) (stdin st) (trace st) 0 0) Hids)
    as (st2 & Hloop & Htr & Hin & Hsum & Hd & He).
  cbn [trace stdin deleted_count error_count] in *.
  unfold bind at 1. rewrite Hloop, bind_print.
  eexists; split; [reflexivity|].
  cbn [trace stdin deleted_count error_count with_event].
  rewrite !traffic_cons. cbn [is_request is_sleep orb].
  rewrite !app_nil_r.
  repeat split; try assumption; lia.
Qed.

Lemma replying_shaped : shaped_service Replying.
Proof.
  intros w url p. destruct w as [|[| | code] w]; cbn;
    try (left; reflexivity); right; eexists; reflexivity.
Qed.

Lemma _delete_posts_complete_witness :
  let posts := [post 1 "first" 0; post 2 "second" 0; post 3 "third" 0] in
  let ids := [PInt 1; PInt 2; PInt 3] in
  let st := fresh [Lost; Deleted; Denied 15] [] in
  shaped_service Replying
  /\ ids_of posts ids
  /\ exists st1,
       _delete_posts (R := Replying) authorised posts st
       = (Returns (error_count st1 =? 0), st1)
       /\ traffic (trace st1) = traffic (trace st) ++ deletions authorised ids
       /\ deleted_count st1 + error_count st1 = 3.
Proof.
  intros posts ids st.
  assert (Hids : ids_of posts ids) by (repeat constructor).
  split; [exact replying_shaped|]. split; [exact Hids|].
  destruct (_delete_posts_complete (R := Replying) authorised posts ids st
              replying_shaped Hids) as (st1 & Hrun & Htr & Hsum & _).
  exists st1. split; [exact Hrun|]. split; [exact Htr | exact Hsum].
Defined.

Section FastDeletionTraffic.

Context {W : Type} {R : Remote W}.

Lemma delete_all_posts_round_traffic self n i post id (st : state W) hr w :
  getitem post (u "id") = Ok id ->
  session_get (remote st) (api_url "wall.delete")
              (sent self (delete_params self id)) = (hr, w) ->
  reportable (answer hr) ->
  exists st1,
    delete_all_posts_round self n i post st = (Returns tt, st1)
    /\ traffic (trace st1)
       = traffic (trace st) ++ [delete_of self id; Sleep 1000]
    /\ stdin st1 = stdin st
    /\ deleted_count st1 + error_count st1
       = deleted_count st + error_count st + 1
    /\ deleted_count st <= deleted_count st1
    /\ error_count st <= error_count st1.
Proof.
  intros Hid Hget (d & Hd & Herr).
  assert (Hshape : api_shaped (answer hr)) by (right; exists d; exact Hd).
  assert (Hdone : forall tr0 : list event,
             traffic tr0
             = traffic (trace (after_request self "wall.delete"
                                 (delete_params self id) hr w
                                 (with_event
                                    (Print [Lit "Удаляю пост "; Num i;
                                            Lit "/"; Num n; Lit "..."]) st))) ->
             traffic (Sleep 1000 :: tr0)
             = traffic (trace st) ++ [delete_of self id; Sleep 1000]).
  { intros tr0 H. rewrite traffic_cons, H, traffic_after_request.
    cbn [trace with_event]. rewrite traffic_cons.
    cbn [is_request is_sleep orb]. rewrite app_nil_r, <- app_assoc.
    reflexivity. }
  unfold delete_all_posts_round.
  rewrite bind_print, Hid, bind_lift_ok.
  rewrite (bind_request _ _ _ _ _ hr w) by exact Hget.
  rewrite (is_deleted_shaped _ Hshape), bind_lift_ok.
  destruct (has_sentinel (answer hr)); cbv iota.
  - rewrite bind_assoc, bind_incr_deleted, bind_assoc, bind_lift_ok,
      bind_print.
    eexists; split; [reflexivity|].
    cbn [trace stdin deleted_count error_count with_event].
    split; [apply Hdone; rewrite traffic_cons;
            cbn [is_request is_sleep orb]; rewrite app_nil_r; reflexivity|].
    cbn [after_request stdin deleted_count error_count with_event].
    repeat split; lia.
  - rewrite bind_assoc, bind_incr_error, bind_assoc, bind_lift_ok,
      bind_assoc, bind_print, bind_assoc.
    rewrite Hd. cbn [contains getitem].
    destruct (dict_get (u "error") d) as [e|].
    + destruct Herr as (code & msg & Hcode & Hmsg).
      rewrite bind_lift_ok. cbv iota. cbn [and_then].
      rewrite Hcode, Hmsg.
      rewrite !bind_assoc, bind_lift_ok, bind_assoc, bind_print, bind_assoc,
        bind_lift_ok, bind_print.
      eexists; split; [reflexivity|].
      cbn [trace stdin deleted_count error_count with_event].
      split; [apply Hdone; rewrite !traffic_cons;
              cbn [is_request is_sleep orb]; rewrite !app_nil_r;
              reflexivity|].
      cbn [after_request stdin deleted_count error_count with_event].
      repeat split; lia.
    + rewrite bind_lift_ok. cbv iota. rewrite bind_ret.
      eexists; split; [reflexivity|].
      cbn [trace stdin deleted_count error_count with_event].
      split; [apply Hdone; rewrite !traffic_cons;
              cbn [is_request is_sleep orb]; rewrite !app_nil_r;
              reflexivity|].
      cbn [after_request stdin deleted_count error_count with_event].
      repeat split; lia.
Qed.

Lemma delete_all_posts_loop_traffic self n :
  answering_service R ->
  forall posts ids i (st : state W),
    ids_of posts ids ->
    exists st1,
      delete_all_posts_loop self n i posts st = (Returns tt, st1)
      /\ traffic (trace st1) = traffic (trace st) ++ deletions self ids
      /\ stdin st1 = stdin st
      /\ deleted_count st1 + error_count st1
         = deleted_count st + error_count st + Z.of_nat (List.length posts)
      /\ deleted_count st <= deleted_count st1
      /\ error_count st <= error_count st1.
Proof.
  intros Hservice posts ids i st Hids. revert i st.
  induction Hids as [|post id posts ids Hid _ IH]; intros i st.
  - exists st. cbn. rewrite app_nil_r. repeat split; lia.
  - destruct (session_get (remote st) (api_url "wall.delete")
                          (sent self (delete_params self id)))
      as [hr w] eqn:Hget.
    pose proof (Hservice (remote st) (api_url "wall.delete")
                         (sent self (delete_params self id))) as Hanswer.
    rewrite Hget in Hanswer. cbn [fst] in Hanswer.
    destruct (delete_all_posts_round_traffic self n i post id st hr w
                Hid Hget Hanswer)
      as (st1 & Hround & Htr1 & Hin1 & Hsum1 & Hd1 & He1).
    destruct (IH (i + 1) st1)
      as (st2 & Hloop & Htr2 & Hin2 & Hsum2 & Hd2 & He2).
    exists st2. cbn [delete_all_posts_loop]. unfold bind at 1.
    rewrite Hround. split; [exact Hloop|].
    rewrite Htr2, Htr1. cbn [deletions flat_map List.length].
    rewrite <- app_assoc.
    repeat split; try reflexivity; try congruence; lia.
Qed.

End FastDeletionTraffic.

(** X6: when every delete call gets an answer (an object, whose error, if
    it carries one, has a code and a message), the deletion of
    [delete_all_posts] works through the whole list as well: one
    [wall.delete] per post in the order of the list, a pause of one second
    after each, every post counted once, and the result tells whether no
    error was counted. *)
Theorem delete_all_posts_found_complete {W : Type} {R : Remote W}
        (self : VKParser) (posts ids : list pyval) (st : state W) :
  answering_service R ->
  ids_of posts ids ->
  exists st1,
    delete_all_posts_found self posts st
    = (Returns (error_count st1 =? 0), st1)
    /\ traffic (trace st1) = traffic (trace st) ++ deletions self ids
    /\ deleted_count st1 + error_count st1 = Z.of_nat (List.length posts)
    /\ 0 <= deleted_count st1
    /\ 0 <= error_count st1
    /\ stdin st1 = stdin st.
Proof.
  intros Hservice Hids.
  unfold delete_all_posts_found. cbv zeta.
  rewrite bind_print, bind_set_counts. unfold bind at 1.
  match goal with
  | |- context [delete_all_posts_loop self ?n 1 posts ?s] =>
    destruct (delete_all_posts_loop_traffic self n Hservice posts ids 1 s Hids)
      as (st2 & Hloop & Htr & Hin & Hsum & Hd & He)
  end.
  cbn [trace stdin deleted_count error_count with_event] in Htr, Hin, Hsum,
    Hd, He.
  rewrite traffic_cons in Htr. cbn [is_request is_sleep orb] in Htr.
  rewrite app_nil_r in Htr.
  rewrite Hloop, bind_print.
  eexists; split; [reflexivity|].
  cbn [trace stdin deleted_count error_count with_event].
  rewrite !traffic_cons. cbn [is_request is_sleep orb].
  rewrite !app_nil_r.
  repeat split; try assumption; lia.
Qed.

Lemma answering_answers : answering_service Answering.
Proof.
  intros w url p. destruct w as [|c w]; cbn.
  - eexists; split; [reflexivity|]. cbn. do 2 eexists. split; reflexivity.
  - destruct (c =? 0); cbn.
    + eexists; split; [reflexivity|]. exact I.
    + eexists; split; [reflexivity|]. cbn. do 2 eexists. split; reflexivity.
Qed.

Lemma delete_all_posts_found_complete_witness :
  let posts := [post 1 "first" 0; post 2 "second" 0; post 3 "third" 0] in
  let ids := [PInt 1; PInt 2; PInt 3] in
  let st := fresh [0; 15; 0] [] in
  answering_service Answering
  /\ ids_of posts ids
  /\ exists st1,
       delete_all_posts_found (R := Answering) authorised posts st
       = (Returns (error_count st1 =? 0), st1)
       /\ traffic (trace st1) = traffic (trace st) ++ deletions authorised ids
       /\ deleted_count st1 + error_count st1 = 3.
Proof.
  intros posts ids st.
  assert (Hids : ids_of posts ids) by (repeat constructor).
  split; [exact answering_answers|]. split; [exact Hids|].
  destruct (delete_all_posts_found_complete (R := Answering) authorised posts
              ids st answering_answers Hids)
    as (st1 & Hrun & Htr & Hsum & _).
  exists st1. split; [exact Hrun|]. split; [exact Htr | exact Hsum].
Defined.

(** ** The confirmation gates, from the prompt to the deletion *)

Lemma appended_refl {W} (st : state W) : appended st st.
Proof. exists []. rewrite app_nil_r. reflexivity. Qed.

Lemma appended_trans {W} (a b c : state W) :
  appended a b -> appended b c -> appended a c.
Proof.
  intros (l1 & H1) (l2 & H2). exists (l1 ++ l2).
  rewrite H2, H1, app_assoc. reflexivity.
Qed.

Lemma appended_same {W A} (m : M W A) :
  (forall st, request_log (trace (snd (m st))) = request_log (trace st)) ->
  keeps appended m.
Proof. intros H st. exists []. rewrite H, app_nil_r. reflexivity. Qed.

Lemma request_log_after_request {W} self method p hr w (st : state W) :
  request_log (trace (after_request self method p hr w st))
  = request_log (trace st) ++ [Get (api_url method) (sent self p)].
Proof.
  unfold after_request. cbn [trace].
  destruct hr; cbn [app]; rewrite !request_log_cons; cbn [is_request];
    rewrite ?app_nil_r; reflexivity.
Qed.

Lemma appended_request {W} {R : Remote W} self method p :
  keeps appended (_make_api_request self method p).
Proof.
  intros st.
  destruct (session_get (remote st) (api_url method) (sent self p))
    as [hr w] eqn:Hget.
  pose proof (bind_request self method p (fun v => ret v) st hr w Hget)
    as Hstep.
  unfold bind, ret in Hstep.
  exists [Get (api_url method) (sent self p)].
  rewrite <- request_log_after_request with (hr := hr) (w := w).
  destruct (_make_api_request self method p st) as [[v | e |] st1];
    injection Hstep as _ ->; reflexivity.
Qed.

Ltac appended_walk leaf :=
  repeat lazymatch goal with
  | |- keeps _ (bind _ _) =>
    apply (keeps_bind appended appended_trans); [| intros ? ]
  | |- keeps _ (ret _) => apply (keeps_ret appended appended_refl)
  | |- keeps _ (lift _) => apply (keeps_lift appended appended_refl)
  | |- keeps _ (_make_api_request _ _ _) => apply appended_request
  | |- keeps _ (if _ then _ else _) => apply keeps_if
  | |- keeps _ (print _) => apply appended_same; intros ?; reflexivity
  | |- keeps _ (sleep _) => apply appended_same; intros ?; reflexivity
  | |- keeps _ (set_counts _ _) => apply appended_same; intros ?; reflexivity
  | |- keeps _ incr_deleted => apply appended_same; intros ?; reflexivity
  | |- keeps _ incr_error => apply appended_same; intros ?; reflexivity
  | |- keeps _ get_deleted => apply appended_same; intros ?; reflexivity
  | |- keeps _ get_error => apply appended_same; intros ?; reflexivity
  | |- keeps _ _ => leaf
  end.

Lemma ids_of_has_id posts ids : ids_of posts ids -> Forall has_id posts.
Proof.
  induction 1 as [|post id posts ids Hid _ IH]; constructor;
    [exists id; exact Hid | exact IH].
Qed.

Section Released.

Context {W : Type} {R : Remote W}.

(** What follows a computation only adds to the request log of its end. *)
Lemma bind_appended {A B} (m : M W A) (k : A -> M W B) (st : state W) :
  (forall a, keeps appended (k a)) ->
  appended (snd (m st)) (snd (bind m k st)).
Proof.
  intros Hk. unfold bind.
  destruct (m st) as [[a | e |] st1]; cbn [snd];
    [apply Hk | apply appended_refl | apply appended_refl].
Qed.

(** A request is on the log whatever is made of its answer. *)
Lemma request_then {B} self method p (k : pyval -> M W B) (st : state W) :
  (forall v, keeps appended (k v)) ->
  exists later,
    request_log (trace (snd (bind (_make_api_request self method p) k st)))
    = request_log (trace st) ++ Get (api_url method) (sent self p) :: later.
Proof.
  intros Hk.
  destruct (session_get (remote st) (api_url method) (sent self p))
    as [hr w] eqn:Hget.
  rewrite (bind_request _ _ _ _ _ hr w Hget).
  destruct (Hk (answer hr) (after_request self method p hr w st))
    as (later & Hlater).
  exists later.
  rewrite Hlater, request_log_after_request, <- app_assoc. reflexivity.
Qed.

Lemma delete_all_posts_loop_appended self n posts :
  forall i, keeps appended (delete_all_posts_loop self n i posts).
Proof.
  induction posts as [|post rest IH]; intros i; cbn [delete_all_posts_loop].
  - appended_walk fail.
  - unfold delete_all_posts_round. appended_walk ltac:(idtac; apply IH).
Qed.


(** The first request of the deletion of [delete_all_posts] is the delete
    call for the first post, whatever the service does with it and with
    the calls behind it. *)
Lemma delete_all_posts_found_sends self post more id (st : state W) :
  getitem post (u "id") = Ok id ->
  exists later,
    request_log (trace (snd (delete_all_posts_found self (post :: more) st)))
    = request_log (trace st) ++ delete_of self id :: later.
Proof.
  intros Hid. unfold delete_all_posts_found. cbv zeta.
  rewrite bind_print, bind_set_counts.
  cbn [delete_all_posts_loop]. rewrite bind_assoc.
  unfold delete_all_posts_round.
  rewrite !bind_assoc, bind_print, bind_assoc, Hid, bind_lift_ok, bind_assoc.
  match goal with
  | |- context [bind (_make_api_request _ _ _) ?k ?s] =>
    destruct (request_then self "wall.delete" (delete_params self id) k s)
      as (later & Hlater)
  end.
  { intros v.
    appended_walk ltac:(idtac; apply delete_all_posts_loop_appended). }
  exists later. rewrite Hlater. reflexivity.
Qed.


(** [delete_all_posts] from the posts found on, against a service that
    answers every call: the whole list is worked through. *)
Lemma delete_all_posts_found_through self posts ids (st : state W) :
  answering_service R ->
  ids_of posts ids ->
  exists st1,
    delete_all_posts_found self posts st
    = (Returns (error_count st1 =? 0), st1)
    /\ traffic (trace st1) = traffic (trace st) ++ deletions self ids
    /\ delete_calls (trace st1)
       = (delete_calls (trace st) + List.length posts)%nat
    /\ deleted_count st1 + error_count st1 = Z.of_nat (List.length posts)
    /\ stdin st1 = stdin st.
Proof.
  intros Hservice Hids.
  unfold delete_all_posts_found. cbv zeta.
  rewrite bind_print, bind_set_counts. unfold bind at 1.
  match goal with
  | |- context [delete_all_posts_loop self ?n 1 posts ?s] =>
    destruct (delete_all_posts_loop_traffic self n Hservice posts ids 1 s Hids)
      as (st2 & Hloop & Htr & Hin & Hsum & _);
    destruct (delete_all_posts_loop_run self n Hservice posts 1 s
                (ids_of_has_id posts ids Hids))
      as (st3 & Hloop3 & _ & Hcalls & _)
  end.
  rewrite Hloop in Hloop3. injection Hloop3 as <-.
  cbn [trace stdin deleted_count error_count with_event] in Htr, Hin, Hsum,
    Hcalls.
  rewrite traffic_cons in Htr. cbn [is_request is_sleep orb] in Htr.
  rewrite app_nil_r in Htr.
  unfold delete_calls in *. rewrite count_events_cons in Hcalls.
  cbn [is_get] in Hcalls.
  rewrite Hloop, bind_print.
  eexists; split; [reflexivity|].
  cbn [trace stdin deleted_count error_count with_event].
  rewrite !traffic_cons, !count_events_cons. cbn [is_request is_sleep orb is_get].
  rewrite !app_nil_r.
  repeat split; try assumption; lia.
Qed.


End Released.

(** C4: with a token, [delete_all_posts] goes on to the enumeration and the
    deletion when the line typed at its prompt is exactly [DELETE ALL]: once
    the enumeration has returned posts, the next request is the
    [wall.delete] for the first of them, whatever the service answers, and
    against a service that answers every call there is one [wall.delete]
    per post, in order.  On any other line it returns [False], having sent
    no request at all and left the remote service as it was. *)
Theorem fast_gate_exact {W : Type} {R : Remote W} (fuel : nat)
        (self : VKParser) (st : state W) (c : pystr) (rest : list pystr) :
  no_token self = false ->
  stdin st = c :: rest ->
  (c = u "DELETE ALL" ->
   delete_all_posts fuel self st
   = delete_all_posts_confirmed fuel self (after_fast_prompt st rest)
   /\ (forall post more id st1,
          get_all_posts fuel self (after_fast_prompt st rest)
          = (Returns (post :: more), st1) ->
          getitem post (u "id") = Ok id ->
          exists later,
            request_log (trace (snd (delete_all_posts fuel self st)))
            = request_log (trace st1) ++ delete_of self id :: later)
   /\ (answering_service R ->
       forall posts ids st1,
         get_all_posts fuel self (after_fast_prompt st rest)
         = (Returns posts, st1) ->
         posts <> [] ->
         ids_of posts ids ->
         exists st2,
           delete_all_posts fuel self st
           = (Returns (error_count st2 =? 0), st2)
           /\ traffic (trace st2) = traffic (trace st1) ++ deletions self ids
           /\ delete_calls (trace st2)
              = (delete_calls (trace st) + List.length posts)%nat
           /\ deleted_count st2 + error_count st2
              = Z.of_nat (List.length posts)
           /\ stdin st2 = rest))
  /\ (c <> u "DELETE ALL" ->
      delete_all_posts fuel self st
      = (Returns false, with_event cancelled (after_fast_prompt st rest))
      /\ remote (with_event cancelled (after_fast_prompt st rest)) = remote st
      /\ requests (trace (with_event cancelled (after_fast_prompt st rest)))
         = requests (trace st)
      /\ delete_calls (trace (with_event cancelled (after_fast_prompt st rest)))
         = delete_calls (trace st)).
Proof.
  intros Htoken Hin.
  rewrite (delete_all_posts_prompted fuel self st c rest Htoken Hin).
  split.
  - intros ->.
    change (str_eqb (u "DELETE ALL") (u "DELETE ALL")) with true. cbv iota.
    split; [reflexivity|]. split.
    + intros post more id st1 Hrun Hid.
      unfold delete_all_posts_confirmed, bind at 1. rewrite Hrun.
      apply delete_all_posts_found_sends, Hid.
    + intros Hservice posts ids st1 Hrun Hposts Hids.
      pose proof (get_all_posts_quiet fuel self (after_fast_prompt st rest))
        as Hq.
      rewrite Hrun in Hq. destruct Hq as (Hin1 & _ & Hdel & _).
      cbn [snd stdin trace after_fast_prompt] in Hin1, Hdel.
      unfold delete_calls in Hdel. rewrite !count_events_cons in Hdel.
      cbn [is_get] in Hdel.
      unfold delete_all_posts_confirmed, bind at 1. rewrite Hrun.
      destruct posts as [|post more]; [contradiction|].
      destruct (delete_all_posts_found_through self (post :: more) ids st1
                  Hservice Hids)
        as (st2 & Hfound & Htr & Hcalls & Hsum & Hin2).
      exists st2. unfold delete_calls in *.
      split; [exact Hfound|]. split; [exact Htr|]. split; [|split].
      * rewrite Hcalls, Hdel. reflexivity.
      * exact Hsum.
      * rewrite Hin2. exact Hin1.
  - intros Hc. apply str_eqb_neq in Hc. rewrite Hc.
    repeat split.
Qed.

Lemma wall_answers : answering_service Wall.
Proof.
  intros w url p. cbn [session_get Wall]. unfold wall_get.
  destruct (String.eqb url (api_url "wall.get")).
  - cbn [fst]. unfold wall_page.
    destruct (param "offset" p) as [[]|]; destruct (param "count" p) as [[]|];
      cbn [answer]; eexists; (split; [reflexivity|]);
      first [exact I | do 2 eexists; split; reflexivity].
  - destruct (String.eqb url (api_url "wall.delete")).
    + destruct (param "post_id" p) as [id|];
        [destruct (existsb (has_post_id id) w)|];
        cbn [fst answer]; eexists; (split; [reflexivity|]);
        first [exact I | do 2 eexists; split; reflexivity].
    + cbn [fst answer]. eexists; split; [reflexivity|].
      do 2 eexists; split; reflexivity.
Qed.

Lemma fast_gate_exact_witness :
  let posts := [post 1 "first" 0; post 2 "second" 0] in
  let ids := [PInt 1; PInt 2] in
  let st := fresh posts [u "DELETE ALL"] in
  let st1 := snd (get_all_posts (R := Wall) 1 authorised
                                (after_fast_prompt st [])) in
  let aborted := fresh posts [u "delete all"] in
  no_token authorised = false
  /\ stdin st = [u "DELETE ALL"]
  /\ answering_service Wall
  /\ get_all_posts (R := Wall) 1 authorised (after_fast_prompt st [])
     = (Returns posts, st1)
  /\ posts <> []
  /\ ids_of posts ids
  /\ (exists st2,
         delete_all_posts (R := Wall) 1 authorised st
         = (Returns (error_count st2 =? 0), st2)
         /\ traffic (trace st2) = traffic (trace st1) ++ deletions authorised ids
         /\ delete_calls (trace st2) = 2%nat)
  /\ stdin aborted = [u "delete all"]
  /\ u "delete all" <> u "DELETE ALL"
  /\ delete_all_posts (R := Wall) 1 authorised aborted
     = (Returns false, with_event cancelled (after_fast_prompt aborted [])).
Proof.
  intros posts ids st st1 aborted.
  assert (Hrun : get_all_posts (R := Wall) 1 authorised
                               (after_fast_prompt st [])
                 = (Returns posts, st1)) by reflexivity.
  assert (Hposts : posts <> []) by discriminate.
  assert (Hids : ids_of posts ids) by (repeat constructor).
  split; [reflexivity|]. split; [reflexivity|].
  split; [exact wall_answers|]. split; [exact Hrun|].
  split; [exact Hposts|]. split; [exact Hids|].
  split.
  - destruct (fast_gate_exact (R := Wall) 1 authorised st (u "DELETE ALL") []
                eq_refl eq_refl) as [Hexact _].
    destruct (Hexact eq_refl) as (_ & _ & Hall).
    destruct (Hall wall_answers posts ids st1 Hrun Hposts Hids)
      as (st2 & Hdone & Htr & Hcalls & _).
    exists st2. split; [exact Hdone|]. split; [exact Htr | exact Hcalls].
  - split; [reflexivity|]. split; [discriminate|].
    destruct (fast_gate_exact (R := Wall) 1 authorised aborted
                (u "delete all") [] eq_refl eq_refl) as [_ Hother].
    apply Hother. discriminate.
Defined.



(** ** Posts and answers out of shape *)

(** X7: a post from which no id can be read ends either deletion loop with
    the exception of the lookup (KeyError for an object without ['id'])
    before any request is sent for it; the posts behind it are not
    reached. *)
Theorem delete_loops_post_without_id {W : Type} {R : Remote W}
        (self : VKParser) (n i : Z) (post : pyval) (rest : list pyval)
        (e : exn) (st : state W) :
  getitem post (u "id") = Err e ->
  (exists st1,
      delete_all_posts_loop self n i (post :: rest) st = (Raises e, st1)
      /\ requests (trace st1) = requests (trace st)
      /\ remote st1 = remote st)
  /\ _delete_posts_loop self n i (post :: rest) st = (Raises e, st).
Proof.
  intros Hid. split.
  - cbn [delete_all_posts_loop]. unfold delete_all_posts_round.
    rewrite !bind_assoc, bind_print, !bind_assoc, Hid, bind_lift_err.
    eexists; split; [reflexivity|]. split; reflexivity.
  - cbn [_delete_posts_loop]. unfold _delete_posts_round.
    rewrite !bind_assoc, Hid, bind_lift_err. reflexivity.
Qed.

Lemma delete_loops_post_without_id_witness :
  let broken := PDict [(u "text", PStr (u "no id here"))] in
  let st := fresh [deleted_ok] [] in
  getitem broken (u "id") = Err KeyError
  /\ _delete_posts_loop (R := Scripted) authorised 2 1
                        [broken; post 2 "second" 0] st
     = (Raises KeyError, st).
Proof.
  intros broken st. split; [reflexivity|].
  apply (delete_loops_post_without_id (R := Scripted) authorised 2 1 broken
           [post 2 "second" 0] KeyError st eq_refl).
Defined.

(** X8: for any value the service may answer, not only objects, the test
    of the deletion loops finds a success exactly when the answer is an
    object whose field [response] equals 1; when the test raises, it raises
    [TypeError], and only on an answer that is neither [None] nor an
    object. *)
Theorem is_deleted_any_answer (r : pyval) :
  (is_deleted r = Ok true <-> has_sentinel r = true)
  /\ (forall e, is_deleted r = Err e -> e = TypeError /\ ~ api_shaped r).
Proof.
  assert (Hnot : forall v, (v <> PNone) -> (forall d, v <> PDict d) ->
                           ~ api_shaped v).
  { intros v H1 H2 [H | (d & H)]; [exact (H1 H) | exact (H2 d H)]. }
  unfold is_deleted.
  destruct r as [| b | z | f | s | l | d]; cbn [truthy contains has_sentinel].
  - split; [split; discriminate | intros e; discriminate].
  - destruct b; cbn [and_then].
    + split; [split; discriminate|]. intros e [= <-].
      split; [reflexivity | apply Hnot; intros; discriminate].
    + split; [split; discriminate | intros e; discriminate].
  - destruct (negb (z =? 0)); cbn [and_then].
    + split; [split; discriminate|]. intros e [= <-].
      split; [reflexivity | apply Hnot; intros; discriminate].
    + split; [split; discriminate | intros e; discriminate].
  - destruct (negb (float_is_zero f)); cbn [and_then].
    + split; [split; discriminate|]. intros e [= <-].
      split; [reflexivity | apply Hnot; intros; discriminate].
    + split; [split; discriminate | intros e; discriminate].
  - destruct s as [|c s]; [split; [split; discriminate | intros e; discriminate]|].
    cbn [and_then getitem]. destruct (str_contains (c :: s) (u "response")).
    + split; [split; discriminate|]. intros e [= <-].
      split; [reflexivity | apply Hnot; intros; discriminate].
    + split; [split; discriminate | intros e; discriminate].
  - destruct l as [|x l]; [split; [split; discriminate | intros e; discriminate]|].
    cbn [and_then getitem]. destruct (existsb (is_str (u "response")) (x :: l)).
    + split; [split; discriminate|]. intros e [= <-].
      split; [reflexivity | apply Hnot; intros; discriminate].
    + split; [split; discriminate | intros e; discriminate].
  - destruct d as [|kv d]; [split; [split; discriminate | intros e; discriminate]|].
    cbn [and_then getitem].
    destruct (dict_get (u "response") (kv :: d)) as [v|]; cbn [and_then].
    + split; [|intros e; discriminate].
      split; [intros [= H]; exact H | intros ->; reflexivity].
    + split; [split; discriminate | intros e; discriminate].
Qed.

(** X9: the preview of a text that is a string is that text itself when it
    has at most 100 characters; in every case it begins as the text does
    and is no longer than 103 characters. *)
Theorem text_preview_bounds (d : list (pystr * pyval)) (t : pystr) :
  dict_get (u "text") d = Some (PStr t) ->
  exists s,
    text_preview (PDict d) = Ok (PStr s)
    /\ ((List.length t <= 100)%nat -> s = t)
    /\ (List.length s <= 103)%nat
    /\ firstn 100 s = firstn 100 t.
Proof.
  intros Ht. unfold text_preview. cbn [getitem]. rewrite Ht.
  cbn [and_then len].
  destruct (Z.of_nat (List.length t) >? 100) eqn:Hlen.
  - apply Z.gtb_lt in Hlen.
    cbn [and_then slice_to add_str].
    exists (firstn 100 t ++ u "..."). split; [reflexivity|].
    assert (Hfirst : List.length (firstn 100 t) = 100%nat)
      by (rewrite length_firstn; lia).
    split; [lia|]. split.
    + rewrite length_app, Hfirst. cbn. lia.
    + rewrite firstn_app, Hfirst, Nat.sub_diag, firstn_O, app_nil_r.
      rewrite <- Hfirst at 1. apply firstn_all.
  - exists t. split; [reflexivity|]. split; [reflexivity|].
    assert (Hle : (List.length t <= 100)%nat).
    { destruct (Z.gtb_spec (Z.of_nat (List.length t)) 100);
        [discriminate | lia]. }
    split; [lia | reflexivity].
Qed.

Lemma text_preview_bounds_witness :
  let t := repeat 120%N 100 in
  let d := [(u "id", PInt 4); (u "text", PStr t); (u "date", PInt 9)] in
  dict_get (u "text") d = Some (PStr t)
  /\ exists s,
       text_preview (PDict d) = Ok (PStr s)
       /\ ((List.length t <= 100)%nat -> s = t)
       /\ (List.length s <= 103)%nat
       /\ firstn 100 s = firstn 100 t.
Proof.
  intros t d. split; [reflexivity|].
  apply (text_preview_bounds d t eq_refl).
Defined.

(** ** From the enumeration to the double confirmation *)

Lemma only_printed_refl {W} (st : state W) : only_printed st st.
Proof. repeat split. Qed.

Lemma only_printed_trans {W} (a b c : state W) :
  only_printed a b -> only_printed b c -> only_printed a c.
Proof.
  unfold only_printed. intros (H1 & H2 & H3 & H4) (G1 & G2 & G3 & G4).
  repeat split; congruence.
Qed.

Lemma only_printed_print {W} line (st : state W) :
  only_printed st (with_event (Print line) st)
  /\ prints (trace (with_event (Print line) st)) = S (prints (trace st)).
Proof. repeat split. Qed.

Section Preview.

Context {W : Type} {C : Clock}.

Lemma text_preview_string (d : list (pystr * pyval)) (t : pystr) :
  dict_get (u "text") d = Some (PStr t) ->
  exists s, text_preview (PDict d) = Ok (PStr s).
Proof.
  intros Ht. unfold text_preview. cbn [getitem]. rewrite Ht.
  cbn [and_then len].
  destruct (Z.of_nat (List.length t) >? 100); eexists; reflexivity.
Qed.

Lemma preview_loop_run posts :
  Forall previewable posts ->
  forall i (st : state W),
  exists st1,
    preview_loop i posts st = (Returns tt, st1)
    /\ only_printed st st1
    /\ prints (trace st1) = (prints (trace st) + List.length posts)%nat.
Proof.
  induction 1 as [|post rest Hpost _ IH]; intros i st.
  - exists st. cbn. split; [reflexivity|].
    split; [apply only_printed_refl | lia].
  - destruct Hpost as (d & t & dv & ds & -> & Hdate & Hfmt & Ht).
    destruct (text_preview_string d t Ht) as (s & Hs).
    cbn [preview_loop]. unfold preview_round.
    cbn [getitem]. rewrite Hdate. cbn [and_then].
    change "%Y-%m-%d"%string with preview_format. rewrite Hfmt, Hs.
    rewrite !bind_assoc, bind_lift_ok, bind_assoc, bind_lift_ok, bind_print.
    destruct (IH (i + 1)
                 (with_event (Print [Num i; Lit ". ["; Str ds; Lit "] ";
                                     Val (PStr s)]) st))
      as (st1 & Hrun & Honly & Hprints).
    exists st1. split; [exact Hrun|].
    split.
    + eapply only_printed_trans; [|exact Honly].
      apply only_printed_print.
    + rewrite Hprints. cbn [List.length].
      destruct (only_printed_print
                  [Num i; Lit ". ["; Str ds; Lit "] "; Val (PStr s)] st)
        as [_ ->]. lia.
Qed.

End Preview.

(** X10: with a token, once the enumeration has returned posts that can
    be previewed, [delete_posts_with_confirmation] prints the number of
    posts, a preview of the first posts, five at most, and its warning, and
    goes on to the double confirmation over exactly the posts enumerated;
    between the enumeration and the first prompt nothing is requested and
    nothing is read. *)
Theorem delete_posts_with_confirmation_reaches_gate
        {W : Type} {R : Remote W} {C : Clock} (fuel : nat) (self : VKParser)
        (posts : list pyval) (st st1 : state W) :
  no_token self = false ->
  get_all_posts fuel self st = (Returns posts, st1) ->
  posts <> [] ->
  Forall previewable (firstn 5 posts) ->
  exists st2,
    delete_posts_with_confirmation fuel self st
    = confirm_twice_and_delete self posts st2
    /\ only_printed st1 st2
    /\ stdin st2 = stdin st
    /\ prints (trace st2)
       = (prints (trace st1) + 4 + Nat.min 5 (List.length posts))%nat.
Proof.
  intros Htoken Hrun Hposts Hpreview.
  pose proof (get_all_posts_quiet fuel self st) as Hq.
  rewrite Hrun in Hq. destruct Hq as (Hin & _). cbn [snd] in Hin.
  unfold delete_posts_with_confirmation. rewrite Htoken.
  unfold bind at 1. rewrite Hrun.
  destruct posts as [|p ps]; [contradiction|]. cbv zeta.
  rewrite !bind_print.
  match goal with
  | |- context [bind (preview_loop 1 ?l) ?k ?s] =>
    destruct (preview_loop_run l Hpreview 1 s)
      as (st2 & Hloop & Honly & Hprints);
      unfold bind at 1; rewrite Hloop
  end.
  rewrite !bind_print.
  eexists; split; [reflexivity|].
  destruct Honly as (H1 & H2 & H3 & H4).
  cbn [remote stdin trace with_event] in *.
  unfold only_printed, prints, requests, prompts in *.
  cbn [remote stdin trace with_event].
  rewrite !count_events_cons in *. cbn [is_request is_input is_print] in *.
  rewrite length_firstn in Hprints.
  repeat split; try congruence; lia.
Qed.

Lemma delete_posts_with_confirmation_reaches_gate_witness :
  let posts := [post 1 "first" 3; post 2 "second" 4] in
  let st := fresh [page posts] [u "no"] in
  let st1 := snd (get_all_posts (R := Scripted) 1 authorised st) in
  no_token authorised = false
  /\ get_all_posts (R := Scripted) 1 authorised st = (Returns posts, st1)
  /\ posts <> []
  /\ Forall (previewable (C := digit_clock)) (firstn 5 posts)
  /\ exists st2,
       delete_posts_with_confirmation (R := Scripted) (C := digit_clock)
                                      1 authorised st
       = confirm_twice_and_delete (R := Scripted) authorised posts st2
       /\ prints (trace st2)
          = (prints (trace st1) + 4 + Nat.min 5 (List.length posts))%nat.
Proof.
  intros posts st st1.
  assert (Hpreview : Forall (previewable (C := digit_clock)) (firstn 5 posts)).
  { repeat constructor; do 4 eexists; repeat split; reflexivity. }
  split; [reflexivity|]. split; [reflexivity|]. split; [discriminate|].
  split; [exact Hpreview|].
  destruct (delete_posts_with_confirmation_reaches_gate
              (R := Scripted) (C := digit_clock) 1 authorised posts st st1
              eq_refl eq_refl ltac:(discriminate) Hpreview)
    as (st2 & Hgate & _ & _ & Hprints).
  exists st2. split; [exact Hgate | exact Hprints].
Defined.

(** ** The exporter on any posts *)

Section ExporterAny.

Context {C : Clock}.

Lemma extract_round_any texts post texts1 :
  extract_round texts post = Ok texts1 ->
  (has_text post = true
   /\ exists b, block_of post b /\ texts1 = texts ++ [b])
  \/ (has_text post = false /\ texts1 = texts).
Proof.
  unfold extract_round, has_text.
  destruct post as [| b | z | f | s | l | d]; cbn [contains and_then];
    try discriminate.
  - destruct (str_contains s (u "text")); cbn [getitem and_then];
      [discriminate|].
    intros [= <-]. right; split; reflexivity.
  - destruct (existsb (is_str (u "text")) l); cbn [getitem and_then];
      [discriminate|].
    intros [= <-]. right; split; reflexivity.
  - cbn [getitem].
    destruct (dict_get (u "text") d) as [t|] eqn:Ht; cbn [and_then].
    + destruct t as [| b | z | f | s | l | d1]; cbn [strip_method and_then];
        try discriminate.
      rewrite strip_truthy. destruct (blank s); cbn [negb].
      * intros [= <-]. right; split; reflexivity.
      * destruct (dict_get (u "date") d) as [dv|] eqn:Hdate;
          cbn [and_then]; [|discriminate].
        change "%Y-%m-%d %H:%M:%S"%string with export_format.
        destruct (strftime_localtime export_format dv) as [ds|] eqn:Hfmt;
          cbn [and_then]; [|discriminate].
        intros [= <-]. left; split; [reflexivity|].
        exists (block ds (PStr s)). split; [|reflexivity].
        exists d, s, dv, ds. auto.
    + intros [= <-]. right; split; reflexivity.
Qed.

Lemma extract_loop_any posts :
  forall texts blocks,
    extract_loop texts posts = Ok blocks ->
    exists added,
      blocks = texts ++ added
      /\ Forall2 block_of (filter has_text posts) added.
Proof.
  induction posts as [|post rest IH]; intros texts blocks.
  - cbn. intros [= <-]. exists []. rewrite app_nil_r.
    split; [reflexivity | constructor].
  - cbn [extract_loop filter].
    destruct (extract_round texts post) as [texts1|e] eqn:Hround;
      cbn [and_then]; [|discriminate].
    intros Hrest. destruct (IH texts1 blocks Hrest) as (added & -> & Hadded).
    destruct (extract_round_any texts post texts1 Hround)
      as [(-> & b & Hb & ->) | (-> & ->)].
    + exists (b :: added). rewrite <- app_assoc.
      split; [reflexivity | constructor; assumption].
    + exists added. split; [reflexivity | exact Hadded].
Qed.

End ExporterAny.

(** X11: whatever the posts are (objects or not, with or without a text
    or a date), when the exporter returns, it returns one block per post
    that is an object with a string text that is not blank, in the order of
    the posts, each made of the formatted date and the whole text of its
    post; so it never returns more blocks than there are posts. *)
Theorem extract_text_from_posts_any {C : Clock} (posts : list pyval)
        (blocks : list (list frag)) :
  extract_text_from_posts posts = Ok blocks ->
  Forall2 block_of (filter has_text posts) blocks
  /\ (List.length blocks <= List.length posts)%nat.
Proof.
  intros Hrun. unfold extract_text_from_posts in Hrun.
  destruct (extract_loop_any posts [] blocks Hrun) as (added & -> & Hadded).
  cbn [app]. split; [exact Hadded|].
  rewrite <- (Forall2_length Hadded). apply filter_length_le.
Qed.

Lemma extract_text_from_posts_any_witness :
  let posts := [PList [PInt 1]; post 1 "hello" 3; PDict [];
                post 2 "   " 4] in
  let blocks := [block [51%N] (PStr (u "hello"))] in
  extract_text_from_posts (C := digit_clock) posts = Ok blocks
  /\ Forall2 (block_of (C := digit_clock)) (filter has_text posts) blocks
  /\ (List.length blocks <= List.length posts)%nat.
Proof.
  intros posts blocks. split; [reflexivity|].
  apply (extract_text_from_posts_any (C := digit_clock) posts blocks eq_refl).
Defined.

(** X12: a post with a text that is not blank and without a date stops the
    exporter with [KeyError], wherever it stands in the list: the blocks of
    the posts before it are not returned. *)
Theorem extract_text_from_posts_no_date {C : Clock}
        (before after : list pyval) (d : list (pystr * pyval)) (t : pystr) :
  Forall exportable before ->
  dict_get (u "text") d = Some (PStr t) ->
  blank t = false ->
  dict_get (u "date") d = None ->
  extract_text_from_posts (before ++ PDict d :: after) = Err KeyError.
Proof.
  intros Hbefore Ht Hblank Hdate.
  unfold extract_text_from_posts. generalize (@nil (list frag)).
  induction Hbefore as [|post rest Hpost _ IH]; intros texts.
  - cbn [app extract_loop]. unfold extract_round.
    cbn [contains getitem and_then]. rewrite Ht.
    cbn [and_then strip_method]. rewrite strip_truthy, Hblank.
    cbn [negb]. rewrite Hdate. reflexivity.
  - cbn [app extract_loop].
    destruct (extract_round_exportable texts post Hpost)
      as [(_ & b & _ & ->) | (_ & ->)]; cbn [and_then]; apply IH.
Qed.

Lemma extract_text_from_posts_no_date_witness :
  let d := [(u "id", PInt 2); (u "text", PStr (u "undated"))] in
  Forall (exportable (C := digit_clock)) [post 1 "hello" 3]
  /\ dict_get (u "text") d = Some (PStr (u "undated"))
  /\ blank (u "undated") = false
  /\ dict_get (u "date") d = None
  /\ extract_text_from_posts (C := digit_clock)
       ([post 1 "hello" 3] ++ PDict d :: [post 3 "later" 5])
     = Err KeyError.
Proof.
  intros d.
  assert (Hbefore : Forall (exportable (C := digit_clock)) [post 1 "hello" 3]).
  { repeat constructor. eexists; split; [reflexivity|]. right.
    do 2 eexists. split; reflexivity. }
  split; [exact Hbefore|]. split; [reflexivity|]. split; [reflexivity|].
  split; [reflexivity|].
  apply (extract_text_from_posts_no_date (C := digit_clock)
           [post 1 "hello" 3] [post 3 "later" 5] d (u "undated")
           Hbefore eq_refl eq_refl eq_refl).
Defined.

(** ** Stepping through the script *)

Section HostSteps.

Context {W D : Type}.

Lemma hbind_run {A B} (m : M W A) (k : A -> H W D B) (h : host W D) a st :
  m (machine h) = (Returns a, st) ->
  hbind (run m) k h = k a (mkHost st (disk h)).
Proof. intros Hm. unfold hbind, run. rewrite Hm. reflexivity. Qed.

Lemma hbind_run_raises {A B} (m : M W A) (k : A -> H W D B) (h : host W D)
      e st :
  m (machine h) = (Raises e, st) ->
  hbind (run m) k h = (Crashed (Py e), mkHost st (disk h)).
Proof. intros Hm. unfold hbind, run. rewrite Hm. reflexivity. Qed.

Lemma hbind_print {B} line (k : unit -> H W D B) (h : host W D) :
  hbind (run (print line)) k h
  = k tt (mkHost (with_event (Print line) (machine h)) (disk h)).
Proof. reflexivity. Qed.

Lemma hbind_input {B} prompt (k : pystr -> H W D B) (h : host W D) c rest :
  stdin (machine h) = c :: rest ->
  hbind (run (input prompt)) k h
  = k c (mkHost (after_prompt prompt rest (machine h)) (disk h)).
Proof.
  intros Hin. unfold hbind, run, input. rewrite Hin. reflexivity.
Qed.

Lemma hbind_hret {A B} (a : A) (k : A -> H W D B) (h : host W D) :
  hbind (hret a) k h = k a h.
Proof. reflexivity. Qed.

Lemma hbind_lift_ok {A B} (a : A) (k : A -> H W D B) (h : host W D) :
  hbind (run (lift (Ok a))) k h = k a (mkHost (machine h) (disk h)).
Proof. reflexivity. Qed.

Lemma hbind_lift_err {A B} (e : exn) (k : A -> H W D B) (h : host W D) :
  hbind (run (lift (Err e))) k h
  = (Crashed (Py e), mkHost (machine h) (disk h)).
Proof. reflexivity. Qed.

Lemma hbind_ret {A B} (a : A) (k : A -> H W D B) (h : host W D) :
  hbind (run (ret a)) k h = k a (mkHost (machine h) (disk h)).
Proof. reflexivity. Qed.

End HostSteps.

(** ** Logging in *)

Section Login.

Context {W D : Type} {R : Remote W}.

Lemma login_vk_prompted (self : VKParser) (h : host W D) line rest :
  stdin (machine h) = line :: rest ->
  login_vk self h
  = (let self1 := with_token self (strip line) in
     if negb (no_token self1) then
       hbind (run (_make_api_request self1 "users.get" []))
         (fun user_info =>
            hbind (run (if truthy user_info
                        then lift (contains (u "response") user_info)
                        else ret false))
              (fun ok =>
                 if ok then
                   hbind (run (lift (getitem user_info (u "response"))))
                     (fun users =>
                        hbind (first_item users)
                          (fun user =>
                             hbind (run (lift (getitem user (u "id"))))
                               (fun id =>
                                  hbind
                                    (run (print
                                       [Lit "Успешная авторизация! User ID: ";
                                        Val (user_id (with_user_id self1 id))]))
                                    (fun _ =>
                                       hret (true, with_user_id self1 id)))))
                 else
                   hbind (run (print
                                 [Lit "Ошибка авторизации. Проверьте токен."]))
                     (fun _ => hret (false, self1))))
     else hret (false, self1)) (after_login_prompt h rest).
Proof.
  intros Hin. unfold login_vk.
  rewrite !hbind_print.
  rewrite (hbind_input _ _ _ line rest) by exact Hin.
  reflexivity.
Qed.

End Login.

Section LoginOutcome.

Context {W D : Type} {R : Remote W}.

Lemma hbind_request {B} self method p (k : pyval -> H W D B) (h : host W D)
      hr w :
  session_get (remote (machine h)) (api_url method) (sent self p) = (hr, w) ->
  hbind (run (_make_api_request self method p)) k h
  = k (answer hr)
      (mkHost (after_request self method p hr w (machine h)) (disk h)).
Proof.
  intros Hget. apply hbind_run.
  pose proof (bind_request self method p (fun v => ret v) (machine h) hr w
                Hget) as Hstep.
  unfold bind, ret in Hstep.
  destruct (_make_api_request self method p (machine h)) as [[v | e |] st];
    exact Hstep.
Qed.

End LoginOutcome.

(** X13: [login_vk] accepts a token that is not blank when the service
    answers [users.get] with the envelope and a list of users whose first
    one has an id: it returns [True], and leaves in [self] the token typed,
    stripped of the whitespace around it, and that id.  The one request it
    sends is [users.get] with this token and the version; the disk is not
    touched. *)
Theorem login_vk_accepts {W D : Type} {R : Remote W} (self : VKParser)
        (h : host W D) (line : pystr) (rest : list pystr) (hr : http_result)
        (w : W) (d : list (pystr * pyval)) (x : pyval) (xs : list pyval)
        (id : pyval) :
  stdin (machine h) = line :: rest ->
  strip line <> [] ->
  session_get (remote (machine h)) (api_url "users.get")
              (sent (with_token self (strip line)) []) = (hr, w) ->
  answer hr = PDict d ->
  dict_get (u "response") d = Some (PList (x :: xs)) ->
  getitem x (u "id") = Ok id ->
  exists h1,
    login_vk self h
    = (Done (true, with_user_id (with_token self (strip line)) id), h1)
    /\ no_token (with_user_id (with_token self (strip line)) id) = false
    /\ disk h1 = disk h
    /\ remote (machine h1) = w
    /\ stdin (machine h1) = rest
    /\ request_log (trace (machine h1))
       = request_log (trace (machine h))
         ++ [Get (api_url "users.get")
                 (sent (with_token self (strip line)) [])].
Proof.
  intros Hin Hline Hget Hd Hresp Hid.
  rewrite (login_vk_prompted self h line rest Hin). cbv zeta.
  assert (Htoken : no_token (with_token self (strip line)) = false).
  { unfold no_token, with_token. cbn [access_token].
    destruct (strip line); [contradiction | reflexivity]. }
  rewrite Htoken. cbn [negb].
  rewrite (hbind_request _ _ _ _ (after_login_prompt h rest) hr w)
    by exact Hget.
  rewrite Hd.
  destruct d as [|kv d0] eqn:Hdd; [discriminate|]. rewrite <- Hdd in *.
  assert (Htruthy : truthy (PDict d) = true) by (rewrite Hdd; reflexivity).
  rewrite Htruthy. cbn [contains]. rewrite Hresp, hbind_lift_ok.
  cbn [getitem]. rewrite Hresp, hbind_lift_ok.
  cbn [first_item]. rewrite hbind_hret.
  rewrite Hid, hbind_lift_ok, hbind_print.
  eexists; split; [reflexivity|].
  split; [exact Htoken|].
  cbn [disk machine remote stdin trace with_event after_request
       after_login_prompt after_prompt].
  repeat split.
  destruct hr; cbn [app]; rewrite !request_log_cons; cbn [is_request];
    rewrite ?app_nil_r; reflexivity.
Qed.

Lemma login_vk_accepts_witness :
  let self := VKParser_init (u "me") (u "secret") in
  let h := boot (D := unit) [users_answer 42] tt [u "  token-1 "] in
  stdin (machine h) = [u "  token-1 "]
  /\ strip (u "  token-1 ") <> []
  /\ exists h1,
       login_vk (R := Scripted) self h
       = (Done (true, {| access_token := Some (u "token-1");
                         user_id := PInt 42 |}), h1).
Proof.
  intros self h.
  split; [reflexivity|]. split; [discriminate|].
  destruct (login_vk_accepts (R := Scripted) self h (u "  token-1 ") []
              (users_answer 42) []
              [(u "response", PList [PDict [(u "id", PInt 42)]])]
              (PDict [(u "id", PInt 42)]) [] (PInt 42)
              eq_refl ltac:(discriminate) eq_refl eq_refl eq_refl eq_refl)
    as (h1 & Hrun & _).
  exists h1. exact Hrun.
Defined.

(** X14: [login_vk] returns [False] in two ways.  On a line that is blank
    once stripped it sends no request at all.  On a token that is not blank
    but which the service leaves without an answer, or answers without the
    envelope, it has sent [users.get], and nothing else, and the last thing
    it does is to print the failure line; the token typed stays in [self]
    all the same. *)
Theorem login_vk_refuses {W D : Type} {R : Remote W} (self : VKParser)
        (h : host W D) (line : pystr) (rest : list pystr) :
  stdin (machine h) = line :: rest ->
  (strip line = [] ->
   login_vk self h
   = (Done (false, with_token self []), after_login_prompt h rest)
   /\ request_log (trace (machine (after_login_prompt h rest)))
      = request_log (trace (machine h)))
  /\ (strip line <> [] ->
      forall hr w,
        session_get (remote (machine h)) (api_url "users.get")
                    (sent (with_token self (strip line)) []) = (hr, w) ->
        no_envelope (answer hr) ->
        exists h1,
          login_vk self h
          = (Done (false, with_token self (strip line)), h1)
          /\ no_token (with_token self (strip line)) = false
          /\ disk h1 = disk h
          /\ stdin (machine h1) = rest
          /\ remote (machine h1) = w
          /\ trace (machine h1)
             = Print [Lit "Ошибка авторизации. Проверьте токен."]
                 :: trace (after_request (with_token self (strip line))
                             "users.get" [] hr w
                             (machine (after_login_prompt h rest)))
          /\ request_log (trace (machine h1))
             = request_log (trace (machine h))
               ++ [Get (api_url "users.get")
                       (sent (with_token self (strip line)) [])]).
Proof.
  intros Hin.
  rewrite (login_vk_prompted self h line rest Hin). cbv zeta.
  split.
  - intros ->. split; reflexivity.
  - intros Hline hr w Hget Hno.
    assert (Htoken : no_token (with_token self (strip line)) = false).
    { unfold no_token, with_token. cbn [access_token].
      destruct (strip line); [contradiction | reflexivity]. }
    rewrite Htoken. cbn [negb].
    rewrite (hbind_request _ _ _ _ (after_login_prompt h rest) hr w)
      by exact Hget.
    assert (Hok : (if truthy (answer hr)
                   then lift (contains (u "response") (answer hr))
                   else ret false)
                  = (@ret W bool false)).
    { destruct Hno as [-> | (d & -> & Hd)]; [reflexivity|].
      destruct d as [|kv d]; [reflexivity|].
      cbn [truthy contains]. rewrite Hd. reflexivity. }
    rewrite Hok, hbind_ret. cbv iota. rewrite hbind_print.
    eexists; split; [reflexivity|].
    cbn [machine disk].
    split; [reflexivity|]. split; [reflexivity|]. split; [reflexivity|].
    split; [reflexivity|]. split; [reflexivity|].
    cbn [trace with_event]. rewrite request_log_cons. cbn [is_request].
    rewrite app_nil_r, request_log_after_request. reflexivity.
Qed.

Lemma login_vk_refuses_witness :
  let self := VKParser_init (u "me") (u "secret") in
  let h := boot (D := unit) [api_error 5 "User authorization failed"] tt
                [u "expired"; u "1"] in
  stdin (machine h) = [u "expired"; u "1"]
  /\ strip (u "expired") <> []
  /\ no_envelope (answer (api_error 5 "User authorization failed"))
  /\ exists h1,
       login_vk (R := Scripted) self h
       = (Done (false, with_token self (u "expired")), h1)
       /\ no_token (with_token self (u "expired")) = false
       /\ request_log (trace (machine h1))
          = [Get (api_url "users.get")
                 (sent (with_token self (u "expired")) [])].
Proof.
  intros self h.
  assert (Hno : no_envelope (answer (api_error 5 "User authorization failed"))).
  { right. eexists. split; reflexivity. }
  split; [reflexivity|]. split; [discriminate|]. split; [exact Hno|].
  destruct (login_vk_refuses (R := Scripted) self h (u "expired") [u "1"]
              eq_refl) as [_ Hrejected].
  destruct (Hrejected ltac:(discriminate)
              (api_error 5 "User authorization failed") [] eq_refl Hno)
    as (h1 & Hrun & Htoken & _ & _ & _ & _ & Hlog).
  exists h1. split; [exact Hrun|]. split; [exact Htoken | exact Hlog].
Defined.

(** X15: an answer to [users.get] that has the envelope around an empty
    list of users ends [login_vk] with [IndexError]: nothing is returned,
    and no failure is reported to the user. *)
Theorem login_vk_no_user {W D : Type} {R : Remote W} (self : VKParser)
        (h : host W D) (line : pystr) (rest : list pystr) (hr : http_result)
        (w : W) (d : list (pystr * pyval)) :
  stdin (machine h) = line :: rest ->
  strip line <> [] ->
  session_get (remote (machine h)) (api_url "users.get")
              (sent (with_token self (strip line)) []) = (hr, w) ->
  answer hr = PDict d ->
  dict_get (u "response") d = Some (PList []) ->
  exists h1,
    login_vk self h = (Crashed IndexError, h1)
    /\ prints (trace (machine h1))
       = prints (trace (machine (after_login_prompt h rest))).
Proof.
  intros Hin Hline Hget Hd Hresp.
  rewrite (login_vk_prompted self h line rest Hin). cbv zeta.
  assert (Htoken : no_token (with_token self (strip line)) = false).
  { unfold no_token, with_token. cbn [access_token].
    destruct (strip line); [contradiction | reflexivity]. }
  rewrite Htoken. cbn [negb].
  rewrite (hbind_request _ _ _ _ (after_login_prompt h rest) hr w)
    by exact Hget.
  rewrite Hd.
  destruct d as [|kv d0] eqn:Hdd; [discriminate|]. rewrite <- Hdd in *.
  assert (Htruthy : truthy (PDict d) = true) by (rewrite Hdd; reflexivity).
  rewrite Htruthy. cbn [contains]. rewrite Hresp, hbind_lift_ok.
  cbn [getitem]. rewrite Hresp, hbind_lift_ok.
  eexists; split; [reflexivity|].
  cbn [machine]. unfold prints, after_request. cbn [trace].
  assert (Hjson : exists v, hr = Json v).
  { destruct hr as [v | msg]; [exists v; reflexivity|].
    cbn [answer] in Hd. discriminate. }
  destruct Hjson as (v & ->). cbn [app].
  rewrite count_events_cons. reflexivity.
Qed.

Lemma login_vk_no_user_witness :
  let self := VKParser_init (u "me") (u "secret") in
  let d := [(u "response", PList [])] in
  let h := boot (D := unit) [Json (PDict d)] tt [u "token"] in
  stdin (machine h) = [u "token"]
  /\ strip (u "token") <> []
  /\ exists h1, login_vk (R := Scripted) self h = (Crashed IndexError, h1).
Proof.
  intros self d h.
  split; [reflexivity|]. split; [discriminate|].
  destruct (login_vk_no_user (R := Scripted) self h (u "token") []
              (Json (PDict d)) [] d eq_refl ltac:(discriminate)
              eq_refl eq_refl eq_refl) as (h1 & Hrun & _).
  exists h1. exact Hrun.
Defined.

(** ** Lines read and deletions released *)

Lemma consumed_refl {W} (st : state W) : consumed st st.
Proof. exists []. reflexivity. Qed.

Lemma consumed_trans {W} (a b c : state W) :
  consumed a b -> consumed b c -> consumed a c.
Proof.
  intros (l1 & H1) (l2 & H2). exists (l1 ++ l2).
  rewrite H1, H2, app_assoc. reflexivity.
Qed.

Lemma quiet_consumed {W} (a b : state W) : quiet a b -> consumed a b.
Proof. intros (H & _). exists []. rewrite H. reflexivity. Qed.

Lemma consumed_input {W} prompt : keeps (@consumed W) (input prompt).
Proof.
  intros st. unfold input. destruct (stdin st) as [|c rest] eqn:Hin;
    cbn [snd]; unfold consumed; cbn [stdin]; rewrite Hin.
  - exists []. reflexivity.
  - exists [c]. reflexivity.
Qed.

Lemma consumed_request {W} {R : Remote W} self method p :
  keeps consumed (_make_api_request self method p).
Proof.
  intros st. unfold _make_api_request.
  destruct (session_get _ _ _) as [[v | msg] w]; exists []; reflexivity.
Qed.

Lemma consumed_same {W A} (m : M W A) :
  (forall st, stdin (snd (m st)) = stdin st) -> keeps consumed m.
Proof. intros H st. exists []. rewrite H. reflexivity. Qed.

Ltac keeps_consumed_with known :=
  repeat first
    [ known
    | apply consumed_input | apply consumed_request
    | apply (keeps_ret consumed consumed_refl)
    | apply (keeps_lift consumed consumed_refl)
    | apply (keeps_unfinished consumed consumed_refl)
    | apply consumed_same; intros ?; reflexivity
    | apply (keeps_bind consumed consumed_trans); [| intros ? ]
    | apply keeps_if ].

Ltac keeps_consumed := keeps_consumed_with fail.

Section Consumed.

Context {W : Type} {R : Remote W} {C : Clock}.

Lemma get_all_posts_consumed fuel self :
  keeps consumed (get_all_posts fuel self).
Proof.
  intros st. apply quiet_consumed, get_all_posts_quiet.
Qed.

Lemma delete_all_posts_loop_consumed self n posts :
  forall i, keeps consumed (delete_all_posts_loop self n i posts).
Proof.
  induction posts as [|post rest IH]; intros i; cbn [delete_all_posts_loop].
  - keeps_consumed.
  - unfold delete_all_posts_round. keeps_consumed_with ltac:(apply IH).
Qed.

Lemma _delete_posts_loop_consumed self n posts :
  forall i, keeps consumed (_delete_posts_loop self n i posts).
Proof.
  induction posts as [|post rest IH]; intros i; cbn [_delete_posts_loop].
  - keeps_consumed.
  - unfold _delete_posts_round. keeps_consumed_with ltac:(apply IH).
Qed.

Lemma _delete_posts_consumed self posts :
  keeps consumed (_delete_posts self posts).
Proof.
  unfold _delete_posts.
  keeps_consumed_with ltac:(apply _delete_posts_loop_consumed).
Qed.

Lemma delete_all_posts_consumed fuel self :
  keeps consumed (delete_all_posts fuel self).
Proof.
  unfold delete_all_posts, delete_all_posts_confirmed.
  keeps_consumed_with ltac:(apply get_all_posts_consumed).
  match goal with |- keeps _ (match ?x with _ => _ end) => destruct x end.
  - keeps_consumed.
  - unfold delete_all_posts_found. cbv zeta.
    keeps_consumed_with ltac:(apply delete_all_posts_loop_consumed).
Qed.

Lemma preview_loop_quiet posts :
  forall i, keeps quiet (@preview_loop W C i posts).
Proof.
  induction posts as [|post rest IH]; intros i; cbn [preview_loop].
  - keeps_quiet.
  - unfold preview_round. keeps_quiet. apply IH.
Qed.

Lemma preview_loop_consumed i posts :
  keeps consumed (@preview_loop W C i posts).
Proof. intros st. apply quiet_consumed, preview_loop_quiet. Qed.

Lemma confirm_twice_and_delete_consumed self posts :
  keeps consumed (confirm_twice_and_delete self posts).
Proof.
  unfold confirm_twice_and_delete.
  keeps_consumed_with ltac:(apply _delete_posts_consumed).
Qed.

Lemma delete_posts_with_confirmation_consumed fuel self :
  keeps consumed (delete_posts_with_confirmation fuel self).
Proof.
  unfold delete_posts_with_confirmation.
  keeps_consumed_with ltac:(apply get_all_posts_consumed).
  match goal with |- keeps _ (match ?x with _ => _ end) => destruct x end.
  - keeps_consumed.
  - cbv zeta.
    keeps_consumed_with
      ltac:(first [ apply confirm_twice_and_delete_consumed
                  | apply preview_loop_consumed ]).
Qed.

End Consumed.

Lemma tame_refl {W} (st : state W) : tame st st.
Proof. intros H. split; [exact H | reflexivity]. Qed.

Lemma tame_trans {W} (a b c : state W) : tame a b -> tame b c -> tame a c.
Proof.
  intros Hab Hbc Ha. destruct (Hab Ha) as [Hb Hd1].
  destruct (Hbc Hb) as [Hc Hd2]. split; [exact Hc | congruence].
Qed.

Lemma quiet_tame {W} (a b : state W) : quiet a b -> tame a b.
Proof.
  intros (Hin & _ & Hdel & _) Ha. rewrite Hin. split; assumption.
Qed.

Lemma tame_input {W} prompt : keeps (@tame W) (input prompt).
Proof.
  intros st Hun. unfold input.
  destruct (stdin st) as [|c rest] eqn:Hin; cbn [snd stdin trace].
  - split; reflexivity.
  - unfold unconfirmed in *. cbn [forallb] in Hun.
    apply andb_prop in Hun. destruct Hun as [_ Hrest].
    split; [exact Hrest | reflexivity].
Qed.

Section Tame.

Context {W : Type} {R : Remote W} {C : Clock}.

Lemma get_all_posts_tame fuel self : keeps tame (get_all_posts fuel self).
Proof. intros st. apply quiet_tame, get_all_posts_quiet. Qed.

(** Without its phrase on the console, [delete_all_posts] deletes
    nothing. *)
Lemma delete_all_posts_tame fuel self : keeps tame (delete_all_posts fuel self).
Proof.
  intros st Hun.
  destruct (no_token self) eqn:Htoken.
  - unfold delete_all_posts. rewrite Htoken, bind_print.
    split; [exact Hun | reflexivity].
  - destruct (stdin st) as [|c rest] eqn:Hin.
    + unfold delete_all_posts. rewrite Htoken, !bind_print.
      unfold bind, input. cbn [stdin with_event]. rewrite Hin.
      split; reflexivity.
    + rewrite (delete_all_posts_prompted fuel self st c rest Htoken Hin).
      unfold unconfirmed in Hun. cbn [forallb] in Hun.
      apply andb_prop in Hun. destruct Hun as [Hc Hrest].
      unfold confirms in Hc. apply negb_true_iff, orb_false_elim in Hc.
      destruct Hc as [Hc _]. rewrite Hc.
      split; [exact Hrest | reflexivity].
Qed.

(** Without the second phrase on the console, the double confirmation
    lets nothing through. *)
Lemma confirm_twice_and_delete_tame self posts :
  keeps tame (confirm_twice_and_delete self posts).
Proof.
  intros st Hun. unfold confirm_twice_and_delete.
  destruct (stdin st) as [|c1 rest] eqn:Hin.
  - unfold bind, input. rewrite Hin. split; reflexivity.
  - rewrite (bind_input _ _ _ c1 rest) by exact Hin.
    unfold unconfirmed in Hun. cbn [forallb] in Hun.
    apply andb_prop in Hun. destruct Hun as [_ Hrest].
    destruct (negb (str_eqb c1 (u "DELETE MY POSTS"))).
    + rewrite bind_print. split; [exact Hrest | reflexivity].
    + destruct rest as [|c2 rest2].
      * unfold bind, input. cbn [stdin after_prompt]. split; reflexivity.
      * rewrite (bind_input _ _ _ c2 rest2) by reflexivity.
        cbn [forallb] in Hrest. apply andb_prop in Hrest.
        destruct Hrest as [Hc2 Hrest2].
        unfold confirms in Hc2. apply negb_true_iff, orb_false_elim in Hc2.
        destruct Hc2 as [_ Hc2]. rewrite Hc2. cbn [negb].
        rewrite bind_print. split; [exact Hrest2 | reflexivity].
Qed.

Lemma delete_posts_with_confirmation_tame fuel self :
  keeps tame (delete_posts_with_confirmation fuel self).
Proof.
  unfold delete_posts_with_confirmation.
  apply keeps_if; [intros st; apply quiet_tame, quiet_print|].
  apply (keeps_bind tame tame_trans); [apply get_all_posts_tame|].
  intros [|p ps].
  - intros st. apply quiet_tame.
    apply (keeps_bind quiet quiet_trans);
      [apply quiet_print | intros ?; apply (keeps_ret quiet quiet_refl)].
  - cbv zeta.
    repeat (apply (keeps_bind tame tame_trans);
            [first [ intros st; apply quiet_tame, quiet_print
                   | intros st; apply quiet_tame, preview_loop_quiet ]
            | intros ? ]).
    apply confirm_twice_and_delete_tame.
Qed.

End Tame.

(** ** Invariants of the script *)

Section HostKeeps.

Context {W D : Type} (P : host W D -> host W D -> Prop).
Hypothesis P_refl : forall h, P h h.
Hypothesis P_trans : forall a b c, P a b -> P b c -> P a c.

Lemma hkeeps_hret {A} (a : A) : hkeeps P (hret a).
Proof. intros h. apply P_refl. Qed.

Lemma hkeeps_crash {A} f : hkeeps P (@crash W D A f).
Proof. intros h. apply P_refl. Qed.

Lemma hkeeps_pending {A} : hkeeps P (@pending W D A).
Proof. intros h. apply P_refl. Qed.

Lemma hkeeps_bind {A B} (m : H W D A) (k : A -> H W D B) :
  hkeeps P m -> (forall a, hkeeps P (k a)) -> hkeeps P (hbind m k).
Proof.
  intros Hm Hk h. unfold hbind. specialize (Hm h).
  destruct (m h) as [[a | f |] h1]; cbn [snd] in *; try assumption.
  eapply P_trans; [exact Hm | apply Hk].
Qed.

Lemma hkeeps_if {A} (b : bool) (m1 m2 : H W D A) :
  hkeeps P m1 -> hkeeps P m2 -> hkeeps P (if b then m1 else m2).
Proof. destruct b; auto. Qed.

Lemma hkeeps_first_item v : hkeeps P (first_item v).
Proof.
  intros h. destruct v as [| b | z | f | [|c s] | [|x l] | d]; apply P_refl.
Qed.

End HostKeeps.

Lemma on_machine_refl {W D} (P : state W -> state W -> Prop) :
  (forall st, P st st) -> forall h : host W D, on_machine P h h.
Proof. intros H h. apply H. Qed.

Lemma on_machine_trans {W D} (P : state W -> state W -> Prop) :
  (forall a b c, P a b -> P b c -> P a c) ->
  forall a b c : host W D,
    on_machine P a b -> on_machine P b c -> on_machine P a c.
Proof. intros H a b c. apply H. Qed.

Lemma hkeeps_run {W D A} (P : state W -> state W -> Prop) (m : M W A) :
  keeps P m -> hkeeps (D := D) (on_machine P) (run m).
Proof.
  intros Hm h. unfold on_machine, run. specialize (Hm (machine h)).
  destruct (m (machine h)) as [[a | e |] st]; exact Hm.
Qed.

Lemma unexported_rest (lines rest : list pystr) :
  unexported (lines ++ rest) = true -> unexported rest = true.
Proof.
  unfold unexported. rewrite forallb_app. intros H.
  apply andb_prop in H. tauto.
Qed.

Lemma undisturbed_refl {W D} (h : host W D) : undisturbed h h.
Proof. intros H. split; [exact H | reflexivity]. Qed.

Lemma undisturbed_trans {W D} (a b c : host W D) :
  undisturbed a b -> undisturbed b c -> undisturbed a c.
Proof.
  intros Hab Hbc Ha. destruct (Hab Ha) as [Hb Hd1].
  destruct (Hbc Hb) as [Hc Hd2]. split; [exact Hc | congruence].
Qed.

(** A method of the parser leaves the disk alone. *)
Lemma undisturbed_run {W D A} (m : M W A) :
  keeps consumed m -> hkeeps (D := D) undisturbed (run m).
Proof.
  intros Hm h Hun. unfold run. specialize (Hm (machine h)).
  destruct (m (machine h)) as [[a | e |] st]; cbn [snd machine disk] in *;
    destruct Hm as (lines & Hlines); rewrite Hlines in Hun;
      (split; [exact (unexported_rest _ _ Hun) | reflexivity]).
Qed.

Lemma quiet_users_get {W} {R : Remote W} self p :
  keeps quiet (_make_api_request self "users.get" p).
Proof.
  intros st; unfold _make_api_request.
  destruct (session_get _ _ _) as [[v | msg] w]; repeat split.
Qed.

(** The shape of the computation decides the step; [leaf] closes what is
    neither a sequence nor a branch. *)
Ltac hkeeps_walk P P_refl P_trans leaf :=
  repeat lazymatch goal with
  | |- hkeeps _ (hbind _ _) => apply (hkeeps_bind P P_trans); [| intros ? ]
  | |- hkeeps _ (hret _) => apply (hkeeps_hret P P_refl)
  | |- hkeeps _ (first_item _) => apply (hkeeps_first_item P P_refl)
  | |- hkeeps _ pending => apply (hkeeps_pending P P_refl)
  | |- hkeeps _ (match ?x with _ => _ end) => destruct x
  | |- hkeeps _ _ => leaf
  end.

Ltac tame_run :=
  lazymatch goal with
  | |- hkeeps _ (run (print _)) =>
    apply hkeeps_run; intros ?; apply quiet_tame, quiet_print
  | |- hkeeps _ (run (input _)) => apply hkeeps_run, tame_input
  | |- hkeeps _ (run (lift _)) => apply hkeeps_run, (keeps_lift tame tame_refl)
  | |- hkeeps _ (run (ret _)) => apply hkeeps_run, (keeps_ret tame tame_refl)
  | |- hkeeps _ (run (_make_api_request _ "users.get" _)) =>
    apply hkeeps_run; intros ?; apply quiet_tame, quiet_users_get
  | |- hkeeps _ (run (if _ then lift _ else ret _)) =>
    apply hkeeps_run, keeps_if;
    [apply (keeps_lift tame tame_refl) | apply (keeps_ret tame tame_refl)]
  end.

Ltac consumed_walk :=
  repeat lazymatch goal with
  | |- keeps _ (bind _ _) =>
    apply (keeps_bind consumed consumed_trans); [| intros ? ]
  | |- keeps _ (ret _) => apply (keeps_ret consumed consumed_refl)
  | |- keeps _ (lift _) => apply (keeps_lift consumed consumed_refl)
  | |- keeps _ (print _) => apply consumed_same; intros ?; reflexivity
  | |- keeps _ (input _) => apply consumed_input
  | |- keeps _ (_make_api_request _ _ _) => apply consumed_request
  | |- keeps _ (if _ then _ else _) => apply keeps_if
  end.

Ltac undisturbed_run :=
  lazymatch goal with
  | |- hkeeps _ (run _) => apply undisturbed_run; consumed_walk
  end.

Section ScriptInvariants.

Context {W D : Type} {R : Remote W} {C : Clock} {F : Disk D}.

Lemma show_menu_quiet : keeps quiet (@show_menu W).
Proof.
  unfold show_menu.
  repeat (apply (keeps_bind quiet quiet_trans);
          [apply quiet_print | intros _]).
  apply quiet_print.
Qed.

Lemma report_deletion_quiet ok : keeps quiet (@report_deletion W ok).
Proof. unfold report_deletion. destruct ok; apply quiet_print. Qed.

Lemma save_posts_to_file_tame texts filename :
  hkeeps (on_machine tame) (save_posts_to_file (W := W) texts filename).
Proof.
  intros h. unfold save_posts_to_file, on_machine.
  destruct (write_file (disk h) filename (file_text texts)) as [d [|]];
    cbn [snd machine].
  - apply quiet_tame, quiet_print.
  - apply tame_refl.
Qed.

Lemma login_vk_tame self :
  hkeeps (on_machine tame) (login_vk (W := W) (D := D) self).
Proof.
  unfold login_vk. cbv zeta.
  hkeeps_walk (on_machine (D := D) (@tame W))
              (on_machine_refl (D := D) (@tame W) tame_refl)
              (on_machine_trans (D := D) (@tame W) tame_trans)
              ltac:(idtac; tame_run).
Qed.

Lemma menu_tame turns fuel parser :
  hkeeps (on_machine tame) (menu turns fuel parser).
Proof.
  induction turns as [|turns IH]; cbn [menu].
  - apply (hkeeps_pending (on_machine tame) (on_machine_refl tame tame_refl)).
  - cbv zeta.
    hkeeps_walk (on_machine (D := D) (@tame W))
                (on_machine_refl (D := D) (@tame W) tame_refl)
                (on_machine_trans (D := D) (@tame W) tame_trans)
                ltac:(idtac; lazymatch goal with
                      | |- hkeeps _ (menu _ _ _) => apply IH
                      | |- hkeeps _ (save_posts_to_file _ _) =>
                        apply save_posts_to_file_tame
                      | |- hkeeps _ (run show_menu) =>
                        apply hkeeps_run; intros ?;
                        apply quiet_tame, show_menu_quiet
                      | |- hkeeps _ (run (report_deletion _)) =>
                        apply hkeeps_run; intros ?;
                        apply quiet_tame, report_deletion_quiet
                      | |- hkeeps _ (run (get_all_posts _ _)) =>
                        apply hkeeps_run, get_all_posts_tame
                      | |- hkeeps _ (run (delete_all_posts _ _)) =>
                        apply hkeeps_run, delete_all_posts_tame
                      | |- hkeeps _
                             (run (delete_posts_with_confirmation _ _)) =>
                        apply hkeeps_run, delete_posts_with_confirmation_tame
                      | |- _ => tame_run
                      end).
Qed.

End ScriptInvariants.

(** X16: whatever the service answers and whatever is typed, [main] sends
    no [wall.delete] as long as no line of the console is [DELETE ALL] or
    [YES I AM SURE]: not through a menu choice, not through a login, not
    through a phrase typed in another case or with spaces around it. *)
Theorem main_deletes_only_on_confirmation
        {W D : Type} {R : Remote W} {C : Clock} {F : Disk D}
        (turns fuel : nat) (h : host W D) :
  unconfirmed (stdin (machine h)) = true ->
  delete_calls (trace (machine (snd (main turns fuel h))))
  = delete_calls (trace (machine h)).
Proof.
  assert (Hmain : hkeeps (on_machine tame) (main turns fuel)).
  { unfold main. cbv zeta.
    hkeeps_walk (on_machine (D := D) (@tame W))
                (on_machine_refl (D := D) (@tame W) tame_refl)
                (on_machine_trans (D := D) (@tame W) tame_trans)
                ltac:(idtac; lazymatch goal with
                      | |- hkeeps _ (login_vk _) => apply login_vk_tame
                      | |- hkeeps _ (menu _ _ _) => apply menu_tame
                      | |- _ => tame_run
                      end). }
  intros Hun. apply (Hmain h Hun).
Qed.

Lemma main_deletes_only_on_confirmation_witness :
  let h := boot (D := list (string * list frag))
                [users_answer 42; page [post 1 "first" 0];
                 page [post 1 "first" 0]; deleted_ok]
                []
                [u "me"; u "secret"; u "token";
                 u "3"; u "delete all";
                 u "4"; u "DELETE MY POSTS"; u "yes i am sure";
                 u "DELETE ALL "; u "0"] in
  unconfirmed (stdin (machine h)) = true
  /\ fst (main (R := Scripted) (C := digit_clock) (F := Files) 9 3 h)
     = Done tt
  /\ delete_calls
       (trace (machine (snd (main (R := Scripted) (C := digit_clock)
                                  (F := Files) 9 3 h))))
     = delete_calls (trace (machine h)).
Proof.
  intros h. split; [reflexivity|]. split; [reflexivity|].
  apply (main_deletes_only_on_confirmation
           (R := Scripted) (C := digit_clock) (F := Files) 9 3 h).
  reflexivity.
Defined.

Section DiskInvariant.

Context {W D : Type} {R : Remote W} {C : Clock} {F : Disk D}.

Lemma login_vk_undisturbed self :
  hkeeps undisturbed (login_vk (W := W) (D := D) self).
Proof.
  unfold login_vk. cbv zeta.
  hkeeps_walk (@undisturbed W D) (@undisturbed_refl W D)
              (@undisturbed_trans W D) ltac:(idtac; undisturbed_run).
Qed.

Lemma show_menu_consumed : keeps consumed (@show_menu W).
Proof. intros st. apply quiet_consumed, show_menu_quiet. Qed.

Lemma report_deletion_consumed ok : keeps consumed (@report_deletion W ok).
Proof. intros st. apply quiet_consumed, report_deletion_quiet. Qed.

Lemma menu_undisturbed turns fuel parser :
  hkeeps undisturbed (menu turns fuel parser).
Proof.
  induction turns as [|turns IH]; cbn [menu].
  - apply (hkeeps_pending undisturbed undisturbed_refl).
  - cbv zeta.
    apply (hkeeps_bind undisturbed undisturbed_trans);
      [apply undisturbed_run, show_menu_consumed | intros _].
    intros h Hun.
    destruct (stdin (machine h)) as [|line rest] eqn:Hin.
    + unfold hbind, run, input. rewrite Hin. cbn [snd machine disk stdin].
      split; reflexivity.
    + rewrite (hbind_input _ _ _ line rest) by exact Hin.
      unfold unexported in Hun. cbn [forallb] in Hun.
      apply andb_prop in Hun. destruct Hun as [Hline Hrest].
      unfold chooses_export in Hline. apply negb_true_iff in Hline.
      rewrite Hline.
      match goal with
      | |- context [snd (?rest_of_turn ?h1)] =>
        assert (Hturn : hkeeps undisturbed rest_of_turn)
      end.
      { hkeeps_walk (@undisturbed W D) (@undisturbed_refl W D)
                    (@undisturbed_trans W D)
                    ltac:(idtac; lazymatch goal with
                          | |- hkeeps _ (menu _ _ _) => apply IH
                          | |- hkeeps _ (run (report_deletion _)) =>
                            apply undisturbed_run, report_deletion_consumed
                          | |- hkeeps _ (run (get_all_posts _ _)) =>
                            apply undisturbed_run, get_all_posts_consumed
                          | |- hkeeps _ (run (delete_all_posts _ _)) =>
                            apply undisturbed_run, delete_all_posts_consumed
                          | |- hkeeps _
                                 (run (delete_posts_with_confirmation _ _)) =>
                            apply undisturbed_run,
                              delete_posts_with_confirmation_consumed
                          | |- _ => undisturbed_run
                          end). }
      match goal with
      | |- context [snd (?rest_of_turn ?h1)] =>
        destruct (Hturn h1) as [Hend Hdisk]; [exact Hrest|]
      end.
      split; [exact Hend | exact Hdisk].
Qed.

End DiskInvariant.

(** X17: whatever the service answers and whatever is typed, [main]
    leaves the disk as it found it as long as no line of the console is
    the choice [1] (with or without spaces around it): no other choice, no
    login and no deletion writes a file. *)
Theorem main_writes_only_on_export
        {W D : Type} {R : Remote W} {C : Clock} {F : Disk D}
        (turns fuel : nat) (h : host W D) :
  unexported (stdin (machine h)) = true ->
  disk (snd (main turns fuel h)) = disk h.
Proof.
  assert (Hmain : hkeeps undisturbed (main turns fuel)).
  { unfold main. cbv zeta.
    hkeeps_walk (@undisturbed W D) (@undisturbed_refl W D)
                (@undisturbed_trans W D)
                ltac:(idtac; lazymatch goal with
                      | |- hkeeps _ (login_vk _) => apply login_vk_undisturbed
                      | |- hkeeps _ (menu _ _ _) => apply menu_undisturbed
                      | |- _ => undisturbed_run
                      end). }
  intros Hun. apply (Hmain h Hun).
Qed.

Lemma main_writes_only_on_export_witness :
  let h := boot [users_answer 42; page [post 1 "first" 0];
                 page [post 1 "first" 0]; deleted_ok]
                [("vk_posts.txt"%string, [Lit "kept"])]
                [u "me"; u "secret"; u "token";
                 u "2"; u "3"; u "DELETE ALL"; u "one"; u "0"] in
  unexported (stdin (machine h)) = true
  /\ fst (main (R := Scripted) (C := digit_clock) (F := Files) 9 3 h)
     = Done tt
  /\ disk (snd (main (R := Scripted) (C := digit_clock) (F := Files) 9 3 h))
     = disk h.
Proof.
  intros h. split; [reflexivity|]. split; [reflexivity|].
  apply (main_writes_only_on_export
           (R := Scripted) (C := digit_clock) (F := Files) 9 3 h).
  reflexivity.
Defined.

(** ** The script around its methods *)

Section MainSteps.

Context {W D : Type} {R : Remote W} {C : Clock} {F : Disk D}.

Lemma login_vk_blank (self : VKParser) (h : host W D) line rest :
  stdin (machine h) = line :: rest ->
  strip line = [] ->
  login_vk self h
  = (Done (false, with_token self []), after_login_prompt h rest).
Proof.
  intros Hin Hline.
  rewrite (login_vk_prompted self h line rest Hin). cbv zeta.
  rewrite Hline. reflexivity.
Qed.

Lemma login_vk_rejected (self : VKParser) (h : host W D) line rest hr w :
  stdin (machine h) = line :: rest ->
  strip line <> [] ->
  session_get (remote (machine h)) (api_url "users.get")
              (sent (with_token self (strip line)) []) = (hr, w) ->
  no_envelope (answer hr) ->
  login_vk self h
  = (Done (false, with_token self (strip line)),
     mkHost
       (with_event (Print [Lit "Ошибка авторизации. Проверьте токен."])
          (after_request (with_token self (strip line)) "users.get" [] hr w
             (machine (after_login_prompt h rest))))
       (disk h)).
Proof.
  intros Hin Hline Hget Hno.
  rewrite (login_vk_prompted self h line rest Hin). cbv zeta.
  assert (Htoken : no_token (with_token self (strip line)) = false).
  { unfold no_token, with_token. cbn [access_token].
    destruct (strip line); [contradiction | reflexivity]. }
  rewrite Htoken. cbn [negb].
  rewrite (hbind_request _ _ _ _ (after_login_prompt h rest) hr w)
    by exact Hget.
  assert (Hok : (if truthy (answer hr)
                 then lift (contains (u "response") (answer hr))
                 else ret false)
                = (@ret W bool false)).
  { destruct Hno as [-> | (d & -> & Hd)]; [reflexivity|].
    destruct d as [|kv d]; [reflexivity|].
    cbn [truthy contains]. rewrite Hd. reflexivity. }
  rewrite Hok, hbind_ret. cbv iota. rewrite hbind_print. reflexivity.
Qed.

Lemma main_credentials turns fuel (h : host W D) l p rest :
  stdin (machine h) = l :: p :: rest ->
  main turns fuel h
  = hbind (login_vk (VKParser_init (strip l) (strip p)))
          (fun logged =>
             if fst logged then menu turns fuel (snd logged) else hret tt)
          (after_credentials h rest).
Proof.
  intros Hin. unfold main.
  rewrite !hbind_print.
  rewrite (hbind_input _ _ _ l (p :: rest)) by exact Hin.
  rewrite (hbind_input _ _ _ p rest) by reflexivity.
  reflexivity.
Qed.

Lemma menu_choice turns fuel parser (h : host W D) line rest :
  stdin (machine h) = line :: rest ->
  menu (S turns) fuel parser h
  = (let choice := strip line in
     if str_eqb choice (u "1") then
       hbind (run (get_all_posts fuel parser))
         (fun posts =>
            match posts with
            | _ :: _ =>
              hbind (run (lift (extract_text_from_posts posts)))
                (fun post_texts =>
                   hbind (save_posts_to_file post_texts default_filename)
                     (fun _ =>
                        hbind
                          (run (print
                                  [Lit "Сохранено ";
                                   Num (Z.of_nat (List.length post_texts));
                                   Lit " постов"]))
                          (fun _ => menu turns fuel parser)))
            | [] =>
              hbind (run (print [Lit "Постов нет или ошибка получения"]))
                (fun _ => menu turns fuel parser)
            end)
     else if str_eqb choice (u "2") then
       hbind (run (get_all_posts fuel parser))
         (fun posts =>
            hbind (run (print [Lit "Всего постов на стене: ";
                               Num (Z.of_nat (List.length posts))]))
              (fun _ => menu turns fuel parser))
     else if str_eqb choice (u "3") then
       hbind (run (delete_all_posts fuel parser))
         (fun ok =>
            hbind (run (report_deletion ok))
              (fun _ => menu turns fuel parser))
     else if str_eqb choice (u "4") then
       hbind (run (delete_posts_with_confirmation fuel parser))
         (fun ok =>
            hbind (run (report_deletion ok))
              (fun _ => menu turns fuel parser))
     else if str_eqb choice (u "0") then run (print [Lit "Выход..."])
     else
       hbind (run (print [Lit "Неверный выбор"]))
         (fun _ => menu turns fuel parser)) (after_choice h rest).
Proof.
  intros Hin. cbn [menu].
  rewrite (hbind_run show_menu _ h tt
             (with_event (Print [Lit "0 - Выход"])
                (with_event
                   (Print [Lit "4 - Удалить все посты (ПОДРОБНОЕ ПОДТВЕРЖДЕНИЕ)"])
                   (with_event
                      (Print [Lit "3 - Удалить все посты (БЫСТРОЕ ПОДТВЕРЖДЕНИЕ)"])
                      (with_event
                         (Print [Lit "2 - Просмотреть количество постов"])
                         (with_event
                            (Print [Lit "1 - Получить все посты и сохранить в файл"])
                            (with_event
                               (Print [Lit nl; Lit "Выберите действие:"])
                               (machine h))))))))
    by reflexivity.
  rewrite (hbind_input _ _ _ line rest) by exact Hin.
  reflexivity.
Qed.

End MainSteps.

(** X18: when the login is refused, [main] ends at once, without showing
    its menu: three lines were read (login, password, token) and no more.
    With a blank token no request was sent at all; with a token the service
    does not accept (no answer, or an answer without the envelope) the one
    request was [users.get].  The disk is untouched. *)
Theorem main_ends_on_refused_login
        {W D : Type} {R : Remote W} {C : Clock} {F : Disk D}
        (turns fuel : nat) (h : host W D) (l p t : pystr)
        (rest : list pystr) :
  stdin (machine h) = l :: p :: t :: rest ->
  let self := with_token (VKParser_init (strip l) (strip p)) (strip t) in
  (strip t = [] ->
   exists h1,
     main turns fuel h = (Done tt, h1)
     /\ request_log (trace (machine h1)) = request_log (trace (machine h))
     /\ prompts (trace (machine h1)) = (prompts (trace (machine h)) + 3)%nat
     /\ stdin (machine h1) = rest
     /\ disk h1 = disk h)
  /\ (strip t <> [] ->
      forall hr w,
        session_get (remote (machine h)) (api_url "users.get") (sent self [])
        = (hr, w) ->
        no_envelope (answer hr) ->
        exists h1,
          main turns fuel h = (Done tt, h1)
          /\ request_log (trace (machine h1))
             = request_log (trace (machine h))
               ++ [Get (api_url "users.get") (sent self [])]
          /\ prompts (trace (machine h1))
             = (prompts (trace (machine h)) + 3)%nat
          /\ stdin (machine h1) = rest
          /\ disk h1 = disk h).
Proof.
  intros Hin self.
  rewrite (main_credentials turns fuel h l p (t :: rest) Hin).
  split.
  - intros Ht. unfold hbind at 1.
    pose proof (login_vk_blank (VKParser_init (strip l) (strip p))
                  (after_credentials h (t :: rest)) t rest eq_refl Ht)
      as Hlogin.
    eexists; split; [rewrite Hlogin; reflexivity|].
    cbn [machine disk stdin trace after_login_prompt after_credentials
         after_prompt with_event].
    unfold prompts. rewrite !request_log_cons, !count_events_cons.
    cbn [is_request is_input]. rewrite !app_nil_r.
    repeat split. lia.
  - intros Ht hr w Hget Hno. unfold hbind at 1.
    pose proof (login_vk_rejected (VKParser_init (strip l) (strip p))
                  (after_credentials h (t :: rest)) t rest hr w eq_refl Ht
                  Hget Hno) as Hlogin.
    eexists; split; [rewrite Hlogin; reflexivity|].
    cbn [machine disk stdin trace after_login_prompt after_credentials
         after_prompt with_event after_request].
    unfold prompts.
    destruct hr; cbn [app];
      rewrite !request_log_cons, !count_events_cons;
      cbn [is_request is_input]; rewrite !app_nil_r;
        (split; [reflexivity | split; [lia | split; reflexivity]]).
Qed.

Lemma main_ends_on_refused_login_witness :
  let h := boot (D := unit) [page [post 1 "first" 0]] tt
                [u "me"; u "secret"; u "   "; u "3"; u "DELETE ALL"] in
  stdin (machine h) = [u "me"; u "secret"; u "   "; u "3"; u "DELETE ALL"]
  /\ strip (u "   ") = []
  /\ exists h1,
       main (R := Scripted) (C := digit_clock) (F := ReadOnly) 5 3 h
       = (Done tt, h1)
       /\ request_log (trace (machine h1)) = request_log (trace (machine h))
       /\ stdin (machine h1) = [u "3"; u "DELETE ALL"].
Proof.
  intros h. split; [reflexivity|]. split; [reflexivity|].
  destruct (main_ends_on_refused_login
              (R := Scripted) (C := digit_clock) (F := ReadOnly) 5 3 h
              (u "me") (u "secret") (u "   ") [u "3"; u "DELETE ALL"] eq_refl)
    as [Hblank _].
  destruct (Hblank eq_refl) as (h1 & Hrun & Hlog & _ & Hin & _).
  exists h1. split; [exact Hrun|]. split; [exact Hlog | exact Hin].
Defined.

(** X19: in the menu of [main], a fast deletion that the user cancels (a
    line other than [DELETE ALL] at the confirmation) is reported with the
    message of a failed deletion: "Операция отменена." is followed by
    "Удаление завершено с ошибками", though nothing was requested; then the
    menu comes back. *)
Theorem cancelled_deletion_reported_as_failed
        {W D : Type} {R : Remote W} {C : Clock} {F : Disk D}
        (turns fuel : nat) (parser : VKParser) (h : host W D)
        (line c : pystr) (rest : list pystr) :
  no_token parser = false ->
  stdin (machine h) = line :: c :: rest ->
  strip line = u "3" ->
  c <> u "DELETE ALL" ->
  exists h1,
    menu (S turns) fuel parser h = menu turns fuel parser h1
    /\ firstn 2 (trace (machine h1))
       = [Print [Lit "Удаление завершено с ошибками"]; cancelled]
    /\ request_log (trace (machine h1)) = request_log (trace (machine h))
    /\ stdin (machine h1) = rest
    /\ disk h1 = disk h.
Proof.
  intros Htoken Hin Hline Hc.
  rewrite (menu_choice turns fuel parser h line (c :: rest) Hin). cbv zeta.
  rewrite Hline.
  change (str_eqb (u "3") (u "1")) with false.
  change (str_eqb (u "3") (u "2")) with false.
  change (str_eqb (u "3") (u "3")) with true.
  cbv iota.
  pose proof (delete_all_posts_prompted fuel parser
                (machine (after_choice h (c :: rest))) c rest Htoken eq_refl)
    as Hrun.
  apply str_eqb_neq in Hc. rewrite Hc in Hrun.
  rewrite (hbind_run _ _ _ _ _ Hrun).
  cbn [report_deletion]. rewrite hbind_print.
  eexists; split; [reflexivity|].
  cbn [machine disk stdin trace with_event after_fast_prompt after_choice
       after_prompt firstn].
  rewrite !request_log_cons. cbn [is_request]. rewrite !app_nil_r.
  repeat split.
Qed.

Lemma cancelled_deletion_reported_as_failed_witness :
  let h := boot (D := unit) [page [post 1 "first" 0]; deleted_ok] tt
                [u " 3"; u "no"; u "0"] in
  no_token authorised = false
  /\ stdin (machine h) = [u " 3"; u "no"; u "0"]
  /\ strip (u " 3") = u "3"
  /\ u "no" <> u "DELETE ALL"
  /\ exists h1,
       menu (R := Scripted) (C := digit_clock) (F := ReadOnly) 2 3
            authorised h
       = menu (R := Scripted) (C := digit_clock) (F := ReadOnly) 1 3
              authorised h1
       /\ firstn 2 (trace (machine h1))
          = [Print [Lit "Удаление завершено с ошибками"]; cancelled].
Proof.
  intros h.
  split; [reflexivity|]. split; [reflexivity|]. split; [reflexivity|].
  split; [discriminate|].
  destruct (cancelled_deletion_reported_as_failed
              (R := Scripted) (C := digit_clock) (F := ReadOnly) 1 3
              authorised h (u " 3") (u "no") [u "0"]
              eq_refl eq_refl eq_refl ltac:(discriminate))
    as (h1 & Hrun & Htrace & _).
  exists h1. split; [exact Hrun | exact Htrace].
Defined.

(** X20: the export of the menu of [main].  When the enumeration returns
    no post (an empty wall, or a failed first fetch) one message is printed
    and no file is written.  When it returns posts, the blocks the exporter
    makes of them are written to [vk_posts.txt], headed by their number,
    and that number is reported; a write the disk refuses ends the script
    with [OSError]. *)
Theorem export_choice
        {W D : Type} {R : Remote W} {C : Clock} {F : Disk D}
        (turns fuel : nat) (parser : VKParser) (h : host W D)
        (line : pystr) (rest : list pystr) (posts : list pyval)
        (st1 : state W) :
  stdin (machine h) = line :: rest ->
  strip line = u "1" ->
  get_all_posts fuel parser (machine (after_choice h rest))
  = (Returns posts, st1) ->
  (posts = [] ->
   menu (S turns) fuel parser h
   = menu turns fuel parser
       (mkHost (with_event (Print [Lit "Постов нет или ошибка получения"])
                           st1)
               (disk h)))
  /\ (posts <> [] ->
      forall texts d ok,
        extract_text_from_posts posts = Ok texts ->
        write_file (disk h) default_filename (file_text texts) = (d, ok) ->
        menu (S turns) fuel parser h
        = if ok then
            menu turns fuel parser
              (mkHost
                 (with_event
                    (Print [Lit "Сохранено ";
                            Num (Z.of_nat (List.length texts));
                            Lit " постов"])
                    (with_event
                       (Print [Lit "Посты сохранены в файл: ";
                               Lit default_filename]) st1))
                 d)
          else (Crashed OSError, mkHost st1 d)).
Proof.
  intros Hin Hline Hrun.
  rewrite (menu_choice turns fuel parser h line rest Hin). cbv zeta.
  rewrite Hline.
  change (str_eqb (u "1") (u "1")) with true. cbv iota.
  rewrite (hbind_run _ _ _ _ _ Hrun).
  split.
  - intros ->. rewrite hbind_print. reflexivity.
  - intros Hposts texts d ok Htexts Hwrite.
    destruct posts as [|post0 posts0]; [contradiction|].
    rewrite Htexts, hbind_lift_ok.
    unfold hbind at 1, save_posts_to_file.
    cbn [machine disk after_choice]. rewrite Hwrite.
    destruct ok; [rewrite hbind_print|]; reflexivity.
Qed.
Lemma export_choice_witness :
  let posts := [post 1 "hello" 3; post 2 "  " 4] in
  let old := [("notes.txt"%string, [Lit "kept"])] in
  let h := boot [page posts] old [u "1 "; u "0"] in
  let st1 := snd (get_all_posts (R := Scripted) 3 authorised
                                (machine (after_choice h [u "0"]))) in
  let texts := [block [51%N] (PStr (u "hello"))] in
  let d := (default_filename, file_text texts) :: old in
  stdin (machine h) = [u "1 "; u "0"]
  /\ strip (u "1 ") = u "1"
  /\ get_all_posts (R := Scripted) 3 authorised
                   (machine (after_choice h [u "0"]))
     = (Returns posts, st1)
  /\ posts <> []
  /\ extract_text_from_posts (C := digit_clock) posts = Ok texts
  /\ write_file (Disk := Files) (disk h) default_filename (file_text texts)
     = (d, true)
  /\ menu (R := Scripted) (C := digit_clock) (F := Files) 2 3 authorised h
     = (if true then
          menu (R := Scripted) (C := digit_clock) (F := Files) 1 3 authorised
               (mkHost
                  (with_event
                     (Print [Lit "Сохранено ";
                             Num (Z.of_nat (List.length texts));
                             Lit " постов"])
                     (with_event
                        (Print [Lit "Посты сохранены в файл: ";
                                Lit default_filename]) st1))
                  d)
        else (Crashed OSError, mkHost st1 d)).
Proof.
  intros posts old h st1 texts d.
  assert (Hin : stdin (machine h) = [u "1 "; u "0"]) by reflexivity.
  assert (Hline : strip (u "1 ") = u "1") by (vm_compute; reflexivity).
  assert (Hrun : get_all_posts (R := Scripted) 3 authorised
                               (machine (after_choice h [u "0"]))
                 = (Returns posts, st1)) by (vm_compute; reflexivity).
  assert (Htexts : extract_text_from_posts (C := digit_clock) posts
                   = Ok texts) by (vm_compute; reflexivity).
  assert (Hwrite : write_file (Disk := Files) (disk h) default_filename
                              (file_text texts) = (d, true))
    by (vm_compute; reflexivity).
  split; [exact Hin|]. split; [exact Hline|]. split; [exact Hrun|].
  split; [discriminate|]. split; [exact Htexts|]. split; [exact Hwrite|].
  destruct (export_choice (R := Scripted) (C := digit_clock) (F := Files)
              1 3 authorised h (u "1 ") [u "0"] posts st1 Hin Hline Hrun)
    as [_ Hposts].
  exact (Hposts ltac:(discriminate) texts d true Htexts Hwrite).
Defined.
